(** * MedleyDB multitrack loader: a shallow embedding of [medleydb/multitrack.py]

    The Python module is modelled function by function.  Exceptions are an
    explicit result type, printing and file-system access are recorded in a
    chronological event log, objects with mutable attributes are records
    threaded through their accessors, and insertion-ordered [dict]s are
    association lists with Python's update-in-place assignment.

    Python 3 semantics is assumed ([str] has [__iter__], dictionaries iterate
    in insertion order).  Strings are byte strings restricted to ASCII. *)

From Stdlib Require Import ZArith List String Ascii Bool Lia.
From Stdlib Require Import DecimalString DecimalPos DecimalN.
From stdpp Require Import base decidable option list strings sorting.

Local Open Scope string_scope.
Local Open Scope list_scope.
Local Open Scope Z_scope.

(** ** Exceptions *)

Inductive exn : Type :=
  | IOError (msg : string)
  | IndexError
  | KeyError
  | ValueError
  | TypeError
  | StopIteration
  | ZeroDivisionError
  | AttributeError
  | ExternalError (msg : string).

Inductive result (A : Type) : Type :=
  | Ok (a : A)
  | Raise (e : exn).

Arguments Ok {A} a.
Arguments Raise {A} e.

Definition is_ok {A} (r : result A) : bool :=
  match r with Ok _ => true | Raise _ => false end.

(** ** Python string primitives *)

Module PyStr.

(** [s.lstrip(c)] for a one-character argument. *)
Fixpoint lstrip (c : ascii) (s : string) : string :=
  match s with
  | EmptyString => EmptyString
  | String a s' => if Ascii.eqb a c then lstrip c s' else s
  end.

(** [s.rstrip(c)] for a one-character argument. *)
Fixpoint rstrip (c : ascii) (s : string) : string :=
  match s with
  | EmptyString => EmptyString
  | String a s' =>
      match rstrip c s' with
      | EmptyString => if Ascii.eqb a c then EmptyString else String a EmptyString
      | r => String a r
      end
  end.

(** [s.strip(c)]: every leading and every trailing occurrence of [c] goes. *)
Definition strip (c : ascii) (s : string) : string := rstrip c (lstrip c s).

(** [s[1:]] *)
Definition tail (s : string) : string :=
  match s with
  | EmptyString => EmptyString
  | String _ s' => s'
  end.

(** [s.split(c)] for a one-character separator: never an empty list. *)
Fixpoint split (c : ascii) (s : string) : list string :=
  match s with
  | EmptyString => [EmptyString]
  | String a s' =>
      if Ascii.eqb a c then EmptyString :: split c s'
      else match split c s' with
           | [] => [String a EmptyString]
           | w :: ws => String a w :: ws
           end
  end.

(** The characters [int()] treats as blanks on an ASCII string: tab, line
    feed, vertical tab, form feed, carriage return and the space. *)
Definition is_space (a : ascii) : bool :=
  let n := N_of_ascii a in
  ((9 <=? n) && (n <=? 13) || (n =? 32))%N.

Definition is_digit (a : ascii) : bool :=
  let n := N_of_ascii a in ((48 <=? n) && (n <=? 57))%N.

Definition digit_val (a : ascii) : Z := Z.of_N (N_of_ascii a) - 48.

Fixpoint lstrip_space (s : string) : string :=
  match s with
  | EmptyString => EmptyString
  | String a s' => if is_space a then lstrip_space s' else s
  end.

Fixpoint rstrip_space (s : string) : string :=
  match s with
  | EmptyString => EmptyString
  | String a s' =>
      match rstrip_space s' with
      | EmptyString => if is_space a then EmptyString else String a EmptyString
      | r => String a r
      end
  end.

(** Decimal digits, a single underscore allowed between two digits.
    [prev] tells whether the previous character was a digit. *)
Fixpoint digits (acc : Z) (prev : bool) (s : string) : option Z :=
  match s with
  | EmptyString => if prev then Some acc else None
  | String a s' =>
      if is_digit a then digits (10 * acc + digit_val a) true s'
      else if Ascii.eqb a "_"%char then
             (if prev then digits acc false s' else None)
      else None
  end.

(** [int(s)] on a string: blanks around, an optional sign, base ten. *)
Definition int (s : string) : result Z :=
  let body := rstrip_space (lstrip_space s) in
  let signed :=
    match body with
    | String "-"%char r => (-1, r)
    | String "+"%char r => (1, r)
    | _ => (1, body)
    end in
  match digits 0 false (snd signed) with
  | Some n => Ok (fst signed * n)
  | None => Raise ValueError
  end.

(** [c * n] and [c in s] for a character [c]. *)
Fixpoint rep (c : ascii) (n : nat) : string :=
  match n with
  | O => EmptyString
  | S n' => String c (rep c n')
  end.

Fixpoint contains (c : ascii) (s : string) : bool :=
  match s with
  | EmptyString => false
  | String a s' => Ascii.eqb a c || contains c s'
  end.

(** [str(n)] for a natural number. *)
Definition decimal (n : N) : string :=
  DecimalString.NilEmpty.string_of_uint (N.to_uint n).

(** [os.path.join] (POSIX). *)
Fixpoint ends_with (c : ascii) (s : string) : bool :=
  match s with
  | EmptyString => false
  | String a EmptyString => Ascii.eqb a c
  | String _ s' => ends_with c s'
  end.

Definition path_join (a b : string) : string :=
  match b with
  | String "/"%char _ => b
  | _ => if String.eqb a EmptyString || ends_with "/" a then a +:+ b
         else a +:+ "/" +:+ b
  end.

End PyStr.

(** [no c s]: the character [c] does not occur in [s]. *)
Definition no (c : ascii) (s : string) : Prop := PyStr.contains c s = false.

(** Strings made of decimal digits only. *)
Definition all_digits (s : string) : Prop :=
  forall c, PyStr.is_digit c = false -> no c s.

(** ** [format_index] *)

(** The values [format_index] is called on: [None], an [int], a [str]. *)
Inductive index_arg : Type :=
  | IdxNone
  | IdxInt (n : Z)
  | IdxStr (s : string).

Definition format_index (index : index_arg) : result (option Z) :=
  match index with
  | IdxStr s =>
      match PyStr.int (PyStr.strip "R" (PyStr.strip "S" s)) with
      | Ok n => Ok (Some n)
      | Raise e => Raise e
      end
  | IdxNone => Ok None
  | IdxInt n => Ok (Some n)
  end.

(** What the specification describes instead: drop one leading [S] or [R],
    then parse. *)
Definition format_index_single_prefix (s : string) : result (option Z) :=
  let rest :=
    match s with
    | String "S"%char r => r
    | String "R"%char r => r
    | _ => s
    end in
  match PyStr.int rest with
  | Ok n => Ok (Some n)
  | Raise e => Raise e
  end.

(** [s.startswith(c)] for a character [c]; [PyStr.ends_with] is
    [s.endswith(c)]. *)
Definition starts_with (c : ascii) (s : string) : bool :=
  match s with
  | String a _ => Ascii.eqb a c
  | EmptyString => false
  end.

(** The specification's "every leading and every trailing [c] removed":
    [s] is [core] between two runs of [c], and [core] neither begins nor
    ends with [c]. *)
Definition stripped_of (c : ascii) (s core : string) : Prop :=
  (exists j k, s = PyStr.rep c j +:+ core +:+ PyStr.rep c k) /\
  starts_with c core = false /\ PyStr.ends_with c core = false.

(** ** Insertion-ordered dictionaries *)

Module PyDict.
Section Dict.
Context {K V : Type} `{EqDecision K}.

Definition dict : Type := list (K * V).

(** [d[k]] / [k in d] *)
Fixpoint get (k : K) (d : dict) : option V :=
  match d with
  | [] => None
  | (k', v) :: d' => if decide (k' = k) then Some v else get k d'
  end.

Definition contains (k : K) (d : dict) : bool :=
  match get k d with Some _ => true | None => false end.

(** [d[k] = v]: an existing key keeps its place, a new key goes last. *)
Fixpoint set (k : K) (v : V) (d : dict) : dict :=
  match d with
  | [] => [(k, v)]
  | (k', v') :: d' =>
      if decide (k' = k) then (k', v) :: d' else (k', v') :: set k v d'
  end.

Definition keys (d : dict) : list K := map fst d.
Definition values (d : dict) : list V := map snd d.

(** A dictionary holds each key once. *)
Definition wf (d : dict) : Prop := List.NoDup (keys d).

(** [d[k]] where a missing key raises. *)
Definition item (k : K) (d : dict) : result V :=
  match get k d with Some v => Ok v | None => Raise KeyError end.
End Dict.

(** [a == b] on dictionaries: same size, and every key of [a] is a key of
    [b] with an equal value. *)
Definition eqb {K V : Type} `{EqDecision K} `{EqDecision V}
    (a b : list (K * V)) : bool :=
  (length a =? length b)%nat &&
  forallb (fun kv =>
             match get (fst kv) b with
             | Some v' => bool_decide (snd kv = v')
             | None => false
             end) a.
End PyDict.

(** ** [get_dict_leaves] *)

(** Python values as [get_dict_leaves] sees them.  [A] is the type of the
    hashable objects without [__iter__] (numbers, [Track] instances), [K] the
    type of dictionary keys. *)
#[local] Unset Elimination Schemes.
Inductive pyobj (K A : Type) : Type :=
  | PAtom (a : A)
  | PStr (s : string)
  | PList (xs : list (pyobj K A))
  | PDict (items : list (K * pyobj K A)).
#[local] Set Elimination Schemes.

Arguments PAtom {K A} a.
Arguments PStr {K A} s.
Arguments PList {K A} xs.
Arguments PDict {K A} items.

(** The members a [set] can hold. *)
Inductive hashable (A : Type) : Type :=
  | HAtom (a : A)
  | HStr (s : string).

Arguments HAtom {A} a.
Arguments HStr {A} s.

#[global] Instance hashable_eq_dec {A} `{EqDecision A} : EqDecision (hashable A).
Proof. solve_decision. Defined.

Section Leaves.
Context {K A : Type} `{EqDecision A}.

Definition of_hashable (h : hashable A) : pyobj K A :=
  match h with HAtom a => PAtom a | HStr s => PStr s end.

(** [hash(x)]: lists and dictionaries are unhashable. *)
Definition to_hashable (x : pyobj K A) : result (hashable A) :=
  match x with
  | PAtom a => Ok (HAtom a)
  | PStr s => Ok (HStr s)
  | PList _ | PDict _ => Raise TypeError
  end.

Definition is_dict (x : pyobj K A) : bool :=
  match x with PDict _ => true | _ => false end.

(** [hasattr(x, '__iter__')] *)
Definition has_iter (x : pyobj K A) : bool :=
  match x with PAtom _ => false | _ => true end.

Fixpoint chars (s : string) : list (pyobj K A) :=
  match s with
  | EmptyString => []
  | String a s' => PStr (String a EmptyString) :: chars s'
  end.

(** [for val in x] on a value that is not a dictionary (the function below
    never iterates over a dictionary this way). *)
Definition iterate (x : pyobj K A) : result (list (pyobj K A)) :=
  match x with
  | PAtom _ => Raise TypeError
  | PStr s => Ok (chars s)
  | PList xs => Ok xs
  | PDict items => Ok []
  end.

(** [set(vals)]: the members in first-occurrence order, no duplicates. *)
Fixpoint hash_all (vals : list (pyobj K A)) : result (list (hashable A)) :=
  match vals with
  | [] => Ok []
  | x :: rest =>
      match to_hashable x with
      | Raise e => Raise e
      | Ok h => match hash_all rest with
                | Raise e => Raise e
                | Ok hs => Ok (h :: hs)
                end
      end
  end.

Definition py_set (vals : list (pyobj K A)) : result (list (hashable A)) :=
  match hash_all vals with
  | Ok hs => Ok (remove_dups hs)
  | Raise e => Raise e
  end.

(** The function of the source.  The inner [fix] is the loop
    [for k in dictionary] over the items of the dictionary, returning the
    list [vals] it has appended to. *)
Fixpoint get_dict_leaves (dictionary : pyobj K A) : result (list (hashable A)) :=
  match dictionary with
  | PDict items =>
      let vals :=
        (fix loop (items : list (K * pyobj K A)) : result (list (pyobj K A)) :=
           match items with
           | [] => Ok []
           | (_, v) :: rest =>
               let here :=
                 match v with
                 | PDict _ =>
                     match get_dict_leaves v with
                     | Ok s => Ok (map of_hashable s)
                     | Raise e => Raise e
                     end
                 | _ => if has_iter v then iterate v else Ok [v]
                 end in
               match here with
               | Raise e => Raise e
               | Ok vs => match loop rest with
                          | Raise e => Raise e
                          | Ok more => Ok (vs ++ more)
                          end
               end
           end) items in
      match vals with
      | Ok vs => py_set vs
      | Raise e => Raise e
      end
  | _ =>
      match iterate dictionary with
      | Ok vs => py_set vs
      | Raise e => Raise e
      end
  end.

(** The description of the specification: every value that is not a mapping,
    found under any depth of mappings, an iterable one replaced by its
    elements. *)
Fixpoint leaves (d : pyobj K A) : list (pyobj K A) :=
  match d with
  | PDict items =>
      (fix over (items : list (K * pyobj K A)) : list (pyobj K A) :=
         match items with
         | [] => []
         | (_, v) :: rest =>
             match v with
             | PDict _ => leaves v
             | PList xs => xs
             | PStr s => chars s
             | PAtom _ => [v]
             end ++ over rest
         end) items
  | _ => []
  end.

Definition hashable_obj (x : pyobj K A) : bool :=
  match x with PAtom _ | PStr _ => true | _ => false end.
End Leaves.

(** ** Floats, annotations and the [Track] object *)

(** A Python float, held by its binary64 bit pattern.  The model never
    computes on floats: parsing and division are parameters of the loader.
    Python's [==] on attributes is read as equality of these values (NaN and
    signed zeros, on which the two differ, are outside the model). *)
Record pyfloat : Type := Float64 { float_bits : Z }.

#[global] Instance pyfloat_eq_dec : EqDecision pyfloat.
Proof. solve_decision. Defined.

(** An annotation: the rows of a file, each a list of floats. *)
Definition annotation : Type := list (list pyfloat).

Module Track.
(** The attributes of a [Track] instance, in the order [__init__] assigns
    them. *)
Record t : Type := mk {
  instrument : string;
  f0_type : string;
  file_path : option string;
  component : string;
  ranking : option Z;
  stem_idx : option Z;
  raw_idx : option Z;
  mixing_coefficient : option pyfloat;
  duration : option pyfloat;
  mix_path : option string;
  _pitch_annotation : option annotation;
  _pitch_path : option string
}.

(** [self._pitch_annotation = a] *)
Definition set_pitch_annotation (a : option annotation) (self : t) : t :=
  {| instrument := instrument self; f0_type := f0_type self;
     file_path := file_path self; component := component self;
     ranking := ranking self; stem_idx := stem_idx self;
     raw_idx := raw_idx self;
     mixing_coefficient := mixing_coefficient self;
     duration := duration self; mix_path := mix_path self;
     _pitch_annotation := a; _pitch_path := _pitch_path self |}.

(** The same track with other values in the four attributes that
    [__hash__] does not read. *)
Definition with_unhashed (r : option Z) (m d : option pyfloat)
    (a : option annotation) (self : t) : t :=
  {| instrument := instrument self; f0_type := f0_type self;
     file_path := file_path self; component := component self;
     ranking := r; stem_idx := stem_idx self; raw_idx := raw_idx self;
     mixing_coefficient := m; duration := d; mix_path := mix_path self;
     _pitch_annotation := a; _pitch_path := _pitch_path self |}.
End Track.

#[global] Instance Track_eq_dec : EqDecision Track.t.
Proof. solve_decision. Defined.

(** The values an attribute of a [Track] holds. *)
Inductive attr_value : Type :=
  | VNone
  | VStr (s : string)
  | VInt (n : Z)
  | VFloat (x : pyfloat)
  | VTable (rows : annotation).

#[global] Instance attr_value_eq_dec : EqDecision attr_value.
Proof. solve_decision. Defined.

Definition opt_value {X} (inj : X -> attr_value) (o : option X) : attr_value :=
  match o with Some x => inj x | None => VNone end.

(** [self.__dict__] *)
Definition Track_dict (self : Track.t) : list (string * attr_value) :=
  [ ("instrument", VStr (Track.instrument self));
    ("f0_type", VStr (Track.f0_type self));
    ("file_path", opt_value VStr (Track.file_path self));
    ("component", VStr (Track.component self));
    ("ranking", opt_value VInt (Track.ranking self));
    ("stem_idx", opt_value VInt (Track.stem_idx self));
    ("raw_idx", opt_value VInt (Track.raw_idx self));
    ("mixing_coefficient", opt_value VFloat (Track.mixing_coefficient self));
    ("duration", opt_value VFloat (Track.duration self));
    ("mix_path", opt_value VStr (Track.mix_path self));
    ("_pitch_annotation", opt_value VTable (Track._pitch_annotation self));
    ("_pitch_path", opt_value VStr (Track._pitch_path self)) ].

(** [Track.__eq__] and [Track.__ne__] *)
Definition Track_eq (self other : Track.t) : bool :=
  PyDict.eqb (Track_dict self) (Track_dict other).

Definition Track_ne (self other : Track.t) : bool :=
  negb (PyDict.eqb (Track_dict self) (Track_dict other)).

(** The tuple [Track.__hash__] hands to [hash]. *)
Definition Track_hash_key (self : Track.t) : list attr_value :=
  [ VStr (Track.instrument self);
    opt_value VStr (Track.file_path self);
    VStr (Track.component self);
    opt_value VInt (Track.stem_idx self);
    opt_value VInt (Track.raw_idx self);
    opt_value VStr (Track.mix_path self);
    opt_value VStr (Track._pitch_path self) ].

(** [Track.__hash__], for the builtin [hash] on tuples. *)
Definition Track_hash (py_hash : list attr_value -> Z) (self : Track.t) : Z :=
  py_hash (Track_hash_key self).

(** ** Effects: exceptions and a chronological log *)

Inductive event : Type :=
  | EvExists (path : string)     (* os.path.exists(path) *)
  | EvOpen (path : string)       (* open(path), the file is read *)
  | EvProbe (path : string)      (* sox.file_info on path *)
  | EvPrint (msg : string).      (* print(msg) *)

#[global] Instance event_eq_dec : EqDecision event.
Proof. solve_decision. Defined.

Definition M (A : Type) : Type := (result A * list event)%type.

Definition ret {A} (a : A) : M A := (Ok a, []).
Definition raise {A} (e : exn) : M A := (Raise e, []).
Definition bind {A B} (m : M A) (k : A -> M B) : M B :=
  match m with
  | (Ok a, w) => let '(r, w') := k a in (r, w ++ w')
  | (Raise e, w) => (Raise e, w)
  end.
Definition lift {A} (r : result A) : M A := (r, []).
Definition emit (e : event) : M unit := (Ok tt, [e]).

Notation "x <- m ;; k" := (bind m (fun x => k))
  (at level 100, m at next level, right associativity).
Notation "m ;;; k" := (bind m (fun _ => k))
  (at level 100, right associativity).

(** Loops: [for x in xs: s = f(s, x)] and [[f(x) for x in xs]]. *)
Fixpoint foldM {S X} (f : S -> X -> M S) (s : S) (xs : list X) : M S :=
  match xs with
  | [] => ret s
  | x :: rest => s' <- f s x ;; foldM f s' rest
  end.

Fixpoint mapR {X Y} (f : X -> result Y) (xs : list X) : result (list Y) :=
  match xs with
  | [] => Ok []
  | x :: rest =>
      match f x with
      | Raise e => Raise e
      | Ok y => match mapR f rest with
                | Raise e => Raise e
                | Ok ys => Ok (y :: ys)
                end
      end
  end.

(** [l[:n]] *)
Definition slice_to {X} (n : Z) (l : list X) : list X :=
  if 0 <=? n then firstn (Z.to_nat n) l
  else firstn (Z.to_nat (Z.of_nat (length l) + n)) l.

(** [l[i]] for [i >= 0] *)
Definition index {X} (i : nat) (l : list X) : result X :=
  match nth_error l i with Some x => Ok x | None => Raise IndexError end.

(** ** The metadata document, the file system and the package globals *)

Record raw_entry : Type := {
  raw_instrument : string;
  raw_filename : string
}.

Record stem_entry : Type := {
  stem_instrument : string;
  stem_component : string;
  stem_filename : string;
  stem_raw : list (string * raw_entry)
}.

(** The value of [yaml.load] on a metadata file that follows the layout of
    the dataset; the lists are the dictionaries in iteration order. *)
Record metadata : Type := {
  md_excerpt : string;
  md_has_bleed : string;
  md_instrumental : string;
  md_origin : string;
  md_genre : string;
  md_version : string;
  md_stems : list (string * stem_entry)
}.

(** What the external libraries return on each path: [os.path.exists],
    [yaml.load], the rows [csv.reader] yields, and the two [sox] probes. *)
Record filesystem : Type := {
  fs_exists : string -> bool;
  fs_yaml : string -> result metadata;
  fs_csv : string -> list (list string);
  sox_num_samples : string -> result pyfloat;
  sox_sample_rate : string -> result pyfloat
}.

(** The names imported from the package: [from . import ...]. *)
Record config : Type := {
  METADATA_PATH : string;
  ANNOT_PATH : string;
  AUDIO_PATH : option string;
  MIXING_COEFFICIENTS : list (string * list (Z * pyfloat));
  INST_F0_TYPE : list (string * string)
}.

(** [if AUDIO_PATH:] *)
Definition truthy (p : option string) : bool :=
  match p with
  | None => false
  | Some EmptyString => false
  | Some _ => true
  end.

(** [_YESNO[x]] *)
Definition _YESNO (x : string) : result bool :=
  if String.eqb x "yes" then Ok true
  else if String.eqb x "no" then Ok false
  else Raise KeyError.

Module MultiTrack.
(** The attributes of a [MultiTrack] instance. *)
Record t : Type := mk {
  artist : string;
  title : string;
  track_id : string;
  _meta_path : string;
  annotation_dir : string;
  _pitch_path : string;
  audio_path : option string;
  _stem_dir_path : option string;
  _raw_dir_path : option string;
  mix_path : option string;
  _stem_fmt : string;
  _raw_fmt : string;
  _metadata : metadata;
  _melody_rankings_fpath : string;
  melody_rankings : list (Z * Z);
  mixing_coefficients : list (Z * pyfloat);
  stems : list (Z * Track.t);
  raw_audio : list (Z * list (Z * Track.t));
  stem_instruments : list string;
  raw_instruments : list string;
  duration : option pyfloat;
  is_excerpt : bool;
  has_bleed : bool;
  is_instrumental : bool;
  origin : string;
  genre : string;
  metadata_version : string;
  has_melody : bool;
  _melody1_annotation : option annotation;
  _melody2_annotation : option annotation;
  _melody3_annotation : option annotation;
  predominant_stem : option Track.t;
  stem_activations : option annotation;
  stem_activations_idx : list (option Z * nat)
}.

(** [self._melody1_annotation = a1] and so on, the three caches at once. *)
Definition set_melody (a1 a2 a3 : option annotation) (self : t) : t :=
  {| artist := artist self; title := title self; track_id := track_id self;
     _meta_path := _meta_path self; annotation_dir := annotation_dir self;
     _pitch_path := _pitch_path self; audio_path := audio_path self;
     _stem_dir_path := _stem_dir_path self;
     _raw_dir_path := _raw_dir_path self; mix_path := mix_path self;
     _stem_fmt := _stem_fmt self; _raw_fmt := _raw_fmt self;
     _metadata := _metadata self;
     _melody_rankings_fpath := _melody_rankings_fpath self;
     melody_rankings := melody_rankings self;
     mixing_coefficients := mixing_coefficients self;
     stems := stems self; raw_audio := raw_audio self;
     stem_instruments := stem_instruments self;
     raw_instruments := raw_instruments self; duration := duration self;
     is_excerpt := is_excerpt self; has_bleed := has_bleed self;
     is_instrumental := is_instrumental self; origin := origin self;
     genre := genre self; metadata_version := metadata_version self;
     has_melody := has_melody self;
     _melody1_annotation := a1; _melody2_annotation := a2;
     _melody3_annotation := a3;
     predominant_stem := predominant_stem self;
     stem_activations := stem_activations self;
     stem_activations_idx := stem_activations_idx self |}.

Definition set_melody1 (a : option annotation) (self : t) : t :=
  set_melody a (_melody2_annotation self) (_melody3_annotation self) self.
Definition set_melody2 (a : option annotation) (self : t) : t :=
  set_melody (_melody1_annotation self) a (_melody3_annotation self) self.
Definition set_melody3 (a : option annotation) (self : t) : t :=
  set_melody (_melody1_annotation self) (_melody2_annotation self) a self.
End MultiTrack.

(** [sorted] on a list of strings. *)
Definition sorted (l : list string) : list string :=
  merge_sort (fun a b => Is_true (String.leb a b)) l.

(** The two-level [raw_audio] dictionary as a Python value. *)
Definition raw_audio_obj (raw_audio : list (Z * list (Z * Track.t)))
    : pyobj Z Track.t :=
  PDict (map (fun kd => (fst kd,
                         PDict (map (fun jt => (fst jt, PAtom (snd jt)))
                                    (snd kd))))
             raw_audio).

(** ** The loader *)

Section Loader.
(** [float(val)] on a string, and float division. *)
Variable py_float : string -> option pyfloat.
Variable float_div : pyfloat -> pyfloat -> result pyfloat.
Variable fs : filesystem.
Variable cfg : config.

Definition path_exists (path : string) : M bool :=
  emit (EvExists path) ;;; ret (fs_exists fs path).

Definition print (msg : string) : M unit := emit (EvPrint msg).

Definition get_duration (wave_fpath : string) : M pyfloat :=
  emit (EvProbe wave_fpath) ;;;
  n_samples <- lift (sox_num_samples fs wave_fpath) ;;
  sample_rate <- lift (sox_sample_rate fs wave_fpath) ;;
  lift (float_div n_samples sample_rate).

Definition float_of (val : string) : result pyfloat :=
  match py_float val with Some x => Ok x | None => Raise ValueError end.

(** [if num_cols:] holds for an integer other than zero. *)
Definition num_cols_set (num_cols : option Z) : bool :=
  match num_cols with
  | Some n => negb (n =? 0)
  | None => false
  end.

Definition read_row (num_cols : option Z) (line : list string)
    : result (list pyfloat) :=
  let line :=
    match num_cols with
    | Some n => if num_cols_set num_cols then slice_to n line else line
    | None => line
    end in
  mapR float_of line.

(** The rows as the specification words them: every field a float, each
    row cut to its first [num_cols] fields when [num_cols] is given. *)
Definition rows_as_specified (num_cols : option Z)
    (rows : list (list string)) : result annotation :=
  mapR (fun line =>
          mapR float_of
               (match num_cols with
                | Some n => firstn (Z.to_nat n) line
                | None => line
                end)) rows.

Definition read_annotation_file (fpath : string) (num_cols : option Z)
    (header : bool) : M (option annotation * option (list string)) :=
  found <- path_exists fpath ;;
  if found then
    emit (EvOpen fpath) ;;;
    let linereader := fs_csv fs fpath in
    hl <- (if header then
             match linereader with
             | [] => raise StopIteration
             | h :: rest => ret (h, rest)
             end
           else ret ([], linereader)) ;;
    annotation <- lift (mapR (read_row num_cols) (snd hl)) ;;
    ret (Some annotation, Some (fst hl))
  else
    print ("Warning: " +:+ fpath +:+ " does not exist.") ;;;
    ret (None, None).

Definition get_f0_type (instrument : string) : string :=
  match PyDict.get instrument (INST_F0_TYPE cfg) with
  | Some ty => ty
  | None => "?"
  end.

(** [Track.__init__] *)
Definition Track_init (instrument : string) (file_path : option string)
    (stem_idx : index_arg) (mix_path : option string)
    (pitch_path : option string) (raw_idx : index_arg) (component : string)
    (ranking : option Z) (mix_coeff : option pyfloat) : M Track.t :=
  let f0 := get_f0_type instrument in
  sidx <- lift (format_index stem_idx) ;;
  ridx <- lift (format_index raw_idx) ;;
  dur <- match file_path with
         | Some p =>
             found <- path_exists p ;;
             if found then d <- get_duration p ;; ret (Some d)
             else ret None
         | None => ret None
         end ;;
  ret {| Track.instrument := instrument; Track.f0_type := f0;
         Track.file_path := file_path; Track.component := component;
         Track.ranking := ranking; Track.stem_idx := sidx;
         Track.raw_idx := ridx; Track.mixing_coefficient := mix_coeff;
         Track.duration := dur; Track.mix_path := mix_path;
         Track._pitch_annotation := None;
         Track._pitch_path := pitch_path |}.

(** The property [Track.pitch_annotation]: the value returned and the
    object after the call. *)
Definition Track_pitch_annotation (self : Track.t)
    : M (option annotation * Track.t) :=
  match Track._pitch_path self, Track._pitch_annotation self with
  | Some path, None =>
      r <- read_annotation_file path (Some 2) false ;;
      let self' := Track.set_pitch_annotation (fst r) self in
      ret (Track._pitch_annotation self', self')
  | _, _ => ret (Track._pitch_annotation self, self)
  end.

(** [MultiTrack._load_metadata] *)
Definition _load_metadata (_meta_path : string) : M metadata :=
  emit (EvOpen _meta_path) ;;; lift (fs_yaml fs _meta_path).

(** [x[-1]] on the result of a [split], which is never empty. *)
Definition last_field (l : list string) : string := List.last l EmptyString.

Definition first_field (l : list string) : string :=
  match l with x :: _ => x | [] => EmptyString end.

(** [MultiTrack._get_melody_rankings] *)
Definition _get_melody_rankings (_melody_rankings_fpath : string)
    : M (list (Z * Z)) :=
  found <- path_exists _melody_rankings_fpath ;;
  if found then
    emit (EvOpen _melody_rankings_fpath) ;;;
    foldM (fun melody_rankings line =>
             name <- lift (index 0 line) ;;
             stem_idx <- lift (PyStr.int
               (first_field (PyStr.split "."
                  (last_field (PyStr.split "_" name))))) ;;
             rank <- lift (index 1 line) ;;
             ranking <- lift (PyStr.int rank) ;;
             ret (PyDict.set stem_idx ranking melody_rankings))
          [] (fs_csv fs _melody_rankings_fpath)
  else ret [].

(** [os.path.join(d, name)] where [d] may be [None]. *)
Definition join_opt (d : option string) (name : string) : result string :=
  match d with
  | Some d => Ok (PyStr.path_join d name)
  | None => Raise TypeError
  end.

(** The body of the inner loop of [_parse_metadata]: one raw entry. *)
Definition parse_raw (_raw_dir_path mix_path : option string) (stem_idx : Z)
    (ranking : option Z) (raw_audio : list (Z * list (Z * Track.t)))
    (jr : string * raw_entry) : M (list (Z * list (Z * Track.t))) :=
  let j := fst jr in
  raw_idx <- lift (PyStr.int (PyStr.tail j)) ;;
  let instrument := raw_instrument (snd jr) in
  file_path <- (if truthy (AUDIO_PATH cfg) then
                  p <- lift (join_opt _raw_dir_path (raw_filename (snd jr))) ;;
                  ret (Some p)
                else ret None) ;;
  track <- Track_init instrument file_path (IdxInt stem_idx) mix_path None
                      (IdxInt raw_idx) "" ranking None ;;
  let raw_audio :=
    if PyDict.contains stem_idx raw_audio then raw_audio
    else PyDict.set stem_idx [] raw_audio in
  inner <- lift (PyDict.item stem_idx raw_audio) ;;
  ret (PyDict.set stem_idx (PyDict.set raw_idx track inner) raw_audio).

(** The body of the outer loop of [_parse_metadata]: one stem entry. *)
Definition parse_stem (track_id _pitch_path : string)
    (_stem_dir_path _raw_dir_path mix_path : option string)
    (melody_rankings : list (Z * Z))
    (mixing_coefficients : list (Z * pyfloat))
    (acc : list (Z * Track.t) * list (Z * list (Z * Track.t)))
    (ks : string * stem_entry)
    : M (list (Z * Track.t) * list (Z * list (Z * Track.t))) :=
  let k := fst ks in
  stem_idx <- lift (PyStr.int (PyStr.tail k)) ;;
  let instrument := stem_instrument (snd ks) in
  let component := stem_component (snd ks) in
  let ranking := PyDict.get stem_idx melody_rankings in
  file_path <- (if truthy (AUDIO_PATH cfg) then
                  p <- lift (join_opt _stem_dir_path (stem_filename (snd ks))) ;;
                  ret (Some p)
                else ret None) ;;
  let pitch_path :=
    PyStr.path_join _pitch_path
      (track_id +:+ "_STEM_" +:+ PyStr.tail k +:+ ".csv") in
  mix_coeff <- lift (PyDict.item stem_idx mixing_coefficients) ;;
  track <- Track_init instrument file_path (IdxInt stem_idx) mix_path
                      (Some pitch_path) IdxNone component ranking
                      (Some mix_coeff) ;;
  let stems := PyDict.set stem_idx track (fst acc) in
  raw_audio <- foldM (parse_raw _raw_dir_path mix_path stem_idx ranking)
                     (snd acc) (stem_raw (snd ks)) ;;
  ret (stems, raw_audio).

(** [MultiTrack._parse_metadata] *)
Definition _parse_metadata (track_id _pitch_path : string)
    (_stem_dir_path _raw_dir_path mix_path : option string)
    (_metadata : metadata) (melody_rankings : list (Z * Z))
    (mixing_coefficients : list (Z * pyfloat))
    : M (list (Z * Track.t) * list (Z * list (Z * Track.t))) :=
  foldM (parse_stem track_id _pitch_path _stem_dir_path _raw_dir_path
                    mix_path melody_rankings mixing_coefficients)
        ([], []) (md_stems _metadata).

(** [MultiTrack._get_predominant_stem] *)
Definition _get_predominant_stem (melody_rankings : list (Z * Z))
    (stems : list (Z * Track.t)) : result (option Track.t) :=
  if (0 <? length melody_rankings)%nat then
    let predominant_idx :=
      map fst (List.filter (fun kv => snd kv =? 1) melody_rankings) in
    match predominant_idx with
    | predominant_idx :: _ =>
        match PyDict.item predominant_idx stems with
        | Ok track => Ok (Some track)
        | Raise e => Raise e
        end
    | [] => Ok None
    end
  else Ok None.

(** The loop of [_get_activation_annotations] over [enumerate(header)]. *)
Fixpoint activation_columns (i : nat) (header : list string)
    (idx_dict : list (option Z * nat)) : result (list (option Z * nat)) :=
  match header with
  | [] => Ok idx_dict
  | stem_str :: rest =>
      if String.eqb stem_str "time" then
        activation_columns (S i) rest idx_dict
      else
        match format_index (IdxStr stem_str) with
        | Raise e => Raise e
        | Ok stem_idx =>
            activation_columns (S i) rest (PyDict.set stem_idx i idx_dict)
        end
  end.

(** [MultiTrack._get_activation_annotations]; iterating over a header that
    is [None] is a [TypeError]. *)
Definition _get_activation_annotations (annotation_dir track_id : string)
    : M (option annotation * list (option Z * nat)) :=
  let fname := track_id +:+ "_ACTIVATION_CONF.lab" in
  let activation_annotation_fpath := PyStr.path_join annotation_dir fname in
  r <- read_annotation_file activation_annotation_fpath None true ;;
  match snd r with
  | None => raise TypeError
  | Some header =>
      idx_dict <- lift (activation_columns 0 header []) ;;
      ret (fst r, idx_dict)
  end.

(** [[r.instrument for r in get_dict_leaves(self.raw_audio)]] *)
Definition leaf_instruments (raw_audio : list (Z * list (Z * Track.t)))
    : result (list string) :=
  match get_dict_leaves (raw_audio_obj raw_audio) with
  | Raise e => Raise e
  | Ok leaves =>
      mapR (fun r => match r with
                     | HAtom track => Ok (Track.instrument track)
                     | HStr _ => Raise AttributeError
                     end) leaves
  end.

(** The paths [MultiTrack.__init__] derives from the track id. *)
Definition meta_path_of (track_id : string) : string :=
  PyStr.path_join (METADATA_PATH cfg) (track_id +:+ "_METADATA.yaml").

Definition annotation_dir_of (track_id : string) : string :=
  PyStr.path_join (ANNOT_PATH cfg) (track_id +:+ "_ANNOTATIONS").

Definition audio_path_of (track_id : string) : option string :=
  if truthy (AUDIO_PATH cfg) then
    option_map (fun root => PyStr.path_join root track_id) (AUDIO_PATH cfg)
  else None.

Definition audio_file_of (track_id suffix : string) : option string :=
  option_map (fun d => PyStr.path_join d (track_id +:+ suffix))
             (audio_path_of track_id).

Definition activation_path_of (track_id : string) : string :=
  PyStr.path_join (annotation_dir_of track_id)
                  (track_id +:+ "_ACTIVATION_CONF.lab").

(** [MultiTrack.__init__] *)
Definition MultiTrack_init (track_id : string) : M MultiTrack.t :=
  let parts := PyStr.split "_" track_id in
  artist <- lift (index 0 parts) ;;
  title <- lift (index 1 parts) ;;
  let _meta_path := meta_path_of track_id in
  found <- path_exists _meta_path ;;
  if negb found then
    raise (IOError ("Cannot find metadata for " +:+ track_id))
  else
    let annotation_dir := annotation_dir_of track_id in
    let _pitch_path :=
      PyStr.path_join annotation_dir (track_id +:+ "_PITCH") in
    let audio_path := audio_path_of track_id in
    let _stem_dir_path := audio_file_of track_id "_STEMS" in
    let _raw_dir_path := audio_file_of track_id "_RAW" in
    let mix_path := audio_file_of track_id "_MIX.wav" in
    let _stem_fmt := track_id +:+ "_STEM_%s.wav" in
    let _raw_fmt := track_id +:+ "_RAW_%s_%s.wav" in
    _metadata <- _load_metadata _meta_path ;;
    let _melody_rankings_fpath :=
      PyStr.path_join annotation_dir (track_id +:+ "_RANKING.txt") in
    melody_rankings <- _get_melody_rankings _melody_rankings_fpath ;;
    mixing_coefficients <-
      lift (PyDict.item track_id (MIXING_COEFFICIENTS cfg)) ;;
    sr <- _parse_metadata track_id _pitch_path _stem_dir_path _raw_dir_path
                          mix_path _metadata melody_rankings
                          mixing_coefficients ;;
    let stems := fst sr in
    let raw_audio := snd sr in
    let stem_instruments :=
      sorted (map Track.instrument (PyDict.values stems)) in
    raw_names <- lift (leaf_instruments raw_audio) ;;
    let raw_instruments := sorted raw_names in
    duration <- match mix_path with
                | Some p =>
                    found <- path_exists p ;;
                    if found then d <- get_duration p ;; ret (Some d)
                    else print ("Warning: Audio missing for " +:+ track_id +:+ ".") ;;;
                         ret None
                | None =>
                    print ("Warning: Audio missing for " +:+ track_id +:+ ".") ;;;
                    ret None
                end ;;
    is_excerpt <- lift (_YESNO (md_excerpt _metadata)) ;;
    has_bleed <- lift (_YESNO (md_has_bleed _metadata)) ;;
    is_instrumental <- lift (_YESNO (md_instrumental _metadata)) ;;
    let mel1_path :=
      PyStr.path_join annotation_dir (track_id +:+ "_MELODY1.csv") in
    has_melody <- path_exists mel1_path ;;
    predominant_stem <- lift (_get_predominant_stem melody_rankings stems) ;;
    act <- _get_activation_annotations annotation_dir track_id ;;
    ret {| MultiTrack.artist := artist; MultiTrack.title := title;
           MultiTrack.track_id := track_id;
           MultiTrack._meta_path := _meta_path;
           MultiTrack.annotation_dir := annotation_dir;
           MultiTrack._pitch_path := _pitch_path;
           MultiTrack.audio_path := audio_path;
           MultiTrack._stem_dir_path := _stem_dir_path;
           MultiTrack._raw_dir_path := _raw_dir_path;
           MultiTrack.mix_path := mix_path;
           MultiTrack._stem_fmt := _stem_fmt;
           MultiTrack._raw_fmt := _raw_fmt;
           MultiTrack._metadata := _metadata;
           MultiTrack._melody_rankings_fpath := _melody_rankings_fpath;
           MultiTrack.melody_rankings := melody_rankings;
           MultiTrack.mixing_coefficients := mixing_coefficients;
           MultiTrack.stems := stems;
           MultiTrack.raw_audio := raw_audio;
           MultiTrack.stem_instruments := stem_instruments;
           MultiTrack.raw_instruments := raw_instruments;
           MultiTrack.duration := duration;
           MultiTrack.is_excerpt := is_excerpt;
           MultiTrack.has_bleed := has_bleed;
           MultiTrack.is_instrumental := is_instrumental;
           MultiTrack.origin := md_origin _metadata;
           MultiTrack.genre := md_genre _metadata;
           MultiTrack.metadata_version := md_version _metadata;
           MultiTrack.has_melody := has_melody;
           MultiTrack._melody1_annotation := None;
           MultiTrack._melody2_annotation := None;
           MultiTrack._melody3_annotation := None;
           MultiTrack.predominant_stem := predominant_stem;
           MultiTrack.stem_activations := fst act;
           MultiTrack.stem_activations_idx := snd act |}.

(** The three melody properties: value returned and object after. *)
Definition melody1_annotation (self : MultiTrack.t)
    : M (option annotation * MultiTrack.t) :=
  match MultiTrack._melody1_annotation self with
  | None =>
      let melody1_fname := MultiTrack.track_id self +:+ "_MELODY1.csv" in
      let melody1_fpath :=
        PyStr.path_join (MultiTrack.annotation_dir self) melody1_fname in
      r <- read_annotation_file melody1_fpath None false ;;
      let self' := MultiTrack.set_melody1 (fst r) self in
      ret (MultiTrack._melody1_annotation self', self')
  | Some _ => ret (MultiTrack._melody1_annotation self, self)
  end.

Definition melody2_annotation (self : MultiTrack.t)
    : M (option annotation * MultiTrack.t) :=
  match MultiTrack._melody2_annotation self with
  | None =>
      let melody2_fname := MultiTrack.track_id self +:+ "_MELODY2.csv" in
      let melody2_fpath :=
        PyStr.path_join (MultiTrack.annotation_dir self) melody2_fname in
      r <- read_annotation_file melody2_fpath None false ;;
      let self' := MultiTrack.set_melody2 (fst r) self in
      ret (MultiTrack._melody2_annotation self', self')
  | Some _ => ret (MultiTrack._melody2_annotation self, self)
  end.

Definition melody3_annotation (self : MultiTrack.t)
    : M (option annotation * MultiTrack.t) :=
  match MultiTrack._melody3_annotation self with
  | None =>
      let melody3_fname := MultiTrack.track_id self +:+ "_MELODY3.csv" in
      let melody3_fpath :=
        PyStr.path_join (MultiTrack.annotation_dir self) melody3_fname in
      r <- read_annotation_file melody3_fpath None false ;;
      let self' := MultiTrack.set_melody3 (fst r) self in
      ret (MultiTrack._melody3_annotation self', self')
  | Some _ => ret (MultiTrack._melody3_annotation self, self)
  end.

(** A caller that reads a property [n] times on the same object, going on
    after an exception ([try: ... except: pass]); the object is the one
    the property left behind.  Returns what each access gave, the log of
    all of them, and the object at the end. *)
Fixpoint accesses {O V} (get : O -> M (V * O)) (n : nat) (self : O)
    : list (result V) * list event * O :=
  match n with
  | O => ([], [], self)
  | S n' =>
      match get self with
      | (Ok (v, self'), w) =>
          let '(rs, ws, final) := accesses get n' self' in
          (Ok v :: rs, w ++ ws, final)
      | (Raise e, w) =>
          let '(rs, ws, final) := accesses get n' self in
          (Raise e :: rs, w ++ ws, final)
      end
  end.
End Loader.

(** Whether an access in a sequence returned (did not raise). *)
Definition returned {V} (r : result V) : Prop := is_ok r = true.

(** The number of files read in a log. *)
Definition count_opens (w : list event) : nat :=
  length (List.filter (fun e => match e with EvOpen _ => true | _ => false end) w).


(** What the lazy properties guarantee.  [caches_loaded_value get]: once an
    access has returned a loaded annotation, that access read the file at
    most once and every later access returns the same value with an empty
    log.  [loads_at_most_once get]: over any number of accesses, none of
    which raises, the file is read at most once. *)
Definition caches_loaded_value {O} (get : O -> M (option annotation * O))
    : Prop :=
  forall self rows self' w,
    get self = (Ok (Some rows, self'), w) ->
    (count_opens w <= 1)%nat /\
    forall n, accesses get n self' = (repeat (Ok (Some rows)) n, [], self').

Definition loads_at_most_once {O} (get : O -> M (option annotation * O))
    : Prop :=
  forall n self,
    Forall returned (fst (fst (accesses get n self))) ->
    (count_opens (snd (fst (accesses get n self))) <= 1)%nat.

(** [absent_not_cached get miss]: on an object for which [miss] holds (the
    cache is empty and the file is missing) an access returns [None], checks
    for the file and prints the warning again, and leaves the object as it
    was. *)
Definition absent_not_cached {O} (get : O -> M (option annotation * O))
    (miss : O -> string -> Prop) : Prop :=
  forall self path, miss self path ->
    get self = (Ok (None, self),
                [EvExists path;
                 EvPrint ("Warning: " +:+ path +:+ " does not exist.")]).

Definition lazily_cached {O} (get : O -> M (option annotation * O))
    (miss : O -> string -> Prop) : Prop :=
  caches_loaded_value get /\ loads_at_most_once get /\
  absent_not_cached get miss.

(** The cache of a melody annotation is empty and its file is missing. *)
Definition melody_missing (fs : filesystem) (suffix : string)
    (cache : MultiTrack.t -> option annotation)
    (self : MultiTrack.t) (path : string) : Prop :=
  cache self = None /\
  path = PyStr.path_join (MultiTrack.annotation_dir self)
                         (MultiTrack.track_id self +:+ suffix) /\
  fs_exists fs path = false.

(** The pitch cache of a track is empty and its pitch file is missing. *)
Definition pitch_missing (fs : filesystem) (self : Track.t) (path : string)
    : Prop :=
  Track._pitch_annotation self = None /\
  Track._pitch_path self = Some path /\
  fs_exists fs path = false.

(** What [_parse_metadata] maintains.  A track carries no audio when its
    [file_path] and [duration] are [None]; every stem has the rank the
    ranking file gives its index; without an audio root no track of
    [stems] or [raw_audio] carries audio. *)
Definition no_audio (t : Track.t) : Prop :=
  Track.file_path t = None /\ Track.duration t = None.

Definition stems_inv (cfg : config) (melody_rankings : list (Z * Z))
    (stems : list (Z * Track.t)) : Prop :=
  forall k t, In (k, t) stems ->
    Track.ranking t = PyDict.get k melody_rankings /\
    (truthy (AUDIO_PATH cfg) = false -> no_audio t).

Definition raw_inv (cfg : config) (raw_audio : list (Z * list (Z * Track.t)))
    : Prop :=
  forall k d j t, In (k, d) raw_audio -> In (j, t) d ->
    truthy (AUDIO_PATH cfg) = false -> no_audio t.

(** The stems of rank 1, in the order of [stems]. *)
Definition rank_one_stems (stems : list (Z * Track.t)) : list Track.t :=
  List.filter (fun t => bool_decide (Track.ranking t = Some 1))
              (PyDict.values stems).

(** ** A small dataset to run the loader on *)

Module Fixture.
(** Stand-ins for the float primitives: integers only. *)
Definition py_float (s : string) : option pyfloat :=
  match PyStr.int s with Ok n => Some (Float64 n) | Raise _ => None end.

Definition float_div (a b : pyfloat) : result pyfloat :=
  if float_bits b =? 0 then Raise ZeroDivisionError
  else Ok (Float64 (float_bits a / float_bits b)).

Definition meta : metadata :=
  {| md_excerpt := "no"; md_has_bleed := "no"; md_instrumental := "yes";
     md_origin := "Dolan Studio"; md_genre := "Jazz"; md_version := "1.2";
     md_stems :=
       [ ("S01", {| stem_instrument := "flute"; stem_component := "melody";
                    stem_filename := "Artist_Title_STEM_01.wav";
                    stem_raw :=
                      [ ("R01", {| raw_instrument := "flute";
                                   raw_filename := "Artist_Title_RAW_01_01.wav" |}) ] |});
         ("S02", {| stem_instrument := "piano"; stem_component := "";
                    stem_filename := "Artist_Title_STEM_02.wav";
                    stem_raw :=
                      [ ("R01", {| raw_instrument := "piano";
                                   raw_filename := "Artist_Title_RAW_02_01.wav" |});
                        ("R02", {| raw_instrument := "piano";
                                   raw_filename := "Artist_Title_RAW_02_02.wav" |}) ] |}) ] |}.

Definition cfg : config :=
  {| METADATA_PATH := "/db/Metadata";
     ANNOT_PATH := "/db/Annotations";
     AUDIO_PATH := None;
     MIXING_COEFFICIENTS :=
       [ ("Artist_Title", [ (1, Float64 3); (2, Float64 4) ]) ];
     INST_F0_TYPE := [ ("flute", "m"); ("piano", "p") ] |}.

Definition meta_file : string := "/db/Metadata/Artist_Title_METADATA.yaml".
Definition annot_dir : string := "/db/Annotations/Artist_Title_ANNOTATIONS".
Definition ranking_file : string := annot_dir +:+ "/Artist_Title_RANKING.txt".
Definition activation_file : string :=
  annot_dir +:+ "/Artist_Title_ACTIVATION_CONF.lab".
Definition melody1_file : string := annot_dir +:+ "/Artist_Title_MELODY1.csv".
Definition pitch_file : string :=
  annot_dir +:+ "/Artist_Title_PITCH/Artist_Title_STEM_01.csv".
Definition bad_file : string := annot_dir +:+ "/Artist_Title_MELODY2.csv".

Definition mem (p : string) (l : list string) : bool :=
  existsb (String.eqb p) l.

Definition csv (p : string) : list (list string) :=
  if String.eqb p ranking_file then
    [ ["Artist_Title_STEM_01.wav"; "1"]; ["Artist_Title_STEM_02.wav"; "2"] ]
  else if String.eqb p activation_file then
    [ ["time"; "S01"; "S02"]; ["0"; "1"; "0"]; ["1"; "1"; "1"] ]
  else if String.eqb p melody1_file then [ ["0"; "440"]; ["1"; "0"] ]
  else if String.eqb p pitch_file then [ ["0"; "440"; "2"]; ["1"; "441"; "7"] ]
  else if String.eqb p bad_file then [ ["0"; "x"] ]
  else [].

(** A file system holding the files listed in [present]. *)
Definition fs_with (present : list string) : filesystem :=
  {| fs_exists := fun p => mem p present;
     fs_yaml := fun p => if String.eqb p meta_file then Ok meta
                         else Raise (ExternalError "yaml");
     fs_csv := csv;
     sox_num_samples := fun _ => Ok (Float64 88200);
     sox_sample_rate := fun _ => Ok (Float64 44100) |}.

(** Everything is there but the audio. *)
Definition fs_full : filesystem :=
  fs_with [meta_file; ranking_file; activation_file; melody1_file;
           pitch_file; bad_file].

(** The activation-confidence file is missing. *)
Definition fs_no_activation : filesystem :=
  fs_with [meta_file; ranking_file; melody1_file; pitch_file].

(** No file at all. *)
Definition fs_empty : filesystem := fs_with [].

Definition load (fs : filesystem) (track_id : string) : M MultiTrack.t :=
  MultiTrack_init py_float float_div fs cfg track_id.

(** The example of the specification, and a dictionary with a list of
    lists as a leaf. *)
Definition ex_tree : pyobj string Z :=
  PDict [("a", PDict [("b", PAtom 1); ("c", PAtom 2)]); ("d", PAtom 3)].

Definition ex_unhashable : pyobj string Z :=
  PDict [("a", PList [PList [PAtom 1]])].

(** The track of stem 1 as the loader builds it, and the same track with
    its pitch file pointing to a file with a field that is no number. *)
Definition stem1 : Track.t :=
  {| Track.instrument := "flute"; Track.f0_type := "m";
     Track.file_path := None; Track.component := "melody";
     Track.ranking := Some 1; Track.stem_idx := Some 1;
     Track.raw_idx := None;
     Track.mixing_coefficient := Some (Float64 3);
     Track.duration := None; Track.mix_path := None;
     Track._pitch_annotation := None;
     Track._pitch_path := Some pitch_file |}.

Definition stem1_bad : Track.t :=
  {| Track.instrument := "flute"; Track.f0_type := "m";
     Track.file_path := None; Track.component := "melody";
     Track.ranking := Some 1; Track.stem_idx := Some 1;
     Track.raw_idx := None;
     Track.mixing_coefficient := Some (Float64 3);
     Track.duration := None; Track.mix_path := None;
     Track._pitch_annotation := None;
     Track._pitch_path := Some bad_file |}.

End Fixture.


(** ** The remaining methods of [MultiTrack] and the taxonomy helpers *)

(** [MultiTrack.melody_stems] and [MultiTrack.bass_stems] *)
Definition melody_stems (self : MultiTrack.t) : list Track.t :=
  List.filter (fun track => String.eqb (Track.component track) "melody")
              (PyDict.values (MultiTrack.stems self)).

Definition bass_stems (self : MultiTrack.t) : list Track.t :=
  List.filter (fun track => String.eqb (Track.component track) "bass")
              (PyDict.values (MultiTrack.stems self)).

(** [MultiTrack.num_stems] and [MultiTrack.num_raw] *)
Definition num_stems (self : MultiTrack.t) : nat :=
  length (MultiTrack.stems self).

Definition num_raw (self : MultiTrack.t) : result nat :=
  match get_dict_leaves (raw_audio_obj (MultiTrack.raw_audio self)) with
  | Ok leaves => Ok (length leaves)
  | Raise e => Raise e
  end.

(** [MultiTrack.stem_filepaths] and [MultiTrack.raw_filepaths] *)
Definition stem_filepaths (self : MultiTrack.t) : list (option string) :=
  map Track.file_path (PyDict.values (MultiTrack.stems self)).

Definition raw_filepaths (self : MultiTrack.t) : result (list (option string)) :=
  match get_dict_leaves (raw_audio_obj (MultiTrack.raw_audio self)) with
  | Raise e => Raise e
  | Ok leaves =>
      mapR (fun track => match track with
                         | HAtom t => Ok (Track.file_path t)
                         | HStr _ => Raise AttributeError
                         end) leaves
  end.

(** [MultiTrack.activation_conf_from_stem], for an integer [stem_idx].
    Iterating over [stem_activations] when it is [None] is a [TypeError];
    [step[0]] and [step[activ_conf_idx]] may be out of range. *)
Definition activation_conf_from_stem (self : MultiTrack.t) (stem_idx : Z)
    : result (option (list (list pyfloat))) :=
  match PyDict.get (Some stem_idx) (MultiTrack.stem_activations_idx self) with
  | Some activ_conf_idx =>
      match MultiTrack.stem_activations self with
      | None => Raise TypeError
      | Some table =>
          match mapR (fun step =>
                        match index 0 step with
                        | Raise e => Raise e
                        | Ok time =>
                            match index activ_conf_idx step with
                            | Raise e => Raise e
                            | Ok conf => Ok [time; conf]
                            end
                        end) table with
          | Ok activations => Ok (Some activations)
          | Raise e => Raise e
          end
      end
  | None => Ok None
  end.

(** [get_valid_instrument_labels] and [is_valid_instrument]; the taxonomy
    is the package global [INST_TAXONOMY]. *)
Definition get_valid_instrument_labels {K A} `{EqDecision A}
    (taxonomy : pyobj K A) : result (list (hashable A)) :=
  get_dict_leaves taxonomy.

Definition is_valid_instrument {K A} `{EqDecision A}
    (taxonomy : pyobj K A) (instrument : string) : result bool :=
  match get_valid_instrument_labels taxonomy with
  | Ok labels =>
      Ok (existsb (fun label => bool_decide (label = HStr instrument)) labels)
  | Raise e => Raise e
  end.

(** ** Vocabulary of the statements below *)

(** One line of the ranking file: the stem index read off the file name in
    the first field, and the rank in the second. *)
Definition parse_ranking_line (line : list string) : result (Z * Z) :=
  match index 0 line with
  | Raise e => Raise e
  | Ok name =>
      match PyStr.int (first_field (PyStr.split "."
                         (last_field (PyStr.split "_" name)))) with
      | Raise e => Raise e
      | Ok stem_idx =>
          match index 1 line with
          | Raise e => Raise e
          | Ok rank =>
              match PyStr.int rank with
              | Raise e => Raise e
              | Ok ranking => Ok (stem_idx, ranking)
              end
          end
      end
  end.

(** The integer index of a key [S<n>] or [R<n>] of the metadata. *)
Definition key_index (key : string) : result Z := PyStr.int (PyStr.tail key).

(** The fields of a line that [read_annotation_file] converts. *)
Definition kept_fields (num_cols : option Z) (line : list string)
    : list string :=
  match num_cols with
  | Some n => if negb (n =? 0) then slice_to n line else line
  | None => line
  end.

(** The header and the data lines of a file. *)
Definition header_and_data (header : bool) (rows : list (list string))
    : option (list string * list (list string)) :=
  if header then
    match rows with
    | [] => None
    | h :: rest => Some (h, rest)
    end
  else Some ([], rows).

(** All the tracks of a [raw_audio] dictionary, stem by stem. *)
Definition raw_tracks (raw_audio : list (Z * list (Z * Track.t)))
    : list Track.t :=
  concat (map (fun kd => PyDict.values (snd kd)) raw_audio).

(** What [_parse_metadata] puts in the track of stem [k], given the
    metadata entries [md]. *)
Definition stem_built (fs : filesystem) (cfg : config)
    (track_id _pitch_path : string) (_stem_dir_path mix_path : option string)
    (melody_rankings : list (Z * Z)) (mixing_coefficients : list (Z * pyfloat))
    (md : list (string * stem_entry)) (k : Z) (t : Track.t) : Prop :=
  Track.stem_idx t = Some k /\
  Track.raw_idx t = None /\
  Track.ranking t = PyDict.get k melody_rankings /\
  (exists c, PyDict.get k mixing_coefficients = Some c /\
             Track.mixing_coefficient t = Some c) /\
  Track.mix_path t = mix_path /\
  Track._pitch_annotation t = None /\
  (Track.duration t <> None <->
   exists p, Track.file_path t = Some p /\ fs_exists fs p = true) /\
  exists key entry,
    In (key, entry) md /\ key_index key = Ok k /\
    Track.instrument t = stem_instrument entry /\
    Track.f0_type t = get_f0_type cfg (stem_instrument entry) /\
    Track.component t = stem_component entry /\
    Track._pitch_path t
    = Some (PyStr.path_join _pitch_path
              (track_id +:+ "_STEM_" +:+ PyStr.tail key +:+ ".csv")) /\
    Track.file_path t
    = (if truthy (AUDIO_PATH cfg)
       then option_map (fun d => PyStr.path_join d (stem_filename entry))
                       _stem_dir_path
       else None).

(** What [_parse_metadata] puts in the track of raw source [j] of stem
    [k]. *)
Definition raw_built (fs : filesystem) (cfg : config)
    (_raw_dir_path mix_path : option string)
    (melody_rankings : list (Z * Z))
    (md : list (string * stem_entry)) (k j : Z) (t : Track.t) : Prop :=
  Track.stem_idx t = Some k /\
  Track.raw_idx t = Some j /\
  Track.ranking t = PyDict.get k melody_rankings /\
  Track.mixing_coefficient t = None /\
  Track.component t = "" /\
  Track.mix_path t = mix_path /\
  Track._pitch_annotation t = None /\
  Track._pitch_path t = None /\
  (Track.duration t <> None <->
   exists p, Track.file_path t = Some p /\ fs_exists fs p = true) /\
  exists skey sentry rkey rentry,
    In (skey, sentry) md /\ key_index skey = Ok k /\
    In (rkey, rentry) (stem_raw sentry) /\ key_index rkey = Ok j /\
    Track.instrument t = raw_instrument rentry /\
    Track.f0_type t = get_f0_type cfg (raw_instrument rentry) /\
    Track.file_path t
    = (if truthy (AUDIO_PATH cfg)
       then option_map (fun d => PyStr.path_join d (raw_filename rentry))
                       _raw_dir_path
       else None).

(** The state of the two dictionaries of [_parse_metadata] once the entries
    [seen] have been gone through. *)
Definition parsed (fs : filesystem) (cfg : config)
    (track_id _pitch_path : string)
    (_stem_dir_path _raw_dir_path mix_path : option string)
    (melody_rankings : list (Z * Z)) (mixing_coefficients : list (Z * pyfloat))
    (md seen : list (string * stem_entry))
    (acc : list (Z * Track.t) * list (Z * list (Z * Track.t))) : Prop :=
  PyDict.wf (fst acc) /\
  (forall k t, In (k, t) (fst acc) ->
     stem_built fs cfg track_id _pitch_path _stem_dir_path mix_path
                melody_rankings mixing_coefficients md k t) /\
  (forall key entry, In (key, entry) seen ->
     exists k, key_index key = Ok k /\ PyDict.contains k (fst acc) = true) /\
  PyDict.wf (snd acc) /\
  (forall k d, In (k, d) (snd acc) ->
     PyDict.wf d /\ d <> [] /\ PyDict.contains k (fst acc) = true) /\
  (forall k d j t, In (k, d) (snd acc) -> In (j, t) d ->
     raw_built fs cfg _raw_dir_path mix_path melody_rankings md k j t).

(** A dataset with an audio root, where the first stem file is on disk. *)
Module FixtureAudio.
Definition cfg : config :=
  {| METADATA_PATH := "/db/Metadata";
     ANNOT_PATH := "/db/Annotations";
     AUDIO_PATH := Some "/db/Audio";
     MIXING_COEFFICIENTS :=
       [ ("Artist_Title", [ (1, Float64 3); (2, Float64 4) ]) ];
     INST_F0_TYPE := [ ("flute", "m"); ("piano", "p") ] |}.

Definition stem1_file : string :=
  "/db/Audio/Artist_Title/Artist_Title_STEMS/Artist_Title_STEM_01.wav".

Definition mix_file : string :=
  "/db/Audio/Artist_Title/Artist_Title_MIX.wav".

Definition fs : filesystem :=
  Fixture.fs_with [Fixture.meta_file; Fixture.ranking_file;
                   Fixture.activation_file; stem1_file; mix_file].

Definition load (track_id : string) : M MultiTrack.t :=
  MultiTrack_init Fixture.py_float Fixture.float_div fs cfg track_id.

(** A taxonomy in the layout of the package: families of instrument
    labels. *)
Definition taxonomy : pyobj string Z :=
  PDict [ ("winds", PDict [ ("flutes", PList [PStr "flute"; PStr "piccolo"]);
                            ("reeds", PList [PStr "clarinet"]) ]);
          ("keys", PList [PStr "piano"]) ].
End FixtureAudio.

(** * Properties *)

(** ** Strings and [format_index] *)

Section StringFacts.
Import PyStr.

Lemma lstrip_rep c j s : lstrip c (rep c j +:+ s) = lstrip c s.
Proof. induction j as [|j IH]; simpl; [reflexivity|]. now rewrite Ascii.eqb_refl. Qed.

Lemma lstrip_no c s t : no c s -> s <> EmptyString -> lstrip c (s +:+ t) = s +:+ t.
Proof.
  destruct s as [|a s]; [congruence|]. unfold no. simpl.
  intros H _. apply orb_false_iff in H as [-> _]. reflexivity.
Qed.

Lemma rstrip_rep c k : rstrip c (rep c k) = EmptyString.
Proof. induction k as [|k IH]; simpl; [reflexivity|]. rewrite IH. now rewrite Ascii.eqb_refl. Qed.

Lemma rstrip_no c s : no c s -> rstrip c s = s.
Proof.
  unfold no. induction s as [|a s IH]; simpl; [reflexivity|].
  intros H. apply orb_false_iff in H as [Ha Hs]. rewrite (IH Hs), Ha.
  now destruct s.
Qed.

Lemma rstrip_app_rep c s k : no c s -> rstrip c (s +:+ rep c k) = s.
Proof.
  unfold no. induction s as [|a s IH]; simpl.
  - intros _. apply rstrip_rep.
  - intros H. apply orb_false_iff in H as [Ha Hs]. rewrite (IH Hs), Ha.
    now destruct s.
Qed.

Lemma strip_rep c j k s :
  no c s -> strip c (rep c j +:+ s +:+ rep c k) = s.
Proof.
  intros H. unfold strip. rewrite lstrip_rep.
  destruct s as [|a s].
  - simpl. clear H. induction k as [|k IH]; simpl; [reflexivity|].
    now rewrite Ascii.eqb_refl.
  - rewrite lstrip_no by (auto; discriminate). now apply rstrip_app_rep.
Qed.

Lemma no_app c s t : no c s -> no c t -> no c (s +:+ t).
Proof.
  unfold no. induction s as [|a s IH]; simpl; [auto|].
  intros H Ht. apply orb_false_iff in H as [-> Hs]. simpl. auto.
Qed.

Lemma no_rep c c' n : c' <> c -> no c (rep c' n).
Proof.
  intros Hne. unfold no. induction n as [|n IH]; simpl; [reflexivity|].
  rewrite IH, orb_false_r. now apply Ascii.eqb_neq.
Qed.

Lemma all_digits_uint u : all_digits (NilEmpty.string_of_uint u).
Proof.
  intros c Hc. unfold no.
  induction u; cbn [NilEmpty.string_of_uint contains]; [reflexivity|..];
    rewrite IHu, orb_false_r; apply Ascii.eqb_neq; intros <-; discriminate Hc.
Qed.

Lemma PyStr_lstrip_space_id s :
  (forall c, is_space c = true -> no c s) -> lstrip_space s = s.
Proof.
  destruct s as [|a s]; simpl; [reflexivity|]. intros H.
  destruct (is_space a) eqn:E; [|reflexivity].
  specialize (H a E). unfold no in H. simpl in H.
  now rewrite Ascii.eqb_refl in H.
Qed.

Lemma PyStr_rstrip_space_id s :
  (forall c, is_space c = true -> no c s) -> rstrip_space s = s.
Proof.
  induction s as [|a s IH]; simpl; [reflexivity|]. intros H.
  rewrite IH.
  - destruct s; [|reflexivity].
    destruct (is_space a) eqn:E; [|reflexivity].
    specialize (H a E). unfold no in H. simpl in H.
    now rewrite Ascii.eqb_refl in H.
  - intros c Hc. specialize (H c Hc). unfold no in *. simpl in H.
    now apply orb_false_iff in H.
Qed.

(** The digits of [u], read with accumulator [acc]. *)
Lemma digits_uint u acc prev :
  (u <> Decimal.Nil \/ prev = true) ->
  digits acc prev (NilEmpty.string_of_uint u)
  = Some (acc * 10 ^ Z.of_N (Unsigned.usize u)
          + Z.of_N (Unsigned.of_lu (Decimal.rev u))).
Proof.
  revert acc prev.
  induction u; intros acc prev Hne;
    [ destruct Hne as [Hne | ->]; [congruence|]; simpl; f_equal; lia | .. ];
    cbn [NilEmpty.string_of_uint digits]; cbv [is_digit]; simpl N.leb; cbv iota beta;
    simpl andb; cbv iota;
    rewrite IHu by (right; reflexivity);
    f_equal; unfold Decimal.rev; cbn [Decimal.revapp];
    rewrite (Unsigned.of_lu_revapp u (_ Decimal.Nil));
    cbn [Unsigned.usize Unsigned.of_lu];
    rewrite N2Z.inj_succ, Z.pow_succ_r by lia;
    rewrite N2Z.inj_add, N2Z.inj_mul, N2Z.inj_pow;
    match goal with
    | |- context [digit_val ?c] =>
        let v := eval vm_compute in (digit_val c) in
        change (digit_val c) with v
    end;
    fold (Decimal.rev u); simpl Z.of_N;
    generalize (10 ^ Z.of_N (Unsigned.usize u));
    generalize (Z.of_N (Unsigned.of_lu (Decimal.rev u)));
    intros; ring.
Qed.
End StringFacts.

Lemma decimal_no_space (n : N) :
  forall c, PyStr.is_space c = true -> no c (PyStr.decimal n).
Proof.
  intros c Hc. apply all_digits_uint.
  destruct (PyStr.is_digit c) eqn:E; [|reflexivity].
  exfalso. revert Hc E. unfold PyStr.is_space, PyStr.is_digit.
  generalize (N_of_ascii c). intros m H1 H2.
  apply andb_true_iff in H2 as [H2 H3].
  apply N.leb_le in H2, H3.
  apply orb_true_iff in H1 as [H1|H1].
  - apply andb_true_iff in H1 as [H4 H5]. apply N.leb_le in H4, H5. lia.
  - apply N.eqb_eq in H1. lia.
Qed.

Lemma to_uint_not_nil (n : N) : N.to_uint n <> Decimal.Nil.
Proof.
  destruct n as [|p]; simpl; [discriminate|]. apply DecimalPos.Unsigned.to_uint_nonnil.
Qed.

(** [int(str(n)) == n] *)
Lemma int_decimal (n : N) : PyStr.int (PyStr.decimal n) = Ok (Z.of_N n).
Proof.
  unfold PyStr.int.
  rewrite PyStr_lstrip_space_id, PyStr_rstrip_space_id by apply decimal_no_space.
  pose proof (to_uint_not_nil n) as Hnil.
  pose proof (DecimalN.Unsigned.of_to n) as Hval.
  unfold PyStr.decimal. unfold N.of_uint in Hval.
  rewrite DecimalPos.Unsigned.of_uint_alt in Hval.
  pose proof (digits_uint (N.to_uint n) 0 false (or_introl Hnil)) as Hd.
  rewrite Hval in Hd. clear Hval.
  destruct (N.to_uint n); [congruence|..];
    cbn [NilEmpty.string_of_uint] in *; cbv beta iota zeta; cbn [snd fst];
    rewrite Hd; f_equal; lia.
Qed.

(** [int('-' + str(n)) == -n] *)
Lemma int_minus_decimal (n : N) :
  PyStr.int (String "-" (PyStr.decimal n)) = Ok (- Z.of_N n).
Proof.
  pose proof (int_decimal n) as Hint. unfold PyStr.int in *.
  rewrite PyStr_lstrip_space_id, PyStr_rstrip_space_id in Hint
    by apply decimal_no_space.
  pose proof (to_uint_not_nil n) as Hnil.
  cbn [PyStr.lstrip_space]. change (PyStr.is_space "-") with false. cbv iota.
  cbn [PyStr.rstrip_space].
  rewrite PyStr_rstrip_space_id by apply decimal_no_space.
  unfold PyStr.decimal in *.
  destruct (N.to_uint n); [congruence|..];
    cbn [NilEmpty.string_of_uint] in *; cbv beta iota zeta in *;
    cbn [snd fst] in *;
    match goal with
    | |- context [PyStr.digits ?a ?b ?c] =>
        destruct (PyStr.digits a b c) as [m|]; [|discriminate Hint]
    end;
    inversion Hint; f_equal; lia.
Qed.

Section StripFacts.
Import PyStr.

Lemma append_cons (a : ascii) (s t : string) :
  String a s +:+ t = String a (s +:+ t).
Proof. reflexivity. Qed.

Lemma lstrip_spec c s :
  exists j, s = rep c j +:+ lstrip c s /\ starts_with c (lstrip c s) = false.
Proof.
  induction s as [|a s IH]; [now exists 0%nat|]. simpl.
  destruct (Ascii.eqb_spec a c) as [->|Hne].
  - destruct IH as (j & Hj & Hs). exists (S j).
    split; [|exact Hs]. cbn [rep]. rewrite append_cons. f_equal. exact Hj.
  - exists 0%nat. split; [reflexivity|]. now apply Ascii.eqb_neq.
Qed.

Lemma rstrip_spec c s :
  exists k, s = rstrip c s +:+ rep c k /\ ends_with c (rstrip c s) = false.
Proof.
  induction s as [|a s IH]; [now exists 0%nat|]. simpl.
  destruct IH as (k & Hk & He).
  destruct (rstrip c s) as [|b r] eqn:Hr.
  - change (EmptyString +:+ rep c k) with (rep c k) in Hk.
    destruct (Ascii.eqb_spec a c) as [->|Hne].
    + exists (S k). split; [|reflexivity].
      change (String c s = String c (rep c k)). f_equal. exact Hk.
    + exists k. split; [rewrite append_cons; f_equal; exact Hk|].
      cbn [ends_with]. now apply Ascii.eqb_neq.
  - exists k. split; [rewrite append_cons; f_equal; exact Hk|exact He].
Qed.

Lemma rstrip_starts c s :
  starts_with c s = false -> starts_with c (rstrip c s) = false.
Proof.
  destruct s as [|a s]; [reflexivity|]. simpl. intros Ha.
  destruct (rstrip c s); [|exact Ha]. now rewrite Ha.
Qed.

Lemma rstrip_app_rep_ends c s k :
  ends_with c s = false -> rstrip c (s +:+ rep c k) = s.
Proof.
  induction s as [|a s IH]; [intros _; apply rstrip_rep|].
  destruct s as [|b s].
  - intros Ha.
    change (ends_with c (String a EmptyString)) with (Ascii.eqb a c) in Ha.
    change (String a EmptyString +:+ rep c k) with (String a (rep c k)).
    cbn [rstrip]. rewrite rstrip_rep. now rewrite Ha.
  - intros He. change (ends_with c (String a (String b s)))
      with (ends_with c (String b s)) in He.
    change (rstrip c (String a (String b s) +:+ rep c k))
      with (match rstrip c (String b s +:+ rep c k) with
            | EmptyString =>
                if Ascii.eqb a c then EmptyString else String a EmptyString
            | r => String a r
            end).
    now rewrite (IH He).
Qed.

(** [strip] does what the specification's words say, and nothing else
    does. *)
Lemma strip_spec c s : stripped_of c s (strip c s).
Proof.
  unfold stripped_of, strip.
  destruct (lstrip_spec c s) as (j & Hj & Hs).
  destruct (rstrip_spec c (lstrip c s)) as (k & Hk & He).
  split; [|split].
  - exists j, k. now rewrite <- Hk.
  - now apply rstrip_starts.
  - exact He.
Qed.

Lemma stripped_of_strip c s core : stripped_of c s core -> strip c s = core.
Proof.
  intros ((j & k & ->) & Hs & He). unfold strip. rewrite lstrip_rep.
  destruct core as [|a core].
  - simpl. clear. induction k as [|k IH]; simpl; [reflexivity|].
    now rewrite Ascii.eqb_refl.
  - change (starts_with c (String a core)) with (Ascii.eqb a c) in Hs.
    rewrite append_cons. cbn [lstrip]. rewrite Hs. rewrite <- append_cons.
    now apply rstrip_app_rep_ends.
Qed.
End StripFacts.

(** C4 (amended).  [format_index] maps ["S05"] to 5, ["R02"] to 2, the integer
    5 to 5 and [None] to [None].  On every string it first removes every
    leading and every trailing [S], then every leading and every trailing
    [R] (upper case only, in this order: ["RS05"] is left as ["S05"] and
    fails), and parses what is left as an integer, failing with
    [ValueError] only: every string has exactly one such remainder, and the
    result is [int] of it.  Whatever number is written between the letters
    is returned, negative or however large, with no check of its range. *)
Theorem format_index_strips_all :
  format_index (IdxStr "S05") = Ok (Some 5) /\
  format_index (IdxStr "R02") = Ok (Some 2) /\
  format_index (IdxInt 5) = Ok (Some 5) /\
  format_index IdxNone = Ok None /\
  format_index (IdxStr "s05") = Raise ValueError /\
  (forall (j a b k : nat) (n : N),
      format_index
        (IdxStr (PyStr.rep "S" j +:+
                 (PyStr.rep "R" a +:+ PyStr.decimal n +:+ PyStr.rep "R" b) +:+
                 PyStr.rep "S" k))
      = Ok (Some (Z.of_N n))) /\
  format_index (IdxStr "RS05") = Raise ValueError /\
  (forall s : string,
      exists mid core, stripped_of "S" s mid /\ stripped_of "R" mid core) /\
  (forall s mid core : string,
      stripped_of "S" s mid -> stripped_of "R" mid core ->
      format_index (IdxStr s)
      = match PyStr.int core with
        | Ok n => Ok (Some n)
        | Raise e => Raise e
        end) /\
  (forall (s : string) (e : exn),
      format_index (IdxStr s) = Raise e -> e = ValueError) /\
  (forall (j k : nat) (n : N),
      format_index
        (IdxStr (PyStr.rep "S" j +:+ String "-" (PyStr.decimal n) +:+
                 PyStr.rep "S" k))
      = Ok (Some (- Z.of_N n))).
Proof.
  repeat match goal with |- _ /\ _ => split end; try reflexivity.
  - intros j a b k n. unfold format_index.
    assert (HS : no "S" (PyStr.decimal n)) by (apply all_digits_uint; reflexivity).
    assert (HR : no "R" (PyStr.decimal n)) by (apply all_digits_uint; reflexivity).
    rewrite strip_rep.
    + rewrite strip_rep by exact HR. now rewrite int_decimal.
    + repeat apply no_app; try exact HS; apply no_rep; discriminate.
  - intros s. exists (PyStr.strip "S" s), (PyStr.strip "R" (PyStr.strip "S" s)).
    split; apply strip_spec.
  - intros s mid core HS HR. unfold format_index.
    now rewrite (stripped_of_strip _ _ _ HS), (stripped_of_strip _ _ _ HR).
  - intros s e. unfold format_index, PyStr.int.
    match goal with
    | |- context [PyStr.digits ?a ?b ?c] => destruct (PyStr.digits a b c)
    end; [discriminate|]. intros H. now inversion H.
  - intros j k n. unfold format_index.
    assert (HS : no "S" (String "-" (PyStr.decimal n))).
    { apply (no_app "S" "-" (PyStr.decimal n)); [reflexivity|].
      apply all_digits_uint; reflexivity. }
    assert (HR : no "R" (String "-" (PyStr.decimal n))).
    { apply (no_app "R" "-" (PyStr.decimal n)); [reflexivity|].
      apply all_digits_uint; reflexivity. }
    rewrite strip_rep by exact HS.
    unfold PyStr.strip. cbn [PyStr.lstrip].
    change (Ascii.eqb "-" "R") with false. cbv iota.
    rewrite rstrip_no by exact HR.
    now rewrite int_minus_decimal.
Qed.

(** The order of the two strips, on a string that begins with [R]: the [S]
    behind it stays. *)
Lemma format_index_strips_all_witness :
  format_index (IdxStr "RS05")
  = match PyStr.int "S05" with
    | Ok n => Ok (Some n)
    | Raise e => Raise e
    end.
Proof.
  apply (proj1 (proj2 (proj2 (proj2 (proj2 (proj2 (proj2 (proj2
           (proj2 format_index_strips_all))))))))
           "RS05" "RS05" "S05").
  - split; [now exists 0%nat, 0%nat|]. split; reflexivity.
  - split; [now exists 1%nat, 0%nat|]. split; reflexivity.
Defined.

(** C4, as stated, fails: with two leading letters the code returns 5 where
    removing a single leading letter leaves ["S05"], which is no integer. *)
Lemma format_index_single_prefix_counterexample :
  format_index (IdxStr "SS05") = Ok (Some 5) /\
  format_index_single_prefix "SS05" = Raise ValueError /\
  format_index (IdxStr "SS05") <> format_index_single_prefix "SS05".
Proof. split; [reflexivity|]. split; [reflexivity|discriminate]. Qed.

(** ** [Track.__eq__] and [Track.__hash__] *)

Lemma opt_value_inj {X} (inj : X -> attr_value) (o1 o2 : option X) :
  (forall x y, inj x = inj y -> x = y) -> (forall x, inj x <> VNone) ->
  opt_value inj o1 = opt_value inj o2 -> o1 = o2.
Proof.
  intros Hinj Hne. destruct o1, o2; simpl; intros H; try reflexivity.
  - f_equal. now apply Hinj.
  - now apply Hne in H.
  - symmetry in H. now apply Hne in H.
Qed.

Ltac opt_inj H :=
  apply opt_value_inj in H; [ | intros ? ? E; now inversion E | discriminate ].

Lemma PyDict_get_here {K V} `{EqDecision K} (k : K) (v : V) d :
  PyDict.get k ((k, v) :: d) = Some v.
Proof. simpl. now destruct (decide (k = k)). Qed.

Lemma PyDict_get_next {K V} `{EqDecision K} (k k' : K) (v : V) d :
  k' <> k -> PyDict.get k ((k', v) :: d) = PyDict.get k d.
Proof. intros. simpl. now destruct (decide (k' = k)). Qed.

Ltac dict_get :=
  repeat (rewrite PyDict_get_here || rewrite PyDict_get_next by discriminate).

(** The dictionary comparison of two tracks succeeds exactly on equal
    attribute values. *)
Lemma Track_dict_eqb_iff (a b : Track.t) :
  PyDict.eqb (Track_dict a) (Track_dict b) = true <-> a = b.
Proof.
  split.
  - destruct a, b. unfold PyDict.eqb, Track_dict.
    cbn [length Nat.eqb andb forallb fst snd Track.instrument Track.f0_type
         Track.file_path Track.component Track.ranking Track.stem_idx
         Track.raw_idx Track.mixing_coefficient Track.duration Track.mix_path
         Track._pitch_annotation Track._pitch_path].
    dict_get. rewrite !andb_true_iff, !bool_decide_eq_true.
    intros (H1 & H2 & H3 & H4 & H5 & H6 & H7 & H8 & H9 & H10 & H11 & H12 & _).
    inversion H1; inversion H2; inversion H4; subst.
    opt_inj H3. opt_inj H5. opt_inj H6. opt_inj H7. opt_inj H8. opt_inj H9.
    opt_inj H10. opt_inj H11. opt_inj H12. now subst.
  - intros <-. unfold PyDict.eqb, Track_dict.
    cbn [length Nat.eqb andb forallb fst snd].
    dict_get. rewrite !andb_true_iff, !bool_decide_eq_true. tauto.
Qed.

(** C9.  Two tracks compare equal under [==] exactly when each of the twelve
    attributes, the cache [_pitch_annotation] among them, has the same value
    in both; so a track whose cache is filled is unequal ([==] false, [!=]
    true) to the same track with an empty cache. *)
Theorem Track_eq_all_attributes :
  (forall a b : Track.t,
      Track_eq a b = true <->
      Track.instrument a = Track.instrument b /\
      Track.f0_type a = Track.f0_type b /\
      Track.file_path a = Track.file_path b /\
      Track.component a = Track.component b /\
      Track.ranking a = Track.ranking b /\
      Track.stem_idx a = Track.stem_idx b /\
      Track.raw_idx a = Track.raw_idx b /\
      Track.mixing_coefficient a = Track.mixing_coefficient b /\
      Track.duration a = Track.duration b /\
      Track.mix_path a = Track.mix_path b /\
      Track._pitch_annotation a = Track._pitch_annotation b /\
      Track._pitch_path a = Track._pitch_path b) /\
  (forall a b : Track.t, Track_ne a b = negb (Track_eq a b)) /\
  (forall (t : Track.t) (rows : annotation),
      Track_eq (Track.set_pitch_annotation None t)
               (Track.set_pitch_annotation (Some rows) t) = false /\
      Track_ne (Track.set_pitch_annotation None t)
               (Track.set_pitch_annotation (Some rows) t) = true).
Proof.
  assert (Hiff : forall a b, Track_eq a b = true <-> a = b)
    by (intros; apply Track_dict_eqb_iff).
  split; [|split].
  - intros a b. rewrite Hiff. split.
    + intros <-. repeat split.
    + destruct a, b. simpl. intros (?&?&?&?&?&?&?&?&?&?&?&?). now subst.
  - reflexivity.
  - intros t rows.
    assert (E : Track_eq (Track.set_pitch_annotation None t)
                         (Track.set_pitch_annotation (Some rows) t) = false).
    { apply not_true_is_false. rewrite Hiff. intros H.
      apply (f_equal Track._pitch_annotation) in H. discriminate H. }
    split; [exact E|]. unfold Track_ne. fold (Track_eq (Track.set_pitch_annotation None t)
      (Track.set_pitch_annotation (Some rows) t)). now rewrite E.
Qed.

(** The tuple that is hashed holds the seven attributes, each one
    recoverable from it. *)
Lemma Track_hash_key_inj (a b : Track.t) :
  Track_hash_key a = Track_hash_key b <->
  Track.instrument a = Track.instrument b /\
  Track.file_path a = Track.file_path b /\
  Track.component a = Track.component b /\
  Track.stem_idx a = Track.stem_idx b /\
  Track.raw_idx a = Track.raw_idx b /\
  Track.mix_path a = Track.mix_path b /\
  Track._pitch_path a = Track._pitch_path b.
Proof.
  unfold Track_hash_key. split.
  - intros H. inversion H as [[H1 H2 H3 H4 H5 H6 H7]].
    opt_inj H2. opt_inj H4. opt_inj H5. opt_inj H6. opt_inj H7.
    repeat split; assumption.
  - intros (H1 & H2 & H3 & H4 & H5 & H6 & H7).
    now rewrite H1, H2, H3, H4, H5, H6, H7.
Qed.

(** C10.  The hash of a track is the hash of the tuple of [instrument],
    [file_path], [component], [stem_idx], [raw_idx], [mix_path] and
    [_pitch_path], and of nothing else: tracks that agree on these seven have
    the same hash, tracks equal under [==] have the same hash, and changing
    [ranking], [mixing_coefficient], [duration] or the pitch cache keeps the
    hash while it makes the tracks unequal.  Each of the seven is read: two
    tracks have the same hash under every hash function on tuples exactly
    when they agree on all seven, and under a hash function without
    collisions a difference in any of the seven changes the hash. *)
Theorem Track_hash_ignores_unhashed (py_hash : list attr_value -> Z) :
  (forall a b : Track.t,
      Track.instrument a = Track.instrument b ->
      Track.file_path a = Track.file_path b ->
      Track.component a = Track.component b ->
      Track.stem_idx a = Track.stem_idx b ->
      Track.raw_idx a = Track.raw_idx b ->
      Track.mix_path a = Track.mix_path b ->
      Track._pitch_path a = Track._pitch_path b ->
      Track_hash py_hash a = Track_hash py_hash b) /\
  (forall a b : Track.t,
      Track_eq a b = true -> Track_hash py_hash a = Track_hash py_hash b) /\
  (forall (t : Track.t) (r : option Z) (m d : option pyfloat)
          (c : option annotation),
      Track_hash py_hash (Track.with_unhashed r m d c t) = Track_hash py_hash t /\
      (Track_eq t (Track.with_unhashed r m d c t) = true <->
       Track.ranking t = r /\ Track.mixing_coefficient t = m /\
       Track.duration t = d /\ Track._pitch_annotation t = c)) /\
  (forall a b : Track.t,
      (forall h : list attr_value -> Z, Track_hash h a = Track_hash h b) <->
      Track.instrument a = Track.instrument b /\
      Track.file_path a = Track.file_path b /\
      Track.component a = Track.component b /\
      Track.stem_idx a = Track.stem_idx b /\
      Track.raw_idx a = Track.raw_idx b /\
      Track.mix_path a = Track.mix_path b /\
      Track._pitch_path a = Track._pitch_path b) /\
  ((forall k1 k2, py_hash k1 = py_hash k2 -> k1 = k2) ->
   forall a b : Track.t,
     Track_hash py_hash a = Track_hash py_hash b ->
     Track.instrument a = Track.instrument b /\
     Track.file_path a = Track.file_path b /\
     Track.component a = Track.component b /\
     Track.stem_idx a = Track.stem_idx b /\
     Track.raw_idx a = Track.raw_idx b /\
     Track.mix_path a = Track.mix_path b /\
     Track._pitch_path a = Track._pitch_path b).
Proof.
  split; [|split; [|split; [|split]]].
  - intros a b H1 H2 H3 H4 H5 H6 H7. unfold Track_hash, Track_hash_key.
    now rewrite H1, H2, H3, H4, H5, H6, H7.
  - intros a b H. apply Track_dict_eqb_iff in H. now subst.
  - intros t r m d c. split; [reflexivity|].
    unfold Track_eq. rewrite Track_dict_eqb_iff. destruct t; simpl. split.
    + intros H. inversion H. auto.
    + intros (-> & -> & -> & ->). reflexivity.
  - intros a b. rewrite <- Track_hash_key_inj. unfold Track_hash. split.
    + intros H.
      specialize (H (fun k => if decide (k = Track_hash_key a) then 0 else 1)).
      cbv beta in H. rewrite decide_True in H by reflexivity.
      destruct (decide (Track_hash_key b = Track_hash_key a)) as [E|_];
        [now symmetry|discriminate H].
    + intros E h. now rewrite E.
  - intros Hinj a b H. apply Track_hash_key_inj. now apply Hinj.
Qed.

(** A difference in [_pitch_path] alone shows in the hash. *)
Lemma Track_hash_ignores_unhashed_witness :
  ~ (forall h : list attr_value -> Z,
        Track_hash h Fixture.stem1 = Track_hash h Fixture.stem1_bad).
Proof.
  intros H.
  apply (proj1 (proj2 (proj2 (proj2 (Track_hash_ignores_unhashed (fun _ => 0)))))
           Fixture.stem1 Fixture.stem1_bad) in H.
  destruct H as (_ & _ & _ & _ & _ & _ & H). discriminate H.
Defined.

(** ** [get_dict_leaves] *)

Section LeavesFacts.
Context {K A : Type} `{EqDecision A}.
Implicit Types (x v d : pyobj K A) (h : hashable A).

Lemma pyobj_nested_ind (P : pyobj K A -> Prop) :
  (forall a, P (PAtom a)) ->
  (forall s, P (PStr s)) ->
  (forall xs, Forall P xs -> P (PList xs)) ->
  (forall items, Forall (fun kv => P (snd kv)) items -> P (PDict items)) ->
  forall x, P x.
Proof.
  intros Ha Hs Hl Hd. fix IH 1. intros [a|s|xs|items].
  - apply Ha.
  - apply Hs.
  - apply Hl. induction xs as [|y ys IHys]; constructor; [apply IH|exact IHys].
  - apply Hd. induction items as [|[k v] rest IHrest]; constructor;
      [apply IH|exact IHrest].
Qed.

Lemma to_hashable_of h : to_hashable (of_hashable (K:=K) h) = Ok h.
Proof. now destruct h. Qed.

Lemma hashable_obj_inv x :
  hashable_obj x = true -> exists h, x = of_hashable h.
Proof.
  destruct x as [a|s| |]; try discriminate; intros _;
    [exists (HAtom a)|exists (HStr s)]; reflexivity.
Qed.

Lemma hash_all_ok (vals : list (pyobj K A)) :
  forallb hashable_obj vals = true ->
  exists hs, hash_all vals = Ok hs /\ map of_hashable hs = vals.
Proof.
  induction vals as [|x rest IH]; simpl; intros Hall.
  - now exists [].
  - apply andb_true_iff in Hall as [Hx Hrest].
    destruct (hashable_obj_inv x Hx) as [h ->].
    destruct (IH Hrest) as (hs & -> & Hmap).
    rewrite to_hashable_of. exists (h :: hs). simpl. now rewrite Hmap.
Qed.

Lemma of_hashable_inj h1 h2 :
  of_hashable (K:=K) h1 = of_hashable h2 -> h1 = h2.
Proof. destruct h1, h2; simpl; congruence. Qed.

(** [set(vals)] on hashable values: no duplicates, the same members. *)
Lemma py_set_ok (vals : list (pyobj K A)) :
  forallb hashable_obj vals = true ->
  exists s, py_set vals = Ok s /\ NoDup s /\
            forall h, In h s <-> In (of_hashable h) vals.
Proof.
  intros Hall. destruct (hash_all_ok vals Hall) as (hs & Hhs & Hmap).
  unfold py_set. rewrite Hhs. exists (remove_dups hs). split; [reflexivity|].
  split; [apply NoDup_remove_dups|].
  intros h. rewrite <- list_elem_of_In, elem_of_remove_dups, list_elem_of_In.
  rewrite <- Hmap, in_map_iff. split.
  - intros Hin. now exists h.
  - intros (h' & Heq & Hin). apply of_hashable_inj in Heq. now subst.
Qed.

Lemma forallb_app_true {X} (f : X -> bool) l1 l2 :
  forallb f (l1 ++ l2) = true <-> forallb f l1 = true /\ forallb f l2 = true.
Proof. rewrite forallb_app. apply andb_true_iff. Qed.

(** On a dictionary whose leaves can all be put in a set, the function
    returns a duplicate-free list with exactly those leaves. *)
Lemma get_dict_leaves_ok d :
  is_dict d = true ->
  forallb hashable_obj (leaves d) = true ->
  exists s, get_dict_leaves d = Ok s /\ NoDup s /\
            forall h, In h s <-> In (of_hashable h) (leaves d).
Proof.
  induction d as [a|s0|xs _|items IH] using pyobj_nested_ind;
    try discriminate.
  intros _ Hall. cbn [get_dict_leaves].
  match goal with
  | |- context [match ?L with Ok _ => _ | Raise _ => _ end] =>
      assert (Hloop : exists vs, L = Ok vs /\
                forall x, In x vs <-> In x (leaves (PDict items)))
  end.
  { cbn [leaves] in *. revert Hall.
    induction items as [|[k v] rest IHrest]; intros Hall.
    - exists []. split; [reflexivity|]. tauto.
    - apply forallb_app_true in Hall as [Hv Hrest].
      apply Forall_cons_1 in IH as [IHv IHr]. simpl in IHv.
      destruct (IHrest IHr Hrest) as (more & -> & Hmore).
      destruct v as [a|s0|xs|sub].
      + exists ([PAtom a] ++ more). split; [reflexivity|].
        intros x. rewrite !in_app_iff, Hmore. tauto.
      + exists (chars s0 ++ more). split; [reflexivity|].
        intros x. rewrite !in_app_iff, Hmore. tauto.
      + exists (xs ++ more). split; [reflexivity|].
        intros x. rewrite !in_app_iff, Hmore. tauto.
      + destruct (IHv eq_refl Hv) as (s & -> & _ & Hs).
        exists (map of_hashable s ++ more). split; [reflexivity|].
        intros x. rewrite !in_app_iff, Hmore, in_map_iff.
        split; (intros [Hx|Hx]; [left|now right]).
        * destruct Hx as (h & <- & Hin). now apply Hs.
        * rewrite forallb_forall in Hv.
          destruct (hashable_obj_inv x (Hv x Hx)) as [h ->].
          exists h. split; [reflexivity|]. now apply Hs. }
  destruct Hloop as (vs & -> & Hvs).
  destruct (py_set_ok vs) as (s & Hs & Hnd & Hmem).
  - rewrite forallb_forall in *. intros x Hx. apply Hall. now apply Hvs.
  - exists s. split; [exact Hs|]. split; [exact Hnd|].
    intros h. rewrite Hmem. apply Hvs.
Qed.
End LeavesFacts.

(** C8 (amended).  On the dictionary [{'a': {'b': 1, 'c': 2}, 'd': 3}] the
    function returns the set [{1, 2, 3}].  For every nested dictionary whose
    leaves (an iterable leaf counted by its elements) are hashable, it returns
    a set whose members are exactly those leaves. *)
Theorem get_dict_leaves_collects_hashable :
  (exists s, get_dict_leaves Fixture.ex_tree = Ok s /\ NoDup s /\
             forall h, In h s <-> h = HAtom 1 \/ h = HAtom 2 \/ h = HAtom 3) /\
  (forall (K A : Type) (dec : EqDecision A) (items : list (K * pyobj K A)),
      forallb hashable_obj (leaves (PDict items)) = true ->
      exists s, get_dict_leaves (PDict items) = Ok s /\ NoDup s /\
                forall h, In h s <-> In (of_hashable h) (leaves (PDict items))).
Proof.
  split.
  - exists [HAtom 1; HAtom 2; HAtom 3]. split; [reflexivity|]. split.
    + compute_done.
    + intros h. simpl. intuition congruence.
  - intros K A dec items Hall. now apply get_dict_leaves_ok.
Qed.

Lemma get_dict_leaves_collects_hashable_witness :
  exists s, get_dict_leaves Fixture.ex_tree = Ok s /\ NoDup s /\
            forall h, In h s <-> In (of_hashable h) (leaves Fixture.ex_tree).
Proof.
  apply (proj2 get_dict_leaves_collects_hashable string Z _). reflexivity.
Defined.

(** C8, as stated, fails: a list of lists is a leaf that is no mapping, and
    the function raises instead of returning a set that holds its element. *)
Lemma get_dict_leaves_unhashable_counterexample :
  leaves Fixture.ex_unhashable = [PList [PAtom 1]] /\
  get_dict_leaves Fixture.ex_unhashable = Raise TypeError.
Proof. split; reflexivity. Qed.

(** ** The effect monad *)

Lemma bind_ok {A B} (m : M A) (k : A -> M B) (b : B) (w : list event) :
  bind m k = (Ok b, w) ->
  exists a w1 w2, m = (Ok a, w1) /\ k a = (Ok b, w2) /\ w = w1 ++ w2.
Proof.
  unfold bind. destruct m as [[a|e] w1]; [|discriminate].
  destruct (k a) as [r w2] eqn:Ek. intros H. inversion H; subst.
  now exists a, w1, w2.
Qed.

Lemma lift_ok {A} (r : result A) (a : A) (w : list event) :
  lift r = (Ok a, w) -> r = Ok a /\ w = [].
Proof. unfold lift. intros H. now inversion H. Qed.

Lemma ret_ok {A} (a b : A) (w : list event) :
  ret a = (Ok b, w) -> a = b /\ w = [].
Proof. unfold ret. intros H. now inversion H. Qed.

(** Peel the successful steps off a hypothesis [H : ... = (Ok _, _)]. *)
Ltac step H :=
  let a := fresh "a" in
  let w1 := fresh "wa" in
  let w2 := fresh "wb" in
  let H1 := fresh "Hstep" in
  let Hw := fresh "Hlog" in
  apply bind_ok in H as (a & w1 & w2 & H1 & H & Hw).

Lemma foldM_invariant {S X} (I : S -> Prop) (f : S -> X -> M S)
    (xs : list X) :
  (forall s x s' w, I s -> In x xs -> f s x = (Ok s', w) -> I s') ->
  forall s s' w, I s -> foldM f s xs = (Ok s', w) -> I s'.
Proof.
  induction xs as [|x rest IH]; intros Hf s s' w Hs H.
  - apply ret_ok in H as [<- _]. exact Hs.
  - simpl in H. step H. eapply IH; [|eapply Hf; [exact Hs|now left|exact Hstep]|exact H].
    intros s0 x0 s0' w0 Hs0 Hin. apply Hf; [exact Hs0|now right].
Qed.

(** ** [read_annotation_file] *)

Lemma mapR_ext {X Y} (f g : X -> result Y) (xs : list X) :
  (forall x, f x = g x) -> mapR f xs = mapR g xs.
Proof.
  intros Hfg. induction xs as [|x rest IH]; simpl; [reflexivity|].
  now rewrite Hfg, IH.
Qed.

Section ReaderFacts.
Variable py_float : string -> option pyfloat.
Variable fs : filesystem.

Lemma read_row_positive (n : Z) (line : list string) :
  0 < n ->
  read_row py_float (Some n) line
  = mapR (float_of py_float) (firstn (Z.to_nat n) line).
Proof.
  intros Hn. unfold read_row, num_cols_set, slice_to.
  destruct (Z.eqb_spec n 0) as [->|_]; [lia|]. simpl.
  destruct (Z.leb_spec 0 n); [reflexivity|lia].
Qed.

Lemma read_rows_as_specified (num_cols : option Z) (rows : list (list string)) :
  (num_cols = None \/ exists n, num_cols = Some n /\ 0 < n) ->
  mapR (read_row py_float num_cols) rows
  = rows_as_specified py_float num_cols rows.
Proof.
  intros Hn. unfold rows_as_specified. apply mapR_ext. intros line.
  destruct Hn as [->|(n & -> & Hn)]; [reflexivity|].
  now apply read_row_positive.
Qed.

Lemma read_annotation_file_missing fpath num_cols header :
  fs_exists fs fpath = false ->
  read_annotation_file py_float fs fpath num_cols header
  = (Ok (None, None),
     [EvExists fpath; EvPrint ("Warning: " +:+ fpath +:+ " does not exist.")]).
Proof.
  intros Hex. unfold read_annotation_file, path_exists, print, bind, emit, ret.
  simpl. now rewrite Hex.
Qed.

(** The log of a call that found the file starts with the check and the
    read, and has nothing else. *)
Lemma read_annotation_file_found fpath num_cols header :
  fs_exists fs fpath = true ->
  read_annotation_file py_float fs fpath num_cols header
  = (match (if header then
              match fs_csv fs fpath with
              | [] => Raise StopIteration
              | h :: rest => Ok (h, rest)
              end
            else Ok ([], fs_csv fs fpath)) with
     | Raise e => Raise e
     | Ok hl =>
         match mapR (read_row py_float num_cols) (snd hl) with
         | Raise e => Raise e
         | Ok ann => Ok (Some ann, Some (fst hl))
         end
     end, [EvExists fpath; EvOpen fpath]).
Proof.
  intros Hex. unfold read_annotation_file, path_exists, bind, emit, ret, raise, lift.
  simpl. rewrite Hex.
  destruct header; [destruct (fs_csv fs fpath) as [|h rest]|]; simpl;
    try reflexivity;
    match goal with
    | |- context [mapR ?f ?l] => destruct (mapR f l); reflexivity
    end.
Qed.

(** X25.  The part of the contract of [read_annotation_file] the code
    keeps.  On a path that does not exist it returns [(None, None)] without raising,
    whatever the header flag and [num_cols].  On an existing file whose
    fields are numbers (and which has a first row when [header] is set) it
    returns the rows as lists of floats, cut to their first [num_cols]
    fields when [num_cols] is a positive integer, with the first row as
    header when [header] is set and an empty header otherwise. *)
Theorem read_annotation_file_contract (fpath : string)
    (num_cols : option Z) (header : bool) :
  (fs_exists fs fpath = false ->
   read_annotation_file py_float fs fpath num_cols header
   = (Ok (None, None),
      [EvExists fpath;
       EvPrint ("Warning: " +:+ fpath +:+ " does not exist.")])) /\
  (fs_exists fs fpath = true ->
   (num_cols = None \/ exists n, num_cols = Some n /\ 0 < n) ->
   forall hdr data ann,
     (if header then fs_csv fs fpath = hdr :: data
      else hdr = [] /\ data = fs_csv fs fpath) ->
     rows_as_specified py_float num_cols data = Ok ann ->
     read_annotation_file py_float fs fpath num_cols header
     = (Ok (Some ann, Some hdr), [EvExists fpath; EvOpen fpath])).
Proof.
  split; [apply read_annotation_file_missing|].
  intros Hex Hn hdr data ann Hrows Hann.
  rewrite read_annotation_file_found by exact Hex.
  destruct header.
  - rewrite Hrows. simpl. rewrite read_rows_as_specified by exact Hn.
    now rewrite Hann.
  - destruct Hrows as [-> ->]. simpl.
    rewrite read_rows_as_specified by exact Hn. now rewrite Hann.
Qed.

(** Rows cut to their first 0 columns are empty. *)
Lemma rows_as_specified_zero (data : list (list string)) :
  rows_as_specified py_float (Some 0) data = Ok (map (fun _ => []) data).
Proof.
  unfold rows_as_specified.
  induction data as [|line data IH]; [reflexivity|].
  cbn [mapR map]. change (firstn (Z.to_nat 0) line) with (@nil string).
  cbn [mapR]. now rewrite IH.
Qed.

(** Whole rows are empty only for empty lines. *)
Lemma whole_rows_empty (data : list (list string)) :
  mapR (mapR (float_of py_float)) data = Ok (map (fun _ => []) data) ->
  forall line, In line data -> line = [].
Proof.
  induction data as [|l data IH]; [intros _ line []|].
  cbn [mapR map].
  destruct (mapR (float_of py_float) l) as [row|] eqn:Hrow; [|discriminate].
  destruct (mapR (mapR (float_of py_float)) data) as [rows|]; [|discriminate].
  intros H. inversion H; subst. intros line [<-|Hin]; [|now apply IH].
  destruct l as [|x l]; [reflexivity|]. cbn [mapR] in Hrow.
  destruct (float_of py_float x); [|discriminate].
  destruct (mapR (float_of py_float) l); discriminate.
Qed.

(** C3.  At [num_cols = 0] the code does not do what the claim and the
    docstring promise ("if specified, will only read ... num_cols
    columns"): the guard [if num_cols:] takes 0 for "not given".  Whenever
    the call with [num_cols = 0] returns an annotation, it is the annotation
    of the call with [num_cols = None]: every row holds the floats of all
    the fields of its line, where the rows cut to their first 0 columns are
    all empty; the two differ as soon as some data line has a field. *)
Theorem read_annotation_file_zero_cols_not_cut (fpath : string)
    (header : bool) (h : list string) (data : list (list string))
    (ann : annotation) (hdr : option (list string)) (w : list event) :
  header_and_data header (fs_csv fs fpath) = Some (h, data) ->
  read_annotation_file py_float fs fpath (Some 0) header
  = (Ok (Some ann, hdr), w) ->
  read_annotation_file py_float fs fpath None header
  = (Ok (Some ann, hdr), w) /\
  hdr = Some h /\
  mapR (mapR (float_of py_float)) data = Ok ann /\
  rows_as_specified py_float (Some 0) data = Ok (map (fun _ => []) data) /\
  ((exists line, In line data /\ line <> []) ->
   rows_as_specified py_float (Some 0) data <> Ok ann).
Proof.
  intros Hdata Hcall.
  assert (Hsame : read_annotation_file py_float fs fpath (Some 0) header
                  = read_annotation_file py_float fs fpath None header).
  { destruct (fs_exists fs fpath) eqn:Hex.
    - rewrite !read_annotation_file_found by exact Hex. reflexivity.
    - rewrite !read_annotation_file_missing by exact Hex. reflexivity. }
  split; [now rewrite <- Hsame|].
  assert (Hrows : hdr = Some h /\ mapR (mapR (float_of py_float)) data = Ok ann).
  { destruct (fs_exists fs fpath) eqn:Hex.
    - rewrite read_annotation_file_found in Hcall by exact Hex.
      unfold header_and_data in Hdata.
      destruct header.
      + destruct (fs_csv fs fpath) as [|h' rest]; [discriminate|].
        inversion Hdata; subst h' rest. cbn [fst snd] in Hcall.
        change (read_row py_float (Some 0)) with (mapR (float_of py_float))
          in Hcall.
        destruct (mapR (mapR (float_of py_float)) data); inversion Hcall.
        now split.
      + inversion Hdata; subst h data. cbn [fst snd] in Hcall.
        change (read_row py_float (Some 0)) with (mapR (float_of py_float))
          in Hcall.
        destruct (mapR (mapR (float_of py_float)) (fs_csv fs fpath));
          inversion Hcall.
        now split.
    - rewrite read_annotation_file_missing in Hcall by exact Hex.
      discriminate Hcall. }
  destruct Hrows as [Hhdr Hwhole].
  split; [exact Hhdr|]. split; [exact Hwhole|].
  split; [apply rows_as_specified_zero|].
  intros (line & Hin & Hne). rewrite rows_as_specified_zero.
  intros Heq. inversion Heq as [Hann]. rewrite <- Hann in Hwhole.
  apply Hne. now apply (whole_rows_empty data Hwhole).
Qed.
End ReaderFacts.

Lemma read_annotation_file_contract_witness :
  read_annotation_file Fixture.py_float Fixture.fs_empty Fixture.pitch_file
                       (Some 2) false
  = (Ok (None, None),
     [EvExists Fixture.pitch_file;
      EvPrint ("Warning: " +:+ Fixture.pitch_file +:+ " does not exist.")]) /\
  read_annotation_file Fixture.py_float Fixture.fs_full Fixture.pitch_file
                       (Some 2) false
  = (Ok (Some [[Float64 0; Float64 440]; [Float64 1; Float64 441]], Some []),
     [EvExists Fixture.pitch_file; EvOpen Fixture.pitch_file]) /\
  read_annotation_file Fixture.py_float Fixture.fs_full
                       Fixture.activation_file None true
  = (Ok (Some [[Float64 0; Float64 1; Float64 0];
               [Float64 1; Float64 1; Float64 1]],
         Some ["time"; "S01"; "S02"]),
     [EvExists Fixture.activation_file; EvOpen Fixture.activation_file]).
Proof.
  split; [|split].
  - apply (read_annotation_file_contract Fixture.py_float Fixture.fs_empty).
    reflexivity.
  - apply (proj2 (read_annotation_file_contract
             Fixture.py_float Fixture.fs_full Fixture.pitch_file (Some 2) false)
             eq_refl
             (or_intror (ex_intro _ 2 (conj eq_refl eq_refl)))
             [] (fs_csv Fixture.fs_full Fixture.pitch_file));
      [split; reflexivity | reflexivity].
  - apply (proj2 (read_annotation_file_contract
             Fixture.py_float Fixture.fs_full Fixture.activation_file None true)
             eq_refl (or_introl eq_refl) ["time"; "S01"; "S02"]
             [["0"; "1"; "0"]; ["1"; "1"; "1"]]);
      reflexivity.
Defined.

(** The failing input of C3: a file of two rows of three fields, read with
    [num_cols = 0], comes back whole. *)
Lemma read_annotation_file_zero_cols_not_cut_witness :
  read_annotation_file Fixture.py_float Fixture.fs_full Fixture.pitch_file
                       (Some 0) false
  = (Ok (Some [[Float64 0; Float64 440; Float64 2];
               [Float64 1; Float64 441; Float64 7]], Some []),
     [EvExists Fixture.pitch_file; EvOpen Fixture.pitch_file]) /\
  read_annotation_file Fixture.py_float Fixture.fs_full Fixture.pitch_file
                       None false
  = (Ok (Some [[Float64 0; Float64 440; Float64 2];
               [Float64 1; Float64 441; Float64 7]], Some []),
     [EvExists Fixture.pitch_file; EvOpen Fixture.pitch_file]) /\
  Some (@nil string) = Some [] /\
  mapR (mapR (float_of Fixture.py_float))
       [["0"; "440"; "2"]; ["1"; "441"; "7"]]
  = Ok [[Float64 0; Float64 440; Float64 2];
        [Float64 1; Float64 441; Float64 7]] /\
  rows_as_specified Fixture.py_float (Some 0)
                    [["0"; "440"; "2"]; ["1"; "441"; "7"]]
  = Ok [[]; []] /\
  ((exists line, In line [["0"; "440"; "2"]; ["1"; "441"; "7"]] /\
                 line <> []) ->
   rows_as_specified Fixture.py_float (Some 0)
                     [["0"; "440"; "2"]; ["1"; "441"; "7"]]
   <> Ok [[Float64 0; Float64 440; Float64 2];
          [Float64 1; Float64 441; Float64 7]]).
Proof.
  split; [reflexivity|].
  exact (read_annotation_file_zero_cols_not_cut
           Fixture.py_float Fixture.fs_full Fixture.pitch_file false
           [] [["0"; "440"; "2"]; ["1"; "441"; "7"]]
           [[Float64 0; Float64 440; Float64 2];
            [Float64 1; Float64 441; Float64 7]]
           (Some []) [EvExists Fixture.pitch_file; EvOpen Fixture.pitch_file]
           eq_refl eq_refl).
Defined.

(** ** The lazily loaded annotations *)

Lemma count_opens_app (w1 w2 : list event) :
  count_opens (w1 ++ w2) = (count_opens w1 + count_opens w2)%nat.
Proof. unfold count_opens. now rewrite List.filter_app, length_app. Qed.

Section LazyFacts.
Variable py_float : string -> option pyfloat.
Variable fs : filesystem.

(** A property written as the four of the source are: a guard on the
    cache (and on the path, when it can be [None]), a fill from
    [read_annotation_file], the cache returned. *)
Context {O : Type}.
Variable get : O -> M (option annotation * O).
Variable cache : O -> option annotation.
Variable path : O -> option string.
Variable cols : option Z.
Variable set : option annotation -> O -> O.

Hypothesis get_unfold : forall self,
  get self =
  match path self, cache self with
  | Some p, None =>
      r <- read_annotation_file py_float fs p cols false ;;
      ret (fst r, set (fst r) self)
  | _, _ => ret (cache self, self)
  end.
Hypothesis cache_set : forall v self, cache (set v self) = v.
Hypothesis set_same : forall self, set (cache self) self = self.

Lemma lazy_hit self rows :
  cache self = Some rows -> get self = (Ok (Some rows, self), []).
Proof.
  intros Hc. rewrite get_unfold, Hc. now destruct (path self).
Qed.

Lemma lazy_result self v self' w :
  get self = (Ok (v, self'), w) ->
  cache self' = v /\ (count_opens w <= 1)%nat /\
  (v = None -> self' = self /\ count_opens w = 0%nat).
Proof.
  rewrite get_unfold.
  destruct (path self) as [p|] eqn:Hp; destruct (cache self) as [rows|] eqn:Hc;
    try (intros H; apply ret_ok in H as [H ->]; inversion H; subst;
         repeat split; auto; discriminate).
  destruct (fs_exists fs p) eqn:Hex.
  - rewrite read_annotation_file_found by exact Hex.
    unfold bind, ret.
    match goal with
    | |- context [mapR ?f ?l] => destruct (mapR f l) as [ann|e]
    end; simpl; [|discriminate].
    intros H. inversion H; subst. rewrite cache_set.
    split; [reflexivity|]. split; [auto|]. discriminate.
  - rewrite read_annotation_file_missing by exact Hex.
    unfold bind, ret. simpl. intros H. inversion H; subst.
    rewrite cache_set. repeat split; auto.
    rewrite <- Hc. apply set_same.
Qed.

Lemma lazy_accesses_hit self rows n :
  cache self = Some rows ->
  accesses get n self = (repeat (Ok (Some rows)) n, [], self).
Proof.
  intros Hc. induction n as [|n IH]; simpl; [reflexivity|].
  now rewrite (lazy_hit self rows Hc), IH.
Qed.

Lemma lazy_caches_loaded_value : caches_loaded_value get.
Proof.
  intros self rows self' w H. apply lazy_result in H as (Hc & Hw & _).
  split; [exact Hw|]. intros n. now apply lazy_accesses_hit.
Qed.

Lemma lazy_loads_at_most_once : loads_at_most_once get.
Proof.
  intros n. induction n as [|n IH]; intros self; simpl; [auto|].
  destruct (get self) as [[[v self']|e] w] eqn:Hget.
  - destruct v as [rows|].
    + apply lazy_result in Hget as (Hc & Hw & _).
      rewrite (lazy_accesses_hit self' rows n Hc). simpl.
      intros _. now rewrite app_nil_r.
    + apply lazy_result in Hget as (_ & _ & Hnone).
      destruct (Hnone eq_refl) as [-> Hw].
      specialize (IH self).
      destruct (accesses get n self) as [[rs ws] final]. simpl in *.
      intros Hall. apply Forall_cons_1 in Hall as [_ Hall].
      rewrite count_opens_app, Hw. now apply IH.
  - destruct (accesses get n self) as [[rs ws] final]. simpl.
    intros Hall. apply Forall_cons_1 in Hall as [Hbad _]. discriminate Hbad.
Qed.

Lemma lazy_absent_not_cached :
  absent_not_cached get
    (fun self p => cache self = None /\ path self = Some p /\
                   fs_exists fs p = false).
Proof.
  intros self p (Hc & Hp & Hex). rewrite get_unfold, Hp, Hc.
  rewrite read_annotation_file_missing by exact Hex.
  assert (E : set None self = self) by (rewrite <- Hc; apply set_same).
  unfold bind, ret. simpl. now rewrite E.
Qed.
End LazyFacts.

Section LazyAccessors.
Variable py_float : string -> option pyfloat.
Variable fs : filesystem.

Lemma melody_lazily_cached
    (get : MultiTrack.t -> M (option annotation * MultiTrack.t))
    (cache : MultiTrack.t -> option annotation)
    (set : option annotation -> MultiTrack.t -> MultiTrack.t)
    (suffix : string) :
  (forall self,
      get self =
      match cache self with
      | None =>
          r <- read_annotation_file py_float fs
                 (PyStr.path_join (MultiTrack.annotation_dir self)
                                  (MultiTrack.track_id self +:+ suffix))
                 None false ;;
          ret (fst r, set (fst r) self)
      | Some _ => ret (cache self, self)
      end) ->
  (forall v self, cache (set v self) = v) ->
  (forall self, set (cache self) self = self) ->
  lazily_cached get (melody_missing fs suffix cache).
Proof.
  intros Hget Hcs Hss.
  set (path := fun self =>
         Some (PyStr.path_join (MultiTrack.annotation_dir self)
                               (MultiTrack.track_id self +:+ suffix))).
  assert (Hunfold : forall self,
    get self =
    match path self, cache self with
    | Some p, None =>
        r <- read_annotation_file py_float fs p None false ;;
        ret (fst r, set (fst r) self)
    | _, _ => ret (cache self, self)
    end).
  { intros self. rewrite Hget. unfold path. now destruct (cache self). }
  split; [|split].
  - exact (lazy_caches_loaded_value py_float fs get cache path None set
             Hunfold Hcs Hss).
  - exact (lazy_loads_at_most_once py_float fs get cache path None set
             Hunfold Hcs Hss).
  - intros self p (Hc & -> & Hex).
    apply (lazy_absent_not_cached py_float fs get cache path None set
             Hunfold Hss).
    now repeat split.
Qed.

(** C7 (amended).  For each of [melody1_annotation], [melody2_annotation],
    [melody3_annotation] and [Track.pitch_annotation]: once an access has
    returned a loaded annotation, every later access on the instance
    returns that cached value and neither checks for nor reads the file;
    over any sequence of accesses none of which raises, the file is read
    at most once.  A missing file is not cached: as long as the file does
    not exist each access calls [read_annotation_file] again (existence
    check and warning) and returns [None]. *)
Theorem lazy_annotations_cached :
  lazily_cached (melody1_annotation py_float fs)
    (melody_missing fs "_MELODY1.csv" MultiTrack._melody1_annotation) /\
  lazily_cached (melody2_annotation py_float fs)
    (melody_missing fs "_MELODY2.csv" MultiTrack._melody2_annotation) /\
  lazily_cached (melody3_annotation py_float fs)
    (melody_missing fs "_MELODY3.csv" MultiTrack._melody3_annotation) /\
  lazily_cached (Track_pitch_annotation py_float fs) (pitch_missing fs).
Proof.
  split; [|split; [|split]].
  - apply (melody_lazily_cached _ _ MultiTrack.set_melody1).
    + intros self. unfold melody1_annotation.
      now destruct (MultiTrack._melody1_annotation self).
    + reflexivity.
    + now destruct self.
  - apply (melody_lazily_cached _ _ MultiTrack.set_melody2).
    + intros self. unfold melody2_annotation.
      now destruct (MultiTrack._melody2_annotation self).
    + reflexivity.
    + now destruct self.
  - apply (melody_lazily_cached _ _ MultiTrack.set_melody3).
    + intros self. unfold melody3_annotation.
      now destruct (MultiTrack._melody3_annotation self).
    + reflexivity.
    + now destruct self.
  - assert (Hunfold : forall self,
      Track_pitch_annotation py_float fs self =
      match Track._pitch_path self, Track._pitch_annotation self with
      | Some p, None =>
          r <- read_annotation_file py_float fs p (Some 2) false ;;
          ret (fst r, Track.set_pitch_annotation (fst r) self)
      | _, _ => ret (Track._pitch_annotation self, self)
      end).
    { intros self. unfold Track_pitch_annotation.
      destruct (Track._pitch_path self); [|reflexivity].
      now destruct (Track._pitch_annotation self). }
    assert (Hss : forall self,
      Track.set_pitch_annotation (Track._pitch_annotation self) self = self)
      by (intros self; now destruct self).
    split; [|split].
    + exact (lazy_caches_loaded_value py_float fs _ _ _ _ _
               Hunfold (fun _ _ => eq_refl) Hss).
    + exact (lazy_loads_at_most_once py_float fs _ _ _ _ _
               Hunfold (fun _ _ => eq_refl) Hss).
    + exact (lazy_absent_not_cached py_float fs _ _ _ _ _ Hunfold Hss).
Qed.
End LazyAccessors.

Lemma lazy_annotations_cached_witness :
  (forall n,
      accesses (Track_pitch_annotation Fixture.py_float Fixture.fs_full) n
        (Track.set_pitch_annotation
           (Some [[Float64 0; Float64 440]; [Float64 1; Float64 441]])
           Fixture.stem1)
      = (repeat (Ok (Some [[Float64 0; Float64 440]; [Float64 1; Float64 441]])) n,
         [],
         Track.set_pitch_annotation
           (Some [[Float64 0; Float64 440]; [Float64 1; Float64 441]])
           Fixture.stem1)) /\
  Track_pitch_annotation Fixture.py_float Fixture.fs_empty Fixture.stem1
  = (Ok (None, Fixture.stem1),
     [EvExists Fixture.pitch_file;
      EvPrint ("Warning: " +:+ Fixture.pitch_file +:+ " does not exist.")]).
Proof.
  split.
  - apply (proj1 (proj2 (proj2 (proj2
             (lazy_annotations_cached Fixture.py_float Fixture.fs_full))))
             Fixture.stem1 _ _ [EvExists Fixture.pitch_file;
                                EvOpen Fixture.pitch_file]).
    reflexivity.
  - apply (proj2 (proj2 (proj2 (proj2 (proj2
             (lazy_annotations_cached Fixture.py_float Fixture.fs_empty)))))).
    repeat split.
Defined.

(** C7, as stated, fails.  With the pitch file missing, two accesses on one
    track run [read_annotation_file] twice (two checks, two warnings); with a
    pitch file that holds a field that is no number, two accesses read the
    file twice. *)
Lemma lazy_load_repeated_counterexample :
  accesses (Track_pitch_annotation Fixture.py_float Fixture.fs_empty) 2
           Fixture.stem1
  = ([Ok None; Ok None],
     [EvExists Fixture.pitch_file;
      EvPrint ("Warning: " +:+ Fixture.pitch_file +:+ " does not exist.");
      EvExists Fixture.pitch_file;
      EvPrint ("Warning: " +:+ Fixture.pitch_file +:+ " does not exist.")],
     Fixture.stem1) /\
  accesses (Track_pitch_annotation Fixture.py_float Fixture.fs_full) 2
           Fixture.stem1_bad
  = ([Raise ValueError; Raise ValueError],
     [EvExists Fixture.bad_file; EvOpen Fixture.bad_file;
      EvExists Fixture.bad_file; EvOpen Fixture.bad_file],
     Fixture.stem1_bad) /\
  count_opens
    (snd (fst (accesses (Track_pitch_annotation Fixture.py_float Fixture.fs_full)
                        2 Fixture.stem1_bad))) = 2%nat.
Proof. repeat split. Qed.

(** ** Dictionaries *)

Section DictFacts.
Context {K V : Type} `{EqDecision K}.
Implicit Types (d : list (K * V)).

Lemma PyDict_get_in k v d : PyDict.get k d = Some v -> In (k, v) d.
Proof.
  induction d as [|[k0 v0] d IH]; simpl; [discriminate|].
  destruct (decide (k0 = k)) as [->|_].
  - intros H. inversion H. now left.
  - intros H. right. now apply IH.
Qed.

Lemma PyDict_set_in k v d k' v' :
  In (k', v') (PyDict.set k v d) -> (k', v') = (k, v) \/ In (k', v') d.
Proof.
  induction d as [|[k0 v0] d IH]; simpl.
  - intros [H|[]]. left. now inversion H.
  - destruct (decide (k0 = k)) as [->|_]; simpl.
    + intros [H|H]; [left; now inversion H|right; now right].
    + intros [H|H]; [right; now left|].
      destruct (IH H); [now left|right; now right].
Qed.

Lemma PyDict_set_keys k v d k' :
  In k' (PyDict.keys (PyDict.set k v d)) -> k' = k \/ In k' (PyDict.keys d).
Proof.
  unfold PyDict.keys. rewrite !in_map_iff.
  intros ([k1 v1] & <- & Hin). apply PyDict_set_in in Hin as [Hin|Hin].
  - left. now inversion Hin.
  - right. now exists (k1, v1).
Qed.

Lemma PyDict_set_wf k v d : PyDict.wf d -> PyDict.wf (PyDict.set k v d).
Proof.
  unfold PyDict.wf. induction d as [|[k0 v0] d IH]; simpl.
  - intros _. constructor; [intros []|constructor].
  - intros Hnd. inversion Hnd as [|? ? Hnotin Hnd']; subst.
    destruct (decide (k0 = k)) as [->|Hne]; simpl.
    + now constructor.
    + constructor; [|now apply IH].
      intros Hin. apply PyDict_set_keys in Hin as [Hin|Hin]; auto.
Qed.

Lemma PyDict_in_get k v d : PyDict.wf d -> In (k, v) d -> PyDict.get k d = Some v.
Proof.
  unfold PyDict.wf. induction d as [|[k0 v0] d IH]; simpl; [intros _ []|].
  intros Hnd. inversion Hnd as [|? ? Hnotin Hnd']; subst.
  intros [Hin|Hin].
  - inversion Hin; subst. now destruct (decide (k = k)).
  - destruct (decide (k0 = k)) as [->|_]; [|now apply IH].
    exfalso. apply Hnotin. unfold PyDict.keys.
    apply in_map_iff. now exists (k, v).
Qed.
End DictFacts.

(** ** Construction of a [MultiTrack] *)

Lemma bind_lift_ok {A B} (a : A) (k : A -> M B) : bind (lift (Ok a)) k = k a.
Proof. unfold bind, lift. now destruct (k a). Qed.

Section InitFacts.
Variable py_float : string -> option pyfloat.
Variable float_div : pyfloat -> pyfloat -> result pyfloat.
Variable fs : filesystem.
Variable cfg : config.

Lemma bind_path_exists {B} (p : string) (k : bool -> M B) :
  bind (path_exists fs p) k
  = (fst (k (fs_exists fs p)), EvExists p :: snd (k (fs_exists fs p))).
Proof.
  unfold path_exists, bind, emit, ret. simpl.
  now destruct (k (fs_exists fs p)).
Qed.

Lemma path_exists_ok p b w :
  path_exists fs p = (Ok b, w) -> b = fs_exists fs p /\ w = [EvExists p].
Proof. unfold path_exists, bind, emit, ret. simpl. intros H. now inversion H. Qed.

(** What a successful construction went through. *)
Lemma MultiTrack_init_ok track_id mt w :
  MultiTrack_init py_float float_div fs cfg track_id = (Ok mt, w) ->
  fs_exists fs (meta_path_of cfg track_id) = true /\
  MultiTrack.mix_path mt = audio_file_of cfg track_id "_MIX.wav" /\
  (exists wr,
      _get_melody_rankings fs
        (PyStr.path_join (annotation_dir_of cfg track_id)
                         (track_id +:+ "_RANKING.txt"))
      = (Ok (MultiTrack.melody_rankings mt), wr)) /\
  (exists wp,
      _parse_metadata float_div fs cfg track_id
        (PyStr.path_join (annotation_dir_of cfg track_id)
                         (track_id +:+ "_PITCH"))
        (audio_file_of cfg track_id "_STEMS")
        (audio_file_of cfg track_id "_RAW")
        (audio_file_of cfg track_id "_MIX.wav")
        (MultiTrack._metadata mt) (MultiTrack.melody_rankings mt)
        (MultiTrack.mixing_coefficients mt)
      = (Ok (MultiTrack.stems mt, MultiTrack.raw_audio mt), wp)) /\
  _get_predominant_stem (MultiTrack.melody_rankings mt) (MultiTrack.stems mt)
  = Ok (MultiTrack.predominant_stem mt) /\
  (exists wa,
      _get_activation_annotations py_float fs
        (annotation_dir_of cfg track_id) track_id
      = (Ok (MultiTrack.stem_activations mt,
             MultiTrack.stem_activations_idx mt), wa)).
Proof.
  unfold MultiTrack_init. intros H.
  step H. step H. step H.
  apply path_exists_ok in Hstep1 as [-> _].
  destruct (fs_exists fs (meta_path_of cfg track_id)); [|discriminate].
  cbn [negb] in H.
  repeat step H.
  apply ret_ok in H as [<- _].
  repeat match goal with
         | Hs : lift _ = (Ok _, _) |- _ => apply lift_ok in Hs as [Hs _]
         | Hs : _ = (Ok ?a, _) |- _ =>
             is_var a;
             match type of a with (_ * _)%type => destruct a end
         end.
  cbn [MultiTrack.mix_path MultiTrack.melody_rankings MultiTrack._metadata
       MultiTrack.mixing_coefficients MultiTrack.stems MultiTrack.raw_audio
       MultiTrack.predominant_stem MultiTrack.stem_activations
       MultiTrack.stem_activations_idx fst snd] in *.
  repeat split; eauto.
Qed.
End InitFacts.


Section InitErrors.
Variable py_float : string -> option pyfloat.
Variable float_div : pyfloat -> pyfloat -> result pyfloat.
Variable fs : filesystem.
Variable cfg : config.

Lemma _get_activation_annotations_missing annotation_dir track_id :
  fs_exists fs (PyStr.path_join annotation_dir
                                (track_id +:+ "_ACTIVATION_CONF.lab")) = false ->
  _get_activation_annotations py_float fs annotation_dir track_id
  = (Raise TypeError,
     [EvExists (PyStr.path_join annotation_dir
                                (track_id +:+ "_ACTIVATION_CONF.lab"));
      EvPrint ("Warning: " +:+
               PyStr.path_join annotation_dir
                               (track_id +:+ "_ACTIVATION_CONF.lab") +:+
               " does not exist.")]).
Proof.
  intros Hex. unfold _get_activation_annotations.
  now rewrite read_annotation_file_missing by exact Hex.
Qed.

(** C1 (the code departs from the claim).  When the activation-confidence
    file does not exist, [read_annotation_file] returns [(None, None)] and
    [_get_activation_annotations] then iterates over the header [None]: it
    raises [TypeError], and the construction of the [MultiTrack] never
    completes, with or without the metadata file. *)
Theorem MultiTrack_init_missing_activation_raises (track_id : string) :
  fs_exists fs (activation_path_of cfg track_id) = false ->
  _get_activation_annotations py_float fs
    (annotation_dir_of cfg track_id) track_id
  = (Raise TypeError,
     [EvExists (activation_path_of cfg track_id);
      EvPrint ("Warning: " +:+ activation_path_of cfg track_id +:+
               " does not exist.")]) /\
  forall mt w,
    MultiTrack_init py_float float_div fs cfg track_id <> (Ok mt, w).
Proof.
  intros Hex.
  pose proof (_get_activation_annotations_missing
                (annotation_dir_of cfg track_id) track_id Hex) as Hact.
  split; [exact Hact|].
  intros mt w H. apply MultiTrack_init_ok in H as (_ & _ & _ & _ & _ & wa & H).
  rewrite Hact in H. discriminate H.
Qed.

End InitErrors.

Lemma MultiTrack_init_missing_activation_raises_witness :
  _get_activation_annotations Fixture.py_float Fixture.fs_no_activation
    (annotation_dir_of Fixture.cfg "Artist_Title") "Artist_Title"
  = (Raise TypeError,
     [EvExists (activation_path_of Fixture.cfg "Artist_Title");
      EvPrint ("Warning: " +:+ activation_path_of Fixture.cfg "Artist_Title" +:+
               " does not exist.")]) /\
  forall mt w,
    MultiTrack_init Fixture.py_float Fixture.float_div Fixture.fs_no_activation
                    Fixture.cfg "Artist_Title" <> (Ok mt, w).
Proof.
  apply (MultiTrack_init_missing_activation_raises
           Fixture.py_float Fixture.float_div Fixture.fs_no_activation
           Fixture.cfg "Artist_Title").
  reflexivity.
Defined.

(** The run behind C1: the metadata file, the ranking file and the melody
    file are there, the activation-confidence file is not, and the
    construction ends in [TypeError]. *)
Lemma MultiTrack_init_missing_activation_run :
  fs_exists Fixture.fs_no_activation (meta_path_of Fixture.cfg "Artist_Title")
  = true /\
  fs_exists Fixture.fs_no_activation
            (activation_path_of Fixture.cfg "Artist_Title") = false /\
  fst (Fixture.load Fixture.fs_no_activation "Artist_Title") = Raise TypeError /\
  is_ok (fst (Fixture.load Fixture.fs_full "Artist_Title")) = true.
Proof. repeat split; vm_compute; reflexivity. Qed.



Section ParseFacts.
Variable float_div : pyfloat -> pyfloat -> result pyfloat.
Variable fs : filesystem.
Variable cfg : config.

Lemma Track_init_fields instrument file_path stem_idx mix_path pitch_path
    raw_idx component ranking mix_coeff t w :
  Track_init float_div fs cfg instrument file_path stem_idx mix_path
             pitch_path raw_idx component ranking mix_coeff = (Ok t, w) ->
  Track.file_path t = file_path /\ Track.ranking t = ranking /\
  (file_path = None -> Track.duration t = None).
Proof.
  unfold Track_init. intros H. repeat step H.
  apply ret_ok in H as [<- _]. simpl. repeat split.
  intros ->. now apply ret_ok in Hstep1 as [<- _].
Qed.

Lemma file_path_without_audio (d : option string) (name : string) fp w :
  truthy (AUDIO_PATH cfg) = false ->
  (if truthy (AUDIO_PATH cfg)
   then p <- lift (join_opt d name) ;; ret (Some p)
   else ret None) = (Ok fp, w) ->
  fp = None.
Proof. intros ->. intros H. now apply ret_ok in H as [<- _]. Qed.

Lemma Track_init_invariant rankings k instrument file_path mix_path
    pitch_path raw_idx component mix_coeff t w :
  (truthy (AUDIO_PATH cfg) = false -> file_path = None) ->
  Track_init float_div fs cfg instrument file_path (IdxInt k) mix_path
             pitch_path raw_idx component (PyDict.get k rankings) mix_coeff
  = (Ok t, w) ->
  Track.ranking t = PyDict.get k rankings /\
  (truthy (AUDIO_PATH cfg) = false -> no_audio t).
Proof.
  intros Hfp H. apply Track_init_fields in H as (Hf & Hr & Hd).
  split; [exact Hr|]. intros Hno. specialize (Hfp Hno). subst file_path.
  split; [exact Hf|now apply Hd].
Qed.

Lemma parse_raw_inv _raw_dir_path mix_path rankings stem_idx raw_audio jr
    raw_audio' w :
  raw_inv cfg raw_audio ->
  parse_raw float_div fs cfg _raw_dir_path mix_path stem_idx
            (PyDict.get stem_idx rankings) raw_audio jr
  = (Ok raw_audio', w) ->
  raw_inv cfg raw_audio'.
Proof.
  intros Hinv H. unfold parse_raw in H. repeat step H.
  apply ret_ok in H as [<- _].
  apply lift_ok in Hstep2 as [Hinner _].
  assert (Htrack : truthy (AUDIO_PATH cfg) = false -> no_audio a1).
  { eapply Track_init_invariant; [|exact Hstep1].
    intros Hno. eapply file_path_without_audio; eauto. }
  set (base := if PyDict.contains stem_idx raw_audio then raw_audio
               else PyDict.set stem_idx [] raw_audio) in *.
  assert (Hbase : raw_inv cfg base).
  { unfold base. destruct (PyDict.contains stem_idx raw_audio); [exact Hinv|].
    intros k d j t Hin Hjt. apply PyDict_set_in in Hin as [Hin|Hin].
    - inversion Hin; subst. destruct Hjt.
    - now apply (Hinv k d j t). }
  unfold PyDict.item in Hinner.
  destruct (PyDict.get stem_idx base) as [inner|] eqn:Hget; [|discriminate].
  inversion Hinner; subst a2. apply PyDict_get_in in Hget.
  intros k d j t Hin Hjt Hno. apply PyDict_set_in in Hin as [Hin|Hin].
  - inversion Hin; subst. apply PyDict_set_in in Hjt as [Hjt|Hjt].
    + inversion Hjt; subst. now apply Htrack.
    + now apply (Hbase stem_idx inner j t).
  - now apply (Hbase k d j t).
Qed.

Lemma parse_stem_inv track_id _pitch_path _stem_dir_path _raw_dir_path
    mix_path rankings coefficients acc ks acc' w :
  stems_inv cfg rankings (fst acc) /\ raw_inv cfg (snd acc) ->
  parse_stem float_div fs cfg track_id _pitch_path _stem_dir_path
             _raw_dir_path mix_path rankings coefficients acc ks
  = (Ok acc', w) ->
  stems_inv cfg rankings (fst acc') /\ raw_inv cfg (snd acc').
Proof.
  intros [Hs Hr] H. unfold parse_stem in H. repeat step H.
  apply ret_ok in H as [<- _]. cbn [fst snd]. split.
  - intros k t Hin. apply PyDict_set_in in Hin as [Hin|Hin].
    + inversion Hin; subst. eapply Track_init_invariant; [|exact Hstep2].
      intros Hno. eapply file_path_without_audio; eauto.
    + now apply Hs.
  - eapply (foldM_invariant (raw_inv cfg)); [|exact Hr|exact Hstep3].
    intros s x s' w' Hinv _ Hx. eapply parse_raw_inv; eauto.
Qed.

Lemma _parse_metadata_inv track_id _pitch_path _stem_dir_path _raw_dir_path
    mix_path _metadata rankings coefficients stems raw_audio w :
  _parse_metadata float_div fs cfg track_id _pitch_path _stem_dir_path
                  _raw_dir_path mix_path _metadata rankings coefficients
  = (Ok (stems, raw_audio), w) ->
  stems_inv cfg rankings stems /\ raw_inv cfg raw_audio.
Proof.
  unfold _parse_metadata. intros H.
  apply (foldM_invariant
           (fun acc => stems_inv cfg rankings (fst acc) /\ raw_inv cfg (snd acc)))
    in H; [exact H| |].
  - intros s x s' w' Hinv _ Hx. eapply parse_stem_inv; eauto.
  - split; [intros k t []|intros k d j t []].
Qed.

Lemma _get_melody_rankings_wf fpath rankings w :
  _get_melody_rankings fs fpath = (Ok rankings, w) -> PyDict.wf rankings.
Proof.
  unfold _get_melody_rankings. intros H. step H.
  destruct a.
  - step H. eapply (foldM_invariant PyDict.wf); [| |exact H].
    + intros s x s' w' Hwf _ Hx. repeat step Hx.
      apply ret_ok in Hx as [<- _]. now apply PyDict_set_wf.
    + constructor.
  - apply ret_ok in H as [<- _]. constructor.
Qed.
End ParseFacts.

Section PredominantFacts.
Variable cfg : config.
Variable rankings : list (Z * Z).
Variable stems : list (Z * Track.t).
Hypothesis rankings_wf : PyDict.wf rankings.
Hypothesis stems_ok : stems_inv cfg rankings stems.

Lemma rank_one_in (t : Track.t) :
  In t (rank_one_stems stems) <->
  Track.ranking t = Some 1 /\ exists k, In (k, t) stems.
Proof.
  unfold rank_one_stems, PyDict.values.
  rewrite filter_In, in_map_iff, bool_decide_eq_true. split.
  - intros [([k t'] & <- & Hin) Hr]. split; [exact Hr|now exists k].
  - intros [Hr (k & Hin)]. split; [now exists (k, t)|exact Hr].
Qed.

(** The first key of rank 1 in the ranking file, when there is one. *)
Lemma first_rank_one k rest :
  map fst (List.filter (fun kv => snd kv =? 1) rankings) = k :: rest ->
  PyDict.get k rankings = Some 1.
Proof.
  intros Hhead. apply PyDict_in_get; [exact rankings_wf|].
  assert (Hin : In k (map fst (List.filter (fun kv => snd kv =? 1) rankings)))
    by (rewrite Hhead; now left).
  apply in_map_iff in Hin as ([k' v] & <- & Hin).
  apply filter_In in Hin as [Hin Hv]. simpl in *.
  apply Z.eqb_eq in Hv. now subst.
Qed.

Lemma predominant_some (t : Track.t) :
  _get_predominant_stem rankings stems = Ok (Some t) ->
  In t (rank_one_stems stems).
Proof.
  unfold _get_predominant_stem.
  destruct (0 <? length rankings)%nat; [|discriminate].
  destruct (map fst (List.filter (fun kv => snd kv =? 1) rankings))
    as [|k rest] eqn:Hhead; [discriminate|].
  unfold PyDict.item.
  destruct (PyDict.get k stems) as [t0|] eqn:Hget; [|discriminate].
  intros H. inversion H; subst t0. apply PyDict_get_in in Hget.
  apply rank_one_in. split; [|now exists k].
  destruct (stems_ok k t Hget) as [-> _]. now apply (first_rank_one k rest).
Qed.

Lemma predominant_none :
  _get_predominant_stem rankings stems = Ok None ->
  rank_one_stems stems = [].
Proof.
  intros Hnone.
  destruct (rank_one_stems stems) as [|t l] eqn:Hlist; [reflexivity|].
  exfalso.
  assert (Hin : In t (rank_one_stems stems)) by (rewrite Hlist; now left).
  apply rank_one_in in Hin as [Hr (k & Hin)].
  destruct (stems_ok k t Hin) as [Hrank _]. rewrite Hr in Hrank.
  symmetry in Hrank. apply PyDict_get_in in Hrank.
  assert (Hf : In (k, 1) (List.filter (fun kv => snd kv =? 1) rankings))
    by (apply filter_In; now split).
  unfold _get_predominant_stem in Hnone.
  destruct rankings as [|kv r] eqn:Hrk; [destruct Hrank|].
  cbn [length Nat.ltb Nat.leb] in Hnone.
  destruct (map fst (List.filter (fun kv => snd kv =? 1) (kv :: r)))
    as [|k0 rest] eqn:Hhead.
  - apply (in_map fst) in Hf. rewrite Hhead in Hf. destruct Hf.
  - destruct (PyDict.item k0 stems); discriminate.
Qed.
End PredominantFacts.

Section InitTheorems.
Variable py_float : string -> option pyfloat.
Variable float_div : pyfloat -> pyfloat -> result pyfloat.
Variable fs : filesystem.
Variable cfg : config.

(** C5.  A [MultiTrack] constructed while no audio root is configured has
    [mix_path] [None], and every track in [stems] and in [raw_audio] has
    [file_path] [None] and [duration] [None]. *)
Theorem MultiTrack_without_audio_root (track_id : string)
    (mt : MultiTrack.t) (w : list event) :
  truthy (AUDIO_PATH cfg) = false ->
  MultiTrack_init py_float float_div fs cfg track_id = (Ok mt, w) ->
  MultiTrack.mix_path mt = None /\
  (forall k t, In (k, t) (MultiTrack.stems mt) ->
               Track.file_path t = None /\ Track.duration t = None) /\
  (forall k d j t, In (k, d) (MultiTrack.raw_audio mt) -> In (j, t) d ->
                   Track.file_path t = None /\ Track.duration t = None).
Proof.
  intros Hno H.
  apply MultiTrack_init_ok in H as (_ & Hmix & _ & (wp & Hparse) & _).
  apply _parse_metadata_inv in Hparse as [Hs Hr].
  split; [|split].
  - rewrite Hmix. unfold audio_file_of, audio_path_of. now rewrite Hno.
  - intros k t Hin. now apply (Hs k t Hin).
  - intros k d j t Hin Hjt. now apply (Hr k d j t).
Qed.

(** C6.  On a constructed [MultiTrack], [predominant_stem] is [None] when
    no stem has ranking 1, and when exactly one stem has ranking 1 it is
    that stem's track. *)
Theorem predominant_stem_is_rank_one (track_id : string)
    (mt : MultiTrack.t) (w : list event) :
  MultiTrack_init py_float float_div fs cfg track_id = (Ok mt, w) ->
  (rank_one_stems (MultiTrack.stems mt) = [] ->
   MultiTrack.predominant_stem mt = None) /\
  (forall t, rank_one_stems (MultiTrack.stems mt) = [t] ->
             MultiTrack.predominant_stem mt = Some t).
Proof.
  intros H.
  apply MultiTrack_init_ok in H
    as (_ & _ & (wr & Hrank) & (wp & Hparse) & Hpred & _).
  apply _get_melody_rankings_wf in Hrank.
  apply _parse_metadata_inv in Hparse as [Hs _].
  destruct (MultiTrack.predominant_stem mt) as [t0|] eqn:Hp.
  - apply (predominant_some cfg _ _ Hrank Hs) in Hpred. split.
    + intros Hnil. rewrite Hnil in Hpred. destruct Hpred.
    + intros t Hone. rewrite Hone in Hpred.
      destruct Hpred as [->|[]]. reflexivity.
  - apply (predominant_none cfg _ _ Hrank Hs) in Hpred. split; [reflexivity|].
    intros t Hone. rewrite Hone in Hpred. discriminate.
Qed.
End InitTheorems.

Lemma MultiTrack_without_audio_root_witness :
  exists mt w,
    Fixture.load Fixture.fs_full "Artist_Title" = (Ok mt, w) /\
    MultiTrack.mix_path mt = None /\
    (forall k t, In (k, t) (MultiTrack.stems mt) ->
                 Track.file_path t = None /\ Track.duration t = None) /\
    (forall k d j t, In (k, d) (MultiTrack.raw_audio mt) -> In (j, t) d ->
                     Track.file_path t = None /\ Track.duration t = None).
Proof.
  destruct (Fixture.load Fixture.fs_full "Artist_Title") as [[mt|e] w] eqn:E;
    [|vm_compute in E; discriminate E].
  exists mt, w. split; [reflexivity|].
  exact (MultiTrack_without_audio_root
           Fixture.py_float Fixture.float_div Fixture.fs_full Fixture.cfg
           "Artist_Title" mt w eq_refl E).
Defined.

Lemma predominant_stem_is_rank_one_witness :
  exists mt w,
    Fixture.load Fixture.fs_full "Artist_Title" = (Ok mt, w) /\
    rank_one_stems (MultiTrack.stems mt) = [Fixture.stem1] /\
    MultiTrack.predominant_stem mt = Some Fixture.stem1.
Proof.
  destruct (Fixture.load Fixture.fs_full "Artist_Title") as [[mt|e] w] eqn:E;
    [|vm_compute in E; discriminate E].
  exists mt, w. split; [reflexivity|].
  assert (Hone : rank_one_stems (MultiTrack.stems mt) = [Fixture.stem1]).
  { vm_compute in E. inversion E. reflexivity. }
  split; [exact Hone|].
  exact (proj2 (predominant_stem_is_rank_one
                  Fixture.py_float Fixture.float_div Fixture.fs_full Fixture.cfg
                  "Artist_Title" mt w E) Fixture.stem1 Hone).
Defined.


(** * Further properties of the loader *)

(** ** Index strings and [Track.__init__] *)

Lemma lstrip_keeps (c : ascii) (s : string) : no c s -> PyStr.lstrip c s = s.
Proof.
  destruct s as [|a s]; [reflexivity|]. unfold no. simpl.
  intros H. now apply orb_false_iff in H as [-> _].
Qed.

Lemma strip_keeps (c : ascii) (s : string) : no c s -> PyStr.strip c s = s.
Proof.
  intros H. unfold PyStr.strip. rewrite lstrip_keeps by exact H.
  now apply rstrip_no.
Qed.

Lemma strip_prefix (c : ascii) (s : string) :
  no c s -> PyStr.strip c (String c s) = s.
Proof.
  intros H. unfold PyStr.strip. simpl. rewrite Ascii.eqb_refl.
  rewrite lstrip_keeps by exact H. now apply rstrip_no.
Qed.

Lemma no_cons (c a : ascii) (s : string) :
  a <> c -> no c s -> no c (String a s).
Proof.
  unfold no. simpl. intros Hne ->. rewrite orb_false_r.
  now apply Ascii.eqb_neq.
Qed.

Lemma format_index_decimal (n : N) :
  format_index (IdxStr (String "S" (PyStr.decimal n))) = Ok (Some (Z.of_N n)) /\
  format_index (IdxStr (String "R" (PyStr.decimal n))) = Ok (Some (Z.of_N n)).
Proof.
  assert (HS : no "S" (PyStr.decimal n)) by (apply all_digits_uint; reflexivity).
  assert (HR : no "R" (PyStr.decimal n)) by (apply all_digits_uint; reflexivity).
  unfold format_index. split.
  - rewrite strip_prefix by exact HS. rewrite strip_keeps by exact HR.
    now rewrite int_decimal.
  - rewrite (strip_keeps "S") by (apply no_cons; [discriminate|exact HS]).
    rewrite strip_prefix by exact HR. now rewrite int_decimal.
Qed.

Section TrackInitFacts.
Variable float_div : pyfloat -> pyfloat -> result pyfloat.
Variable fs : filesystem.
Variable cfg : config.

Lemma get_duration_ok p d w :
  get_duration float_div fs p = (Ok d, w) -> w = [EvProbe p].
Proof.
  unfold get_duration, bind, emit, lift. simpl.
  destruct (sox_num_samples fs p); [|discriminate].
  destruct (sox_sample_rate fs p); [|discriminate].
  destruct (float_div a a0); [|discriminate].
  intros H. now inversion H.
Qed.

(** Everything [Track.__init__] leaves in the object, and its log. *)
Lemma Track_init_ok instrument file_path stem_idx mix_path pitch_path
    raw_idx component ranking mix_coeff t w :
  Track_init float_div fs cfg instrument file_path stem_idx mix_path
             pitch_path raw_idx component ranking mix_coeff = (Ok t, w) ->
  format_index stem_idx = Ok (Track.stem_idx t) /\
  format_index raw_idx = Ok (Track.raw_idx t) /\
  Track.instrument t = instrument /\
  Track.f0_type t = get_f0_type cfg instrument /\
  Track.file_path t = file_path /\
  Track.component t = component /\
  Track.ranking t = ranking /\
  Track.mixing_coefficient t = mix_coeff /\
  Track.mix_path t = mix_path /\
  Track._pitch_annotation t = None /\
  Track._pitch_path t = pitch_path /\
  match file_path with
  | None => Track.duration t = None /\ w = []
  | Some p =>
      if fs_exists fs p
      then Track.duration t <> None /\ w = [EvExists p; EvProbe p]
      else Track.duration t = None /\ w = [EvExists p]
  end.
Proof.
  unfold Track_init. intros H. repeat step H.
  apply ret_ok in H as [<- ->].
  apply lift_ok in Hstep as [Hs ->]. apply lift_ok in Hstep0 as [Hr ->].
  subst. cbn [Track.stem_idx Track.raw_idx Track.instrument Track.f0_type
              Track.file_path Track.component Track.ranking
              Track.mixing_coefficient Track.mix_path Track._pitch_annotation
              Track._pitch_path Track.duration].
  repeat (split; [first [assumption|reflexivity]|]).
  destruct file_path as [p|].
  - step Hstep1. apply path_exists_ok in Hstep as [-> ->].
    destruct (fs_exists fs p).
    + step Hstep1. apply ret_ok in Hstep1 as [<- ->].
      apply get_duration_ok in Hstep as ->. subst.
      split; [discriminate|reflexivity].
    + apply ret_ok in Hstep1 as [<- ->]. subst. now split.
  - apply ret_ok in Hstep1 as [<- ->]. now split.
Qed.

(** X1.  [Track.__init__] asks the audio library for a duration only for a
    file it has found: the new track has a duration exactly when a file
    path was given and the file exists, every probe in the log is for that
    existing file, and with no file path the constructor touches neither
    the file system nor the audio library. *)
Theorem Track_init_probes_existing_file instrument file_path stem_idx
    mix_path pitch_path raw_idx component ranking mix_coeff t w :
  Track_init float_div fs cfg instrument file_path stem_idx mix_path
             pitch_path raw_idx component ranking mix_coeff = (Ok t, w) ->
  (Track.duration t <> None <->
   exists p, file_path = Some p /\ fs_exists fs p = true) /\
  (forall p, In (EvProbe p) w ->
             file_path = Some p /\ fs_exists fs p = true) /\
  (file_path = None -> w = []).
Proof.
  intros H. apply Track_init_ok in H.
  destruct H as (_ & _ & _ & _ & _ & _ & _ & _ & _ & _ & _ & H).
  destruct file_path as [p|].
  - destruct (fs_exists fs p) eqn:Hex; destruct H as [Hd ->].
    + split; [|split].
      * split; [intros _; now exists p|intros _; exact Hd].
      * intros q [Hq|[Hq|[]]]; [discriminate|]. inversion Hq; subst. now split.
      * discriminate.
    + split; [|split].
      * split; [congruence|]. intros (q & Hq & Hex'). inversion Hq; subst.
        congruence.
      * intros q [Hq|[]]. discriminate.
      * discriminate.
  - destruct H as [Hd ->]. split; [|split].
    + split; [congruence|]. intros (q & Hq & _). discriminate.
    + intros q [].
    + reflexivity.
Qed.

(** X2.  [Track.__init__] stores indices as integers: built with
    [stem_idx = 'S' + str(n)] and [raw_idx = 'R' + str(m)] the track has
    [stem_idx == n] and [raw_idx == m]; and an index string that is no
    number raises the error of [format_index] before anything else
    happens. *)
Theorem Track_init_normalises_indices instrument file_path mix_path
    pitch_path component ranking mix_coeff :
  (forall (n m : N) t w,
      Track_init float_div fs cfg instrument file_path
                 (IdxStr (String "S" (PyStr.decimal n))) mix_path pitch_path
                 (IdxStr (String "R" (PyStr.decimal m))) component ranking
                 mix_coeff = (Ok t, w) ->
      Track.stem_idx t = Some (Z.of_N n) /\
      Track.raw_idx t = Some (Z.of_N m)) /\
  (forall stem_idx raw_idx e,
      format_index stem_idx = Raise e ->
      Track_init float_div fs cfg instrument file_path stem_idx mix_path
                 pitch_path raw_idx component ranking mix_coeff
      = (Raise e, [])).
Proof.
  split.
  - intros n m t w H. apply Track_init_ok in H as (Hs & Hr & _).
    rewrite (proj1 (format_index_decimal n)) in Hs.
    rewrite (proj2 (format_index_decimal m)) in Hr.
    inversion Hs. inversion Hr. now split.
  - intros stem_idx raw_idx e He. unfold Track_init. now rewrite He.
Qed.
End TrackInitFacts.

Lemma Track_init_probes_existing_file_witness :
  exists t,
    Track_init Fixture.float_div FixtureAudio.fs FixtureAudio.cfg "flute"
               (Some FixtureAudio.stem1_file) (IdxInt 1) None None IdxNone
               "melody" None None
    = (Ok t, [EvExists FixtureAudio.stem1_file;
              EvProbe FixtureAudio.stem1_file]) /\
    (Track.duration t <> None <->
     exists p, Some FixtureAudio.stem1_file = Some p /\
               fs_exists FixtureAudio.fs p = true).
Proof.
  eexists. split; [reflexivity|].
  apply (Track_init_probes_existing_file
           Fixture.float_div FixtureAudio.fs FixtureAudio.cfg "flute"
           (Some FixtureAudio.stem1_file) (IdxInt 1) None None IdxNone
           "melody" None None _ _ eq_refl).
Defined.

Lemma Track_init_normalises_indices_witness :
  exists t,
    Track_init Fixture.float_div Fixture.fs_full Fixture.cfg "flute" None
               (IdxStr "S7") None None (IdxStr "R12") "" None None
    = (Ok t, []) /\
    Track.stem_idx t = Some 7 /\ Track.raw_idx t = Some 12.
Proof.
  eexists. split; [reflexivity|].
  apply (proj1 (Track_init_normalises_indices
                  Fixture.float_div Fixture.fs_full Fixture.cfg "flute" None
                  None None "" None None) 7%N 12%N _ [] eq_refl).
Defined.

(** ** Rows and errors of [read_annotation_file] *)

Lemma mapR_all_ok {X Y} (f : X -> result Y) (xs : list X) :
  (forall x, In x xs -> exists y, f x = Ok y) ->
  exists ys, mapR f xs = Ok ys.
Proof.
  induction xs as [|x rest IH]; intros Hall; [now exists []|].
  destruct (Hall x (or_introl eq_refl)) as (y & Hy).
  destruct IH as (ys & Hys); [intros x' Hin; apply Hall; now right|].
  exists (y :: ys). simpl. now rewrite Hy, Hys.
Qed.

Lemma mapR_ok_Forall2 {X Y} (f : X -> result Y) (xs : list X) (ys : list Y) :
  mapR f xs = Ok ys <-> Forall2 (fun x y => f x = Ok y) xs ys.
Proof.
  revert ys. induction xs as [|x rest IH]; intros ys; simpl.
  - split; [intros H; inversion H; constructor|intros H; now inversion H].
  - destruct (f x) as [y|e] eqn:Hx.
    + destruct (mapR f rest) as [ys'|e] eqn:Hrest.
      * split.
        -- intros H. inversion H; subst. constructor; [exact Hx|now apply IH].
        -- intros H. inversion H; subst. apply IH in H4.
           inversion H4; subst. congruence.
      * split; [discriminate|]. intros H. inversion H; subst.
        apply IH in H4. discriminate.
    + split; [discriminate|]. intros H. inversion H; subst. congruence.
Qed.

Lemma mapR_raise_in {X Y} (f : X -> result Y) (xs : list X) (e : exn) :
  mapR f xs = Raise e -> exists x, In x xs /\ f x = Raise e.
Proof.
  induction xs as [|x rest IH]; simpl; [discriminate|].
  destruct (f x) as [y|e'] eqn:Hx.
  - destruct (mapR f rest) as [ys|e'] eqn:Hrest; [discriminate|].
    intros H. inversion H; subst. destruct (IH eq_refl) as (x' & Hin & Hf).
    exists x'. split; [now right|exact Hf].
  - intros H. inversion H; subst. exists x. split; [now left|exact Hx].
Qed.

Lemma mapR_in_raise {X Y} (f : X -> result Y) (xs : list X) (x : X) (e : exn) :
  In x xs -> f x = Raise e -> exists e', mapR f xs = Raise e'.
Proof.
  induction xs as [|x0 rest IH]; simpl; [intros []|].
  intros [->|Hin] Hf.
  - rewrite Hf. now exists e.
  - destruct (f x0) as [y|e0]; [|now exists e0].
    destruct (IH Hin Hf) as (e' & ->). now exists e'.
Qed.

Section ReaderRows.
Variable py_float : string -> option pyfloat.
Variable fs : filesystem.

Lemma read_row_kept (num_cols : option Z) (line : list string) :
  read_row py_float num_cols line
  = mapR (float_of py_float) (kept_fields num_cols line).
Proof. now destruct num_cols. Qed.

Lemma read_row_length num_cols line row :
  read_row py_float num_cols line = Ok row ->
  length row = length (kept_fields num_cols line).
Proof.
  rewrite read_row_kept. intros H. apply mapR_ok_Forall2 in H.
  symmetry. exact (Forall2_length _ _ _ H).
Qed.

Lemma read_row_raise num_cols line e :
  read_row py_float num_cols line = Raise e ->
  e = ValueError /\
  exists field, In field (kept_fields num_cols line) /\ py_float field = None.
Proof.
  rewrite read_row_kept. intros H.
  apply mapR_raise_in in H as (field & Hin & Hf). unfold float_of in Hf.
  destruct (py_float field) eqn:Hp; [discriminate|].
  inversion Hf. split; [reflexivity|]. now exists field.
Qed.

Lemma read_annotation_file_header fpath num_cols header :
  fs_exists fs fpath = true ->
  read_annotation_file py_float fs fpath num_cols header
  = (match header_and_data header (fs_csv fs fpath) with
     | None => Raise StopIteration
     | Some hd =>
         match mapR (read_row py_float num_cols) (snd hd) with
         | Raise e => Raise e
         | Ok ann => Ok (Some ann, Some (fst hd))
         end
     end, [EvExists fpath; EvOpen fpath]).
Proof.
  intros Hex. rewrite read_annotation_file_found by exact Hex.
  unfold header_and_data. destruct header; [|reflexivity].
  now destruct (fs_csv fs fpath).
Qed.

Lemma kept_fields_length num_cols line :
  length (kept_fields num_cols line)
  = match num_cols with
    | None => length line
    | Some n =>
        if n =? 0 then length line
        else if 0 <? n then Nat.min (Z.to_nat n) (length line)
        else (length line - Z.to_nat (- n))%nat
    end.
Proof.
  destruct num_cols as [n|]; [|reflexivity]. unfold kept_fields, slice_to.
  destruct (Z.eqb_spec n 0) as [->|Hn]; [reflexivity|]. simpl.
  destruct (Z.leb_spec 0 n), (Z.ltb_spec 0 n); try lia;
    rewrite length_firstn; lia.
Qed.

(** X3.  When [read_annotation_file] returns an annotation, it has one row
    per data line of the file (every line but the header line when [header]
    is set), and the row of a line holds: all its fields when [num_cols] is
    [None] or 0, its first [num_cols] fields (or all, if it has fewer) when
    [num_cols] is positive, and all but its last [-num_cols] fields when
    [num_cols] is negative. *)
Theorem read_annotation_file_row_shape fpath num_cols header ann hdr w :
  read_annotation_file py_float fs fpath num_cols header
  = (Ok (Some ann, hdr), w) ->
  exists h data,
    header_and_data header (fs_csv fs fpath) = Some (h, data) /\
    hdr = Some h /\
    Forall2 (fun line row =>
               length row
               = match num_cols with
                 | None => length line
                 | Some n =>
                     if n =? 0 then length line
                     else if 0 <? n then Nat.min (Z.to_nat n) (length line)
                     else (length line - Z.to_nat (- n))%nat
                 end) data ann.
Proof.
  destruct (fs_exists fs fpath) eqn:Hex.
  - rewrite read_annotation_file_header by exact Hex.
    destruct (header_and_data header (fs_csv fs fpath)) as [[h data]|];
      [|discriminate].
    simpl. destruct (mapR (read_row py_float num_cols) data) as [rows|e] eqn:Hrows;
      [|discriminate].
    intros H. inversion H; subst. exists h, data. repeat split.
    apply mapR_ok_Forall2 in Hrows.
    eapply Forall2_impl; [exact Hrows|]. intros line row Hrow. simpl in Hrow.
    rewrite <- kept_fields_length. now apply read_row_length.
  - rewrite read_annotation_file_missing by exact Hex. discriminate.
Qed.

(** X4.  On an existing file, [read_annotation_file] raises [StopIteration]
    when a header is asked for and the file has no line, and raises
    [ValueError] exactly when some data line has, among the fields that are
    kept, one that is no number; such a field in a column that [num_cols]
    drops is not looked at. *)
Theorem read_annotation_file_errors fpath num_cols header :
  fs_exists fs fpath = true ->
  (header_and_data header (fs_csv fs fpath) = None ->
   read_annotation_file py_float fs fpath num_cols header
   = (Raise StopIteration, [EvExists fpath; EvOpen fpath])) /\
  (forall h data,
      header_and_data header (fs_csv fs fpath) = Some (h, data) ->
      ((exists line field,
           In line data /\ In field (kept_fields num_cols line) /\
           py_float field = None) <->
       read_annotation_file py_float fs fpath num_cols header
       = (Raise ValueError, [EvExists fpath; EvOpen fpath]))).
Proof.
  intros Hex. rewrite read_annotation_file_header by exact Hex. split.
  - now intros ->.
  - intros h data ->. simpl. split.
    + intros (line & field & Hline & Hfield & Hbad).
      assert (Hrow : exists e, read_row py_float num_cols line = Raise e).
      { rewrite read_row_kept.
        apply (mapR_in_raise _ _ field ValueError Hfield).
        unfold float_of. now rewrite Hbad. }
      destruct Hrow as (e & Hrow).
      destruct (mapR_in_raise _ _ line e Hline Hrow) as (e' & He').
      rewrite He'. apply mapR_raise_in in He' as (line' & _ & Hl').
      now apply read_row_raise in Hl' as [-> _].
    + destruct (mapR (read_row py_float num_cols) data) as [rows|e] eqn:Hrows;
        [discriminate|].
      intros _. apply mapR_raise_in in Hrows as (line & Hline & Hrow).
      apply read_row_raise in Hrow as (_ & field & Hfield & Hbad).
      now exists line, field.
Qed.
End ReaderRows.

Lemma read_annotation_file_row_shape_witness :
  exists h data,
    header_and_data false (fs_csv Fixture.fs_full Fixture.pitch_file)
    = Some (h, data) /\
    Some [] = Some h /\
    Forall2 (fun line row => length row = Nat.min 2 (length line)) data
            [[Float64 0; Float64 440]; [Float64 1; Float64 441]].
Proof.
  exact (read_annotation_file_row_shape
           Fixture.py_float Fixture.fs_full Fixture.pitch_file (Some 2) false
           [[Float64 0; Float64 440]; [Float64 1; Float64 441]] (Some [])
           [EvExists Fixture.pitch_file; EvOpen Fixture.pitch_file] eq_refl).
Defined.

Lemma read_annotation_file_errors_witness :
  read_annotation_file Fixture.py_float Fixture.fs_full Fixture.bad_file
                       None false
  = (Raise ValueError, [EvExists Fixture.bad_file; EvOpen Fixture.bad_file]) /\
  read_annotation_file Fixture.py_float Fixture.fs_full Fixture.bad_file
                       (Some 1) false
  <> (Raise ValueError, [EvExists Fixture.bad_file; EvOpen Fixture.bad_file]).
Proof.
  split.
  - apply (proj2 (read_annotation_file_errors
                    Fixture.py_float Fixture.fs_full Fixture.bad_file None false
                    eq_refl) [] [["0"; "x"]] eq_refl).
    exists ["0"; "x"], "x". repeat split; [now left|right; now left].
  - intros H.
    apply (proj2 (read_annotation_file_errors
                    Fixture.py_float Fixture.fs_full Fixture.bad_file (Some 1)
                    false eq_refl) [] [["0"; "x"]] eq_refl)
      in H as (line & field & [<-|[]] & [<-|[]] & Hbad).
    discriminate Hbad.
Defined.

(** ** Failure of [get_dict_leaves], and the instrument taxonomy *)

Section LeavesErrors.
Context {K A : Type} `{EqDecision A}.
Implicit Types (x v d : pyobj K A).

Lemma hash_all_raise (vals : list (pyobj K A)) :
  forallb hashable_obj vals = false -> hash_all vals = Raise TypeError.
Proof.
  induction vals as [|x rest IH]; simpl; [discriminate|].
  destruct x as [a|s|xs|items]; simpl; try reflexivity;
    intros H; rewrite (IH H); reflexivity.
Qed.

Lemma forallb_false_ex {X} (f : X -> bool) (l : list X) :
  forallb f l = false <-> exists z, In z l /\ f z = false.
Proof.
  induction l as [|y l IH]; simpl.
  - split; [discriminate|intros (z & [] & _)].
  - rewrite andb_false_iff, IH. split.
    + intros [Hy|(z & Hin & Hz)]; [exists y; auto|exists z; auto].
    + intros (z & [->|Hin] & Hz); [now left|right; now exists z].
Qed.

(** Either all leaves are hashable and the call returns their set, or some
    leaf is not and the call raises [TypeError]. *)
Lemma get_dict_leaves_cases d :
  is_dict d = true ->
  (forallb hashable_obj (leaves d) = true /\
   exists s, get_dict_leaves d = Ok s /\
             forall h, In h s <-> In (of_hashable h) (leaves d)) \/
  (forallb hashable_obj (leaves d) = false /\
   get_dict_leaves d = Raise TypeError).
Proof.
  induction d as [a|s0|xs _|items IH] using pyobj_nested_ind;
    try discriminate.
  intros _. cbn [get_dict_leaves].
  match goal with
  | |- context [match ?L with Ok _ => _ | Raise _ => _ end] =>
      assert (Hloop :
        (exists vs, L = Ok vs /\
                    forall x, In x vs <-> In x (leaves (PDict items))) \/
        (L = Raise TypeError /\
         forallb hashable_obj (leaves (PDict items)) = false))
  end.
  { cbn [leaves] in *.
    induction items as [|[k v] rest IHrest].
    - left. exists []. split; [reflexivity|]. tauto.
    - apply Forall_cons_1 in IH as [IHv IHr]. simpl in IHv.
      destruct v as [a|s0|xs|sub].
      + destruct (IHrest IHr) as [(more & -> & Hmore)|[-> Hbad]].
        * left. exists ([PAtom a] ++ more). split; [reflexivity|].
          intros x. rewrite !in_app_iff, Hmore. tauto.
        * right. split; [reflexivity|].
          rewrite forallb_app, Hbad. apply andb_false_r.
      + destruct (IHrest IHr) as [(more & -> & Hmore)|[-> Hbad]].
        * left. exists (chars s0 ++ more). split; [reflexivity|].
          intros x. rewrite !in_app_iff, Hmore. tauto.
        * right. split; [reflexivity|].
          rewrite forallb_app, Hbad. apply andb_false_r.
      + destruct (IHrest IHr) as [(more & -> & Hmore)|[-> Hbad]].
        * left. exists (xs ++ more). split; [reflexivity|].
          intros x. rewrite !in_app_iff, Hmore. tauto.
        * right. split; [reflexivity|].
          rewrite forallb_app, Hbad. apply andb_false_r.
      + destruct (IHv eq_refl) as [(Hv & s & -> & Hs)|[Hv ->]].
        * destruct (IHrest IHr) as [(more & -> & Hmore)|[-> Hbad]].
          -- left. exists (map of_hashable s ++ more). split; [reflexivity|].
             intros x. rewrite !in_app_iff, Hmore, in_map_iff.
             split; (intros [Hx|Hx]; [left|now right]).
             ++ destruct Hx as (h & <- & Hin). now apply Hs.
             ++ rewrite forallb_forall in Hv.
                destruct (hashable_obj_inv x (Hv x Hx)) as [h ->].
                exists h. split; [reflexivity|]. now apply Hs.
          -- right. split; [reflexivity|].
             rewrite forallb_app, Hbad. apply andb_false_r.
        * right. split; [reflexivity|]. rewrite forallb_app, Hv. reflexivity. }
  destruct Hloop as [(vs & -> & Hvs)|[-> Hbad]]; [|right; now split].
  destruct (forallb hashable_obj (leaves (PDict items))) eqn:Hall.
  - left. split; [reflexivity|].
    destruct (py_set_ok vs) as (s & Hs & _ & Hmem).
    + rewrite forallb_forall in *. intros x Hx. apply Hall. now apply Hvs.
    + exists s. split; [exact Hs|]. intros h. rewrite Hmem. apply Hvs.
  - right. split; [reflexivity|]. unfold py_set. rewrite hash_all_raise; [reflexivity|].
    apply forallb_false_ex in Hall as (x & Hx & Hbad).
    apply forallb_false_ex. exists x. split; [now apply Hvs|exact Hbad].
Qed.
End LeavesErrors.

(** X5.  On a dictionary, [get_dict_leaves] fails exactly when one of the
    leaves (an iterable leaf counted by its elements) is not hashable, for
    instance a list inside a list; the failure is a [TypeError], never
    another exception, and otherwise the call returns. *)
Theorem get_dict_leaves_raises_iff_unhashable
    (K A : Type) (dec : EqDecision A) (items : list (K * pyobj K A)) :
  ((exists x, In x (leaves (PDict items)) /\ hashable_obj x = false) <->
   get_dict_leaves (PDict items) = Raise TypeError) /\
  (forall e, get_dict_leaves (PDict items) = Raise e -> e = TypeError).
Proof.
  destruct (get_dict_leaves_cases (PDict items) eq_refl)
    as [(Hall & s & Hs & _)|[Hbad Hraise]].
  - split.
    + split.
      * intros (x & Hin & Hx). rewrite forallb_forall in Hall.
        rewrite (Hall x Hin) in Hx. discriminate.
      * rewrite Hs. discriminate.
    + intros e. rewrite Hs. discriminate.
  - split.
    + split; [intros _; exact Hraise|intros _].
      now apply forallb_false_ex.
    + intros e. rewrite Hraise. intros H. now inversion H.
Qed.

(** X6.  For a taxonomy whose leaves are hashable, [is_valid_instrument]
    returns, and it returns [True] exactly for the strings that are leaves of
    the taxonomy, compared character by character (so upper and lower case
    differ). *)
Theorem is_valid_instrument_iff_leaf
    (K A : Type) (dec : EqDecision A) (items : list (K * pyobj K A))
    (instrument : string) :
  forallb hashable_obj (leaves (PDict items)) = true ->
  exists valid,
    is_valid_instrument (PDict items) instrument = Ok valid /\
    (valid = true <-> In (PStr instrument) (leaves (PDict items))).
Proof.
  intros Hall.
  destruct (get_dict_leaves_cases (PDict items) eq_refl)
    as [(_ & s & Hs & Hmem)|[Hbad _]]; [|congruence].
  unfold is_valid_instrument, get_valid_instrument_labels. rewrite Hs.
  eexists. split; [reflexivity|].
  rewrite existsb_exists. split.
  - intros (h & Hin & Heq). apply bool_decide_eq_true in Heq. subst h.
    now apply Hmem in Hin.
  - intros Hin. exists (HStr instrument). split.
    + now apply Hmem.
    + now apply bool_decide_eq_true.
Qed.

Lemma is_valid_instrument_iff_leaf_witness :
  is_valid_instrument FixtureAudio.taxonomy "clarinet" = Ok true /\
  is_valid_instrument FixtureAudio.taxonomy "Clarinet" = Ok false /\
  exists valid,
    is_valid_instrument FixtureAudio.taxonomy "mayonnaise" = Ok valid /\
    (valid = true <-> In (PStr "mayonnaise") (leaves FixtureAudio.taxonomy)).
Proof.
  split; [reflexivity|]. split; [reflexivity|].
  unfold FixtureAudio.taxonomy.
  apply (is_valid_instrument_iff_leaf string Z _ _ "mayonnaise"). reflexivity.
Defined.

(** ** The ranking file and the predominant stem *)

Section DictUpdates.
Context {K V : Type} `{EqDecision K}.
Implicit Types (d : list (K * V)).

Lemma PyDict_get_set_eq k v d : PyDict.get k (PyDict.set k v d) = Some v.
Proof.
  induction d as [|[k0 v0] d IH]; simpl.
  - now destruct (decide (k = k)).
  - destruct (decide (k0 = k)) as [->|Hne]; simpl.
    + now destruct (decide (k = k)).
    + now destruct (decide (k0 = k)).
Qed.

Lemma PyDict_get_set_ne k k' v d :
  k <> k' -> PyDict.get k' (PyDict.set k v d) = PyDict.get k' d.
Proof.
  intros Hne. induction d as [|[k0 v0] d IH]; simpl.
  - now destruct (decide (k = k')).
  - destruct (decide (k0 = k)) as [->|Hne0]; simpl.
    + now destruct (decide (k = k')).
    + destruct (decide (k0 = k')); [reflexivity|exact IH].
Qed.

Lemma PyDict_get_app k (d1 d2 : list (K * V)) :
  PyDict.get k (d1 ++ d2)
  = match PyDict.get k d1 with Some v => Some v | None => PyDict.get k d2 end.
Proof.
  induction d1 as [|[k0 v0] d1 IH]; simpl; [reflexivity|].
  now destruct (decide (k0 = k)).
Qed.

(** Assigning a list of pairs one after the other: for each key the last
    pair counts. *)
Lemma PyDict_get_fold_set k (pairs : list (K * V)) d :
  PyDict.get k (fold_left (fun d kv => PyDict.set (fst kv) (snd kv) d) pairs d)
  = match PyDict.get k (rev pairs) with
    | Some v => Some v
    | None => PyDict.get k d
    end.
Proof.
  revert d. induction pairs as [|[k0 v0] pairs IH]; intros d; simpl;
    [reflexivity|].
  rewrite IH, PyDict_get_app. simpl.
  destruct (PyDict.get k (rev pairs)); [reflexivity|].
  destruct (decide (k0 = k)) as [->|Hne].
  - apply PyDict_get_set_eq.
  - now apply PyDict_get_set_ne.
Qed.

Lemma PyDict_contains_set k k' v d :
  PyDict.contains k' d = true -> PyDict.contains k' (PyDict.set k v d) = true.
Proof.
  unfold PyDict.contains. destruct (decide (k = k')) as [->|Hne].
  - now rewrite PyDict_get_set_eq.
  - now rewrite PyDict_get_set_ne.
Qed.

Lemma PyDict_contains_set_eq k v d :
  PyDict.contains k (PyDict.set k v d) = true.
Proof. unfold PyDict.contains. now rewrite PyDict_get_set_eq. Qed.
End DictUpdates.

Section RankingFacts.
Variable fs : filesystem.

Lemma ranking_lines (lines : list (list string)) (d : list (Z * Z)) :
  foldM (fun melody_rankings line =>
           name <- lift (index 0 line) ;;
           stem_idx <- lift (PyStr.int
             (first_field (PyStr.split "."
                (last_field (PyStr.split "_" name))))) ;;
           rank <- lift (index 1 line) ;;
           ranking <- lift (PyStr.int rank) ;;
           ret (PyDict.set stem_idx ranking melody_rankings))
        d lines
  = (match mapR parse_ranking_line lines with
     | Ok pairs =>
         Ok (fold_left (fun d kv => PyDict.set (fst kv) (snd kv) d) pairs d)
     | Raise e => Raise e
     end, []).
Proof.
  revert d. induction lines as [|line rest IH]; intros d; [reflexivity|].
  cbn [foldM mapR].
  remember (mapR parse_ranking_line rest) as tail_pairs eqn:Htail.
  unfold parse_ranking_line.
  destruct (index 0 line) as [name|e]; [|reflexivity].
  rewrite bind_lift_ok.
  destruct (PyStr.int _) as [k|e]; [|reflexivity].
  rewrite bind_lift_ok.
  destruct (index 1 line) as [rank|e]; [|reflexivity].
  rewrite bind_lift_ok.
  destruct (PyStr.int rank) as [r|e]; [|reflexivity].
  rewrite bind_lift_ok. unfold bind at 1, ret at 1. rewrite IH.
  now destruct tail_pairs.
Qed.

(** X7.  Without a ranking file [_get_melody_rankings] returns the empty
    dictionary and reads nothing.  With one, it raises what the first bad
    line raises (a missing field, a name or rank that is no integer), and
    otherwise returns a dictionary in which every stem has the rank of the
    last line that names it. *)
Theorem _get_melody_rankings_last_line_wins (fpath : string) :
  (fs_exists fs fpath = false ->
   _get_melody_rankings fs fpath = (Ok [], [EvExists fpath])) /\
  (fs_exists fs fpath = true ->
   forall pairs,
     mapR parse_ranking_line (fs_csv fs fpath) = Ok pairs ->
     exists rankings,
       _get_melody_rankings fs fpath
       = (Ok rankings, [EvExists fpath; EvOpen fpath]) /\
       forall k, PyDict.get k rankings = PyDict.get k (rev pairs)) /\
  (fs_exists fs fpath = true ->
   forall e,
     mapR parse_ranking_line (fs_csv fs fpath) = Raise e ->
     _get_melody_rankings fs fpath
     = (Raise e, [EvExists fpath; EvOpen fpath])).
Proof.
  unfold _get_melody_rankings. rewrite bind_path_exists. split; [|split].
  - now intros ->.
  - intros -> pairs Hpairs. unfold bind, emit. rewrite ranking_lines, Hpairs.
    eexists. split; [reflexivity|]. intros k.
    etransitivity; [apply (PyDict_get_fold_set k pairs [])|].
    now destruct (PyDict.get k (rev pairs)).
  - intros -> e He. unfold bind, emit. now rewrite ranking_lines, He.
Qed.
End RankingFacts.

Lemma _get_melody_rankings_last_line_wins_witness :
  exists rankings,
    _get_melody_rankings Fixture.fs_full Fixture.ranking_file
    = (Ok rankings, [EvExists Fixture.ranking_file;
                     EvOpen Fixture.ranking_file]) /\
    forall k, PyDict.get k rankings = PyDict.get k (rev [(1, 1); (2, 2)]).
Proof.
  exact (proj1 (proj2 (_get_melody_rankings_last_line_wins
                         Fixture.fs_full Fixture.ranking_file))
               eq_refl [(1, 1); (2, 2)] eq_refl).
Defined.

Lemma filter_all_false {X} (f : X -> bool) (l : list X) :
  (forall x, In x l -> f x = false) -> List.filter f l = [].
Proof.
  induction l as [|y l IH]; simpl; [reflexivity|]. intros H.
  rewrite (H y (or_introl eq_refl)). apply IH. intros x Hx. apply H. now right.
Qed.

(** X8.  [_get_predominant_stem] looks at the first stem index, in the order
    of the ranking dictionary, whose rank is 1: it returns the track of that
    index, raises [KeyError] when [stems] has no such index, and returns
    [None] when no rank is 1 (in particular without rankings). *)
Theorem _get_predominant_stem_first_rank_one
    (rankings : list (Z * Z)) (stems : list (Z * Track.t)) :
  ((forall kv, In kv rankings -> snd kv <> 1) ->
   _get_predominant_stem rankings stems = Ok None) /\
  (forall before k after,
      rankings = before ++ (k, 1) :: after ->
      (forall kv, In kv before -> snd kv <> 1) ->
      _get_predominant_stem rankings stems
      = match PyDict.get k stems with
        | Some track => Ok (Some track)
        | None => Raise KeyError
        end).
Proof.
  unfold _get_predominant_stem. split.
  - intros Hnone. rewrite filter_all_false.
    + now destruct (0 <? length rankings)%nat.
    + intros kv Hin. now apply Z.eqb_neq, Hnone.
  - intros before k after -> Hbefore.
    rewrite List.filter_app, filter_all_false
      by (intros kv Hin; now apply Z.eqb_neq, Hbefore).
    rewrite length_app. cbn [app List.filter snd Z.eqb Pos.eqb map fst length].
    replace (0 <? length before + S (length after))%nat with true
      by (symmetry; apply Nat.ltb_lt; lia).
    unfold PyDict.item. now destruct (PyDict.get k stems).
Qed.

Lemma _get_predominant_stem_first_rank_one_witness :
  _get_predominant_stem [(3, 2); (5, 1); (1, 1)] [(1, Fixture.stem1)]
  = Raise KeyError /\
  _get_predominant_stem [(3, 2); (1, 1); (5, 1)] [(1, Fixture.stem1)]
  = Ok (Some Fixture.stem1).
Proof.
  split.
  - apply (proj2 (_get_predominant_stem_first_rank_one
                    [(3, 2); (5, 1); (1, 1)] [(1, Fixture.stem1)])
                 [(3, 2)] 5 [(1, 1)] eq_refl).
    intros kv [<-|[]]. discriminate.
  - apply (proj2 (_get_predominant_stem_first_rank_one
                    [(3, 2); (1, 1); (5, 1)] [(1, Fixture.stem1)])
                 [(3, 2)] 1 [(5, 1)] eq_refl).
    intros kv [<-|[]]. discriminate.
Defined.

(** ** The activation-confidence table *)

Lemma activation_columns_inv (pre header : list string)
    (idx0 idx : list (option Z * nat)) :
  activation_columns (length pre) header idx0 = Ok idx ->
  PyDict.wf idx0 ->
  (forall key c, In (key, c) idx0 ->
     exists s, nth_error (pre ++ header) c = Some s /\ s <> "time" /\
               format_index (IdxStr s) = Ok key) ->
  (forall c s, nth_error pre c = Some s -> s <> "time" ->
     exists key, format_index (IdxStr s) = Ok key /\
                 PyDict.contains key idx0 = true) ->
  PyDict.wf idx /\
  (forall key c, In (key, c) idx ->
     exists s, nth_error (pre ++ header) c = Some s /\ s <> "time" /\
               format_index (IdxStr s) = Ok key) /\
  (forall c s, nth_error (pre ++ header) c = Some s -> s <> "time" ->
     exists key, format_index (IdxStr s) = Ok key /\
                 PyDict.contains key idx = true).
Proof.
  revert pre idx0. induction header as [|s rest IH]; intros pre idx0;
    cbn [activation_columns].
  - intros H Hwf Hsound Hcomplete. inversion H; subst.
    rewrite app_nil_r in *. auto.
  - assert (Hlen : S (length pre) = length (pre ++ [s]))
      by (rewrite length_app; simpl; lia).
    assert (Happ : pre ++ s :: rest = (pre ++ [s]) ++ rest)
      by (now rewrite <- app_assoc).
    assert (Hnth : nth_error (pre ++ s :: rest) (length pre) = Some s).
    { rewrite nth_error_app2 by lia. now rewrite Nat.sub_diag. }
    destruct (String.eqb_spec s "time") as [->|Hs]; cbv iota.
    + rewrite Hlen, Happ. intros H Hwf Hsound Hcomplete.
      apply (IH _ _ H Hwf Hsound).
      intros c s Hc Hne.
      destruct (Nat.lt_ge_cases c (length pre)) as [Hlt|Hge].
      * rewrite nth_error_app1 in Hc by exact Hlt. now apply (Hcomplete c).
      * rewrite nth_error_app2 in Hc by exact Hge.
        destruct (c - length pre)%nat as [|n]; simpl in Hc.
        -- inversion Hc; subst. congruence.
        -- now destruct n.
    + destruct (format_index (IdxStr s)) as [key|e] eqn:Hkey; [|discriminate].
      rewrite Hlen, Happ. intros H Hwf Hsound Hcomplete.
      apply (IH _ _ H).
      * now apply PyDict_set_wf.
      * intros key' c Hin. apply PyDict_set_in in Hin as [Hin|Hin].
        -- inversion Hin; subst. exists s. rewrite <- Happ. auto.
        -- now apply Hsound.
      * intros c s' Hc Hne.
        destruct (Nat.lt_ge_cases c (length pre)) as [Hlt|Hge].
        -- rewrite nth_error_app1 in Hc by exact Hlt.
           destruct (Hcomplete c s' Hc Hne) as (key' & Hk & Hin).
           exists key'. split; [exact Hk|]. now apply PyDict_contains_set.
        -- rewrite nth_error_app2 in Hc by exact Hge.
           destruct (c - length pre)%nat as [|n]; simpl in Hc;
             [|now destruct n].
           inversion Hc; subst.
           exists key. split; [exact Hkey|]. apply PyDict_contains_set_eq.
Qed.

(** X9.  When [_get_activation_annotations] returns, the file has a header
    line, the dictionary it returns sends each stem index to the position of
    a column of that header whose name is not ['time'] and reads as that
    index, each index once, and every column other than ['time'] has its
    index in the dictionary. *)
Theorem _get_activation_annotations_columns
    (py_float : string -> option pyfloat) (fs : filesystem)
    (annotation_dir track_id : string)
    (act : option annotation) (idx : list (option Z * nat)) (w : list event) :
  _get_activation_annotations py_float fs annotation_dir track_id
  = (Ok (act, idx), w) ->
  exists header data,
    fs_csv fs (PyStr.path_join annotation_dir
                               (track_id +:+ "_ACTIVATION_CONF.lab"))
    = header :: data /\
    act <> None /\
    PyDict.wf idx /\
    (forall key c, In (key, c) idx ->
       exists s, nth_error header c = Some s /\ s <> "time" /\
                 format_index (IdxStr s) = Ok key) /\
    (forall c s, nth_error header c = Some s -> s <> "time" ->
       exists key, format_index (IdxStr s) = Ok key /\
                   PyDict.contains key idx = true).
Proof.
  unfold _get_activation_annotations.
  set (path := PyStr.path_join annotation_dir
                               (track_id +:+ "_ACTIVATION_CONF.lab")).
  destruct (fs_exists fs path) eqn:Hex.
  - rewrite read_annotation_file_header by exact Hex.
    unfold header_and_data.
    destruct (fs_csv fs path) as [|header data]; [discriminate|].
    cbn [fst snd].
    destruct (mapR (read_row py_float None) data) as [ann|e]; [|discriminate].
    unfold bind at 1. cbn [snd fst].
    destruct (activation_columns 0 header []) as [cols|e] eqn:Hcols;
      [|discriminate].
    rewrite bind_lift_ok. intros H. inversion H; subst.
    exists header, data. split; [reflexivity|]. split; [discriminate|].
    apply (activation_columns_inv [] header [] idx Hcols).
    + constructor.
    + intros key c [].
    + intros c s Hc. now destruct c.
  - rewrite read_annotation_file_missing by exact Hex. discriminate.
Qed.

Lemma _get_activation_annotations_columns_witness :
  exists header data,
    fs_csv Fixture.fs_full
           (PyStr.path_join Fixture.annot_dir
                            ("Artist_Title" +:+ "_ACTIVATION_CONF.lab"))
    = header :: data /\
    Some [[Float64 0; Float64 1; Float64 0]; [Float64 1; Float64 1; Float64 1]]
    <> None /\
    PyDict.wf [(Some 1, 1%nat); (Some 2, 2%nat)] /\
    (forall key c, In (key, c) [(Some 1, 1%nat); (Some 2, 2%nat)] ->
       exists s, nth_error header c = Some s /\ s <> "time" /\
                 format_index (IdxStr s) = Ok key) /\
    (forall c s, nth_error header c = Some s -> s <> "time" ->
       exists key, format_index (IdxStr s) = Ok key /\
                   PyDict.contains key [(Some 1, 1%nat); (Some 2, 2%nat)] = true).
Proof.
  exact (_get_activation_annotations_columns
           Fixture.py_float Fixture.fs_full Fixture.annot_dir "Artist_Title"
           _ _ [EvExists Fixture.activation_file;
                EvOpen Fixture.activation_file] eq_refl).
Defined.

Lemma index_ok_iff {X} (i : nat) (l : list X) (x : X) :
  index i l = Ok x <-> nth_error l i = Some x.
Proof.
  unfold index. destruct (nth_error l i); split; intros H;
    inversion H; reflexivity.
Qed.

Lemma index_short {X} (i : nat) (l : list X) :
  (length l <= i)%nat -> index i l = Raise IndexError.
Proof.
  intros H. unfold index. apply nth_error_None in H. now rewrite H.
Qed.

(** X10.  [activation_conf_from_stem] returns [None] for a stem index that
    is not in [stem_activations_idx].  For one that is, with column [c], it
    returns whenever every row of [stem_activations] has an entry [c], and
    the list it returns has one pair per row, the pair of a row being its
    first entry and its entry [c]; and a row too short to have an entry [c]
    makes the call raise [IndexError]. *)
Theorem activation_conf_from_stem_pairs (self : MultiTrack.t) (stem_idx : Z) :
  (PyDict.get (Some stem_idx) (MultiTrack.stem_activations_idx self) = None ->
   activation_conf_from_stem self stem_idx = Ok None) /\
  (forall c table,
      PyDict.get (Some stem_idx) (MultiTrack.stem_activations_idx self)
      = Some c ->
      MultiTrack.stem_activations self = Some table ->
      Forall (fun step => (c < length step)%nat) table ->
      exists activations,
        activation_conf_from_stem self stem_idx = Ok (Some activations) /\
        Forall2 (fun step pair =>
                   exists time conf,
                     nth_error step 0 = Some time /\
                     nth_error step c = Some conf /\
                     pair = [time; conf]) table activations) /\
  (forall activations,
      activation_conf_from_stem self stem_idx = Ok (Some activations) ->
      exists c table,
        PyDict.get (Some stem_idx) (MultiTrack.stem_activations_idx self)
        = Some c /\
        MultiTrack.stem_activations self = Some table /\
        Forall2 (fun step pair =>
                   exists time conf,
                     nth_error step 0 = Some time /\
                     nth_error step c = Some conf /\
                     pair = [time; conf]) table activations) /\
  (forall c table step,
      PyDict.get (Some stem_idx) (MultiTrack.stem_activations_idx self)
      = Some c ->
      MultiTrack.stem_activations self = Some table ->
      In step table -> (length step <= c)%nat ->
      activation_conf_from_stem self stem_idx = Raise IndexError).
Proof.
  assert (Hpairs : forall c (table : list (list pyfloat)) out,
    mapR (fun step => match index 0 step with
                      | Raise e => Raise e
                      | Ok time => match index c step with
                                   | Raise e => Raise e
                                   | Ok conf => Ok [time; conf]
                                   end
                      end) table = Ok out ->
    Forall2 (fun step pair =>
               exists time conf,
                 nth_error step 0 = Some time /\
                 nth_error step c = Some conf /\
                 pair = [time; conf]) table out).
  { intros c table out Hout. apply mapR_ok_Forall2 in Hout.
    eapply Forall2_impl; [exact Hout|]. intros step pair Hpair.
    simpl in Hpair.
    destruct (index 0 step) as [time|] eqn:H0; [|discriminate].
    destruct (index c step) as [conf|] eqn:Hc; [|discriminate].
    inversion Hpair. exists time, conf.
    now rewrite <- !index_ok_iff. }
  unfold activation_conf_from_stem. split; [|split; [|split]].
  - now intros ->.
  - intros c table -> -> Hlong.
    match goal with
    | |- context [mapR ?f table] =>
        destruct (mapR_all_ok f table) as (out & Hout)
    end.
    { intros step Hin.
      pose proof (proj1 (List.Forall_forall _ table) Hlong step Hin) as Hl.
      cbv beta in Hl. unfold index.
      destruct (nth_error step 0) as [time|] eqn:H0;
        [|apply nth_error_None in H0; lia].
      destruct (nth_error step c) as [conf|] eqn:Hc;
        [|apply nth_error_None in Hc; lia].
      now exists [time; conf]. }
    rewrite Hout. exists out. split; [reflexivity|]. now apply Hpairs.
  - intros activations.
    destruct (PyDict.get _ _) as [c|]; [|discriminate].
    destruct (MultiTrack.stem_activations self) as [table|]; [|discriminate].
    destruct (mapR _ table) as [out|e] eqn:Hout; [|discriminate].
    intros H. inversion H; subst. exists c, table. repeat split.
    now apply Hpairs.
  - intros c table step -> -> Hin Hshort.
    assert (Hstep : exists e,
      (fun step => match index 0 step with
                   | Raise e => Raise e
                   | Ok time => match index c step with
                                | Raise e => Raise e
                                | Ok conf => Ok [time; conf]
                                end
                   end) step = Raise e).
    { simpl. rewrite (index_short c step Hshort).
      destruct (index 0 step); now eexists. }
    destruct Hstep as (e & Hstep).
    match goal with
    | |- context [mapR ?f table] =>
        destruct (mapR_in_raise f table step e Hin Hstep) as (e' & He')
    end.
    rewrite He'. f_equal.
    apply mapR_raise_in in He' as (step' & _ & Hs'). simpl in Hs'.
    unfold index in Hs'.
    destruct (nth_error step' 0); [|now inversion Hs'].
    destruct (nth_error step' c); [discriminate|now inversion Hs'].
Qed.

(** ** What [_parse_metadata] builds *)

Ltac step_as H a Ha :=
  let w1 := fresh "wa" in
  let w2 := fresh "wb" in
  let Hw := fresh "Hlog" in
  apply bind_ok in H as (a & w1 & w2 & Ha & H & Hw).

Lemma foldM_invariant_seen {S X} (I : list X -> S -> Prop)
    (f : S -> X -> M S) (xs : list X) :
  (forall seen s x s' w,
      I seen s -> In x xs -> f s x = (Ok s', w) -> I (seen ++ [x]) s') ->
  forall s s' w, I [] s -> foldM f s xs = (Ok s', w) -> I xs s'.
Proof.
  intros Hf.
  assert (Hgen : forall rest pre s s' w,
            (forall x, In x rest -> In x xs) ->
            I pre s -> foldM f s rest = (Ok s', w) -> I (pre ++ rest) s').
  { induction rest as [|x rest IH]; intros pre s s' w Hsub Hpre H.
    - apply ret_ok in H as [<- _]. now rewrite app_nil_r.
    - simpl in H. step H.
      replace (pre ++ x :: rest) with ((pre ++ [x]) ++ rest)
        by (now rewrite <- app_assoc).
      eapply IH; [|eapply Hf; [exact Hpre| |exact Hstep]|exact H].
      + intros y Hy. apply Hsub. now right.
      + apply Hsub. now left. }
  intros s s' w Hs H. exact (Hgen xs [] s s' w (fun x Hx => Hx) Hs H).
Qed.

Section DictShape.
Context {K V : Type} `{EqDecision K}.
Implicit Types (d : list (K * V)).

(** In a dictionary with unique keys an assignment replaces the entry of
    its key and leaves the others. *)
Lemma PyDict_set_in_wf k v d k' v' :
  PyDict.wf d -> In (k', v') (PyDict.set k v d) ->
  (k' = k /\ v' = v) \/ (k' <> k /\ In (k', v') d).
Proof.
  intros Hwf Hin.
  pose proof (PyDict_in_get k' v' _ (PyDict_set_wf k v d Hwf) Hin) as Hget.
  destruct (decide (k = k')) as [->|Hne].
  - rewrite PyDict_get_set_eq in Hget. inversion Hget. now left.
  - rewrite PyDict_get_set_ne in Hget by exact Hne.
    right. split; [congruence|]. now apply PyDict_get_in.
Qed.

Lemma PyDict_set_nonempty k v d : PyDict.set k v d <> [].
Proof.
  destruct d as [|[k0 v0] d]; simpl; [discriminate|].
  now destruct (decide (k0 = k)).
Qed.

Lemma PyDict_contains_get k d :
  PyDict.contains k d = true <-> exists v, PyDict.get k d = Some v.
Proof.
  unfold PyDict.contains. destruct (PyDict.get k d) as [v|].
  - split; [intros _; now exists v|reflexivity].
  - split; [discriminate|intros (v & Hv); discriminate].
Qed.
End DictShape.

Section ParseBuilt.
Variable float_div : pyfloat -> pyfloat -> result pyfloat.
Variable fs : filesystem.
Variable cfg : config.
Variable track_id _pitch_path : string.
Variable _stem_dir_path _raw_dir_path mix_path : option string.
Variable rankings : list (Z * Z).
Variable coefficients : list (Z * pyfloat).
Variable md : list (string * stem_entry).

Lemma Track_init_duration instrument file_path stem_idx mp pitch_path
    raw_idx component ranking mix_coeff t w :
  Track_init float_div fs cfg instrument file_path stem_idx mp
             pitch_path raw_idx component ranking mix_coeff = (Ok t, w) ->
  (Track.duration t <> None <->
   exists p, Track.file_path t = Some p /\ fs_exists fs p = true).
Proof.
  intros H. apply Track_init_ok in H.
  destruct H as (_ & _ & _ & _ & Hfp & _ & _ & _ & _ & _ & _ & H).
  rewrite Hfp. destruct file_path as [p|].
  - destruct (fs_exists fs p) eqn:Hex; destruct H as [Hd _].
    + split; [intros _; now exists p|intros _; exact Hd].
    + split; [congruence|]. intros (q & Hq & Hex'). inversion Hq; subst.
      congruence.
  - destruct H as [Hd _]. split; [congruence|].
    intros (q & Hq & _). discriminate.
Qed.

Lemma file_path_step (dir : option string) (name : string) fp w :
  (if truthy (AUDIO_PATH cfg)
   then p <- lift (join_opt dir name) ;; ret (Some p)
   else ret None) = (Ok fp, w) ->
  fp = (if truthy (AUDIO_PATH cfg)
        then option_map (fun d => PyStr.path_join d name) dir
        else None).
Proof.
  destruct (truthy (AUDIO_PATH cfg)).
  - intros H. step H. apply ret_ok in H as [<- _].
    apply lift_ok in Hstep as [Hj _]. destruct dir; simpl in *;
      [now inversion Hj|discriminate].
  - intros H. now apply ret_ok in H as [<- _].
Qed.

(** The state of [raw_audio] inside the loop over the raw sources of one
    stem, whose track is already in [stems]. *)
Let raw_state (stems : list (Z * Track.t))
    (raw_audio : list (Z * list (Z * Track.t))) : Prop :=
  PyDict.wf raw_audio /\
  (forall k d, In (k, d) raw_audio ->
     PyDict.wf d /\ d <> [] /\ PyDict.contains k stems = true) /\
  (forall k d j t, In (k, d) raw_audio -> In (j, t) d ->
     raw_built fs cfg _raw_dir_path mix_path rankings md k j t).

Lemma parse_raw_built stems skey sentry stem_idx raw_audio jr raw_audio' w :
  In (skey, sentry) md -> key_index skey = Ok stem_idx ->
  In jr (stem_raw sentry) ->
  PyDict.contains stem_idx stems = true ->
  raw_state stems raw_audio ->
  parse_raw float_div fs cfg _raw_dir_path mix_path stem_idx
            (PyDict.get stem_idx rankings) raw_audio jr
  = (Ok raw_audio', w) ->
  raw_state stems raw_audio'.
Proof.
  intros Hmd Hkey Hjr Hstem (Hwf & Hshape & Hbuilt) H.
  unfold parse_raw in H.
  step_as H raw_idx Hidx. apply lift_ok in Hidx as [Hidx _].
  step_as H fp Hfp. apply file_path_step in Hfp.
  step_as H track Htrack.
  pose proof (Track_init_duration _ _ _ _ _ _ _ _ _ _ _ Htrack) as Hdur.
  apply Track_init_ok in Htrack
    as (Hs & Hr & Hi & Hf0 & Hfile & Hc & Hrank & Hmix & Hmp & Hcache & Hpp & _).
  step_as H inner Hinner. apply lift_ok in Hinner as [Hinner _].
  apply ret_ok in H as [<- _].
  set (base := if PyDict.contains stem_idx raw_audio then raw_audio
               else PyDict.set stem_idx [] raw_audio) in *.
  assert (Hnew : raw_built fs cfg _raw_dir_path mix_path rankings md
                           stem_idx raw_idx track).
  { simpl in Hs, Hr. inversion Hs. inversion Hr.
    repeat (split; [first [assumption|congruence]|]).
    destruct jr as [rkey rentry]. exists skey, sentry, rkey, rentry.
    rewrite Hi, Hf0, Hfile, Hfp. repeat split; assumption. }
  assert (Hbase_wf : PyDict.wf base).
  { unfold base. destruct (PyDict.contains stem_idx raw_audio);
      [exact Hwf|now apply PyDict_set_wf]. }
  assert (Hbase : forall k d, k <> stem_idx -> In (k, d) base ->
                              In (k, d) raw_audio).
  { unfold base. intros k d Hne Hin.
    destruct (PyDict.contains stem_idx raw_audio); [exact Hin|].
    apply PyDict_set_in in Hin as [Hin|Hin]; [|exact Hin].
    inversion Hin. congruence. }
  assert (Hin_inner : PyDict.wf inner /\
            forall j t, In (j, t) inner ->
              raw_built fs cfg _raw_dir_path mix_path rankings md stem_idx j t).
  { unfold PyDict.item in Hinner.
    destruct (PyDict.get stem_idx base) as [d|] eqn:Hget; [|discriminate].
    inversion Hinner; subst d. unfold base in Hget.
    destruct (PyDict.contains stem_idx raw_audio).
    - apply PyDict_get_in in Hget. split.
      + now apply (Hshape stem_idx inner).
      + intros j t Hjt. now apply (Hbuilt stem_idx inner j t).
    - rewrite PyDict_get_set_eq in Hget. inversion Hget; subst inner.
      split; [constructor|intros j t []]. }
  destruct Hin_inner as [Hinner_wf Hinner_built].
  split; [now apply PyDict_set_wf|]. split.
  - intros k d Hin.
    apply (PyDict_set_in_wf _ _ _ _ _ Hbase_wf) in Hin as [[-> ->]|[Hne Hin]].
    + split; [now apply PyDict_set_wf|].
      split; [apply PyDict_set_nonempty|exact Hstem].
    + now apply Hshape, Hbase.
  - intros k d j t Hin Hjt.
    apply (PyDict_set_in_wf _ _ _ _ _ Hbase_wf) in Hin as [[-> ->]|[Hne Hin]].
    + apply PyDict_set_in in Hjt as [Hjt|Hjt].
      * inversion Hjt; subst. exact Hnew.
      * now apply Hinner_built.
    + apply (Hbuilt k d j t); [now apply Hbase|exact Hjt].
Qed.

Lemma parse_stem_parsed seen acc ks acc' w :
  In ks md ->
  parsed fs cfg track_id _pitch_path _stem_dir_path _raw_dir_path mix_path
         rankings coefficients md seen acc ->
  parse_stem float_div fs cfg track_id _pitch_path _stem_dir_path
             _raw_dir_path mix_path rankings coefficients acc ks
  = (Ok acc', w) ->
  parsed fs cfg track_id _pitch_path _stem_dir_path _raw_dir_path mix_path
         rankings coefficients md (seen ++ [ks]) acc'.
Proof.
  intros Hks (Hswf & Hsbuilt & Hseen & Hrwf & Hrshape & Hrbuilt) H.
  destruct ks as [key entry]. unfold parse_stem in H. cbn [fst snd] in H.
  step_as H stem_idx Hidx. apply lift_ok in Hidx as [Hidx _].
  step_as H fp Hfp. apply file_path_step in Hfp.
  step_as H coeff Hcoeff. apply lift_ok in Hcoeff as [Hcoeff _].
  step_as H track Htrack.
  pose proof (Track_init_duration _ _ _ _ _ _ _ _ _ _ _ Htrack) as Hdur.
  apply Track_init_ok in Htrack
    as (Hs & Hr & Hi & Hf0 & Hfile & Hc & Hrank & Hmix & Hmp & Hcache & Hpp & _).
  step_as H raw_audio Hraw.
  apply ret_ok in H as [<- _]. cbn [fst snd].
  assert (Hnew : stem_built fs cfg track_id _pitch_path _stem_dir_path
                            mix_path rankings coefficients md stem_idx track).
  { simpl in Hs, Hr. inversion Hs. inversion Hr.
    unfold PyDict.item in Hcoeff.
    destruct (PyDict.get stem_idx coefficients) as [c|] eqn:Hget;
      [|discriminate]. inversion Hcoeff; subst c.
    split; [congruence|]. split; [congruence|]. split; [exact Hrank|].
    split; [exists coeff; split; [exact Hget|exact Hmix]|].
    split; [exact Hmp|]. split; [exact Hcache|]. split; [exact Hdur|].
    exists key, entry. rewrite Hi, Hf0, Hfile, Hfp, Hc, Hpp.
    repeat split; assumption. }
  assert (Hkeep : forall k, PyDict.contains k (fst acc) = true ->
                  PyDict.contains k (PyDict.set stem_idx track (fst acc)) = true)
    by (intros k; apply PyDict_contains_set).
  assert (Hstate : raw_state (PyDict.set stem_idx track (fst acc)) raw_audio).
  { eapply (foldM_invariant
              (raw_state (PyDict.set stem_idx track (fst acc))));
      [| |exact Hraw].
    - intros s x s' w' Hinv Hx Hstep.
      eapply (parse_raw_built _ key entry stem_idx); eauto.
      apply PyDict_contains_set_eq.
    - split; [exact Hrwf|]. split.
      + intros k d Hin. destruct (Hrshape k d Hin) as (? & ? & ?). auto.
      + exact Hrbuilt. }
  destruct Hstate as (Hwf' & Hshape' & Hbuilt').
  split; [now apply PyDict_set_wf|]. split.
  - intros k t Hin. apply PyDict_set_in in Hin as [Hin|Hin].
    + inversion Hin; subst. exact Hnew.
    + now apply Hsbuilt.
  - split; [|split; [exact Hwf'|split; [exact Hshape'|exact Hbuilt']]].
    intros key' entry' Hin. apply in_app_iff in Hin as [Hin|[Hin|[]]].
    + destruct (Hseen key' entry' Hin) as (k & Hk & Hcont).
      exists k. split; [exact Hk|now apply Hkeep].
    + inversion Hin; subst. exists stem_idx.
      split; [exact Hidx|apply PyDict_contains_set_eq].
Qed.
End ParseBuilt.

Lemma _parse_metadata_parsed float_div fs cfg track_id _pitch_path
    _stem_dir_path _raw_dir_path mix_path _metadata rankings coefficients
    stems raw_audio w :
  _parse_metadata float_div fs cfg track_id _pitch_path _stem_dir_path
                  _raw_dir_path mix_path _metadata rankings coefficients
  = (Ok (stems, raw_audio), w) ->
  parsed fs cfg track_id _pitch_path _stem_dir_path _raw_dir_path mix_path
         rankings coefficients (md_stems _metadata) (md_stems _metadata)
         (stems, raw_audio).
Proof.
  unfold _parse_metadata. intros H.
  apply (foldM_invariant_seen
           (parsed fs cfg track_id _pitch_path _stem_dir_path _raw_dir_path
                   mix_path rankings coefficients (md_stems _metadata)))
    in H; [exact H| |].
  - intros seen s x s' w' Hinv Hx Hstep.
    eapply parse_stem_parsed; eauto.
  - repeat split; try constructor; simpl; intros; contradiction.
Qed.

(** ** A constructed [MultiTrack] *)

(** One successful step, the log of the step named and the log of the
    whole rewritten as the two pieces. *)
Ltac step_log H a Ha :=
  let w1 := fresh "wstep" in
  let w2 := fresh "wrest" in
  let Hw := fresh "Hlog" in
  apply bind_ok in H as (a & w1 & w2 & Ha & H & Hw);
  match type of Hw with ?x = _ => subst x end.

Section InitFields.
Variable py_float : string -> option pyfloat.
Variable float_div : pyfloat -> pyfloat -> result pyfloat.
Variable fs : filesystem.
Variable cfg : config.

(** The attributes a successful construction leaves, beside those of
    [MultiTrack_init_ok]. *)
Lemma MultiTrack_init_fields track_id mt w :
  MultiTrack_init py_float float_div fs cfg track_id = (Ok mt, w) ->
  MultiTrack.track_id mt = track_id /\
  index 0 (PyStr.split "_" track_id) = Ok (MultiTrack.artist mt) /\
  index 1 (PyStr.split "_" track_id) = Ok (MultiTrack.title mt) /\
  MultiTrack.annotation_dir mt = annotation_dir_of cfg track_id /\
  MultiTrack._pitch_path mt
  = PyStr.path_join (annotation_dir_of cfg track_id) (track_id +:+ "_PITCH") /\
  MultiTrack._stem_dir_path mt = audio_file_of cfg track_id "_STEMS" /\
  MultiTrack._raw_dir_path mt = audio_file_of cfg track_id "_RAW" /\
  fs_yaml fs (meta_path_of cfg track_id) = Ok (MultiTrack._metadata mt) /\
  PyDict.get track_id (MIXING_COEFFICIENTS cfg)
  = Some (MultiTrack.mixing_coefficients mt) /\
  MultiTrack.stem_instruments mt
  = sorted (map Track.instrument (PyDict.values (MultiTrack.stems mt))) /\
  (exists names, leaf_instruments (MultiTrack.raw_audio mt) = Ok names /\
                 MultiTrack.raw_instruments mt = sorted names) /\
  (exists wd,
      match audio_file_of cfg track_id "_MIX.wav" with
      | Some p =>
          found <- path_exists fs p ;;
          if found then d <- get_duration float_div fs p ;; ret (Some d)
          else print ("Warning: Audio missing for " +:+ track_id +:+ ".") ;;;
               ret None
      | None =>
          print ("Warning: Audio missing for " +:+ track_id +:+ ".") ;;;
          ret None
      end = (Ok (MultiTrack.duration mt), wd) /\
      forall e, In e wd -> In e w) /\
  _YESNO (md_excerpt (MultiTrack._metadata mt)) = Ok (MultiTrack.is_excerpt mt) /\
  _YESNO (md_has_bleed (MultiTrack._metadata mt)) = Ok (MultiTrack.has_bleed mt) /\
  _YESNO (md_instrumental (MultiTrack._metadata mt))
  = Ok (MultiTrack.is_instrumental mt) /\
  MultiTrack.origin mt = md_origin (MultiTrack._metadata mt) /\
  MultiTrack.genre mt = md_genre (MultiTrack._metadata mt) /\
  MultiTrack.metadata_version mt = md_version (MultiTrack._metadata mt) /\
  MultiTrack.has_melody mt
  = fs_exists fs (PyStr.path_join (annotation_dir_of cfg track_id)
                                  (track_id +:+ "_MELODY1.csv")) /\
  MultiTrack._melody1_annotation mt = None /\
  MultiTrack._melody2_annotation mt = None /\
  MultiTrack._melody3_annotation mt = None.
Proof.
  unfold MultiTrack_init. intros H.
  step_log H artist Hartist. apply lift_ok in Hartist as [Hartist ->].
  step_log H title Htitle. apply lift_ok in Htitle as [Htitle ->].
  step_log H found Hfound. apply path_exists_ok in Hfound as [-> ->].
  destruct (fs_exists fs (meta_path_of cfg track_id)); [|discriminate].
  cbn [negb] in H.
  step_log H meta Hmeta.
  assert (Hyaml : fs_yaml fs (meta_path_of cfg track_id) = Ok meta).
  { unfold _load_metadata, bind, emit, lift in Hmeta. simpl in Hmeta.
    destruct (fs_yaml fs (meta_path_of cfg track_id)); now inversion Hmeta. }
  step_log H rankings Hrank.
  step_log H coeffs Hcoeffs. apply lift_ok in Hcoeffs as [Hcoeffs ->].
  step_log H sr Hparse.
  step_log H names Hnames. apply lift_ok in Hnames as [Hnames ->].
  step_log H dur Hdur.
  step_log H excerpt Hex. apply lift_ok in Hex as [Hex ->].
  step_log H bleed Hbl. apply lift_ok in Hbl as [Hbl ->].
  step_log H instr Hin. apply lift_ok in Hin as [Hin ->].
  step_log H melody Hmel. apply path_exists_ok in Hmel as [-> ->].
  step_log H predominant Hpred. apply lift_ok in Hpred as [Hpred ->].
  step_log H act Hact.
  apply ret_ok in H as [<- ->].
  cbn [MultiTrack.track_id MultiTrack.artist MultiTrack.title
       MultiTrack.annotation_dir MultiTrack._pitch_path
       MultiTrack._stem_dir_path MultiTrack._raw_dir_path
       MultiTrack._metadata MultiTrack.mixing_coefficients
       MultiTrack.stem_instruments MultiTrack.stems MultiTrack.raw_audio
       MultiTrack.raw_instruments MultiTrack.duration MultiTrack.is_excerpt
       MultiTrack.has_bleed MultiTrack.is_instrumental MultiTrack.origin
       MultiTrack.genre MultiTrack.metadata_version MultiTrack.has_melody
       MultiTrack._melody1_annotation MultiTrack._melody2_annotation
       MultiTrack._melody3_annotation].
  unfold PyDict.item in Hcoeffs.
  destruct (PyDict.get track_id (MIXING_COEFFICIENTS cfg)) as [c|];
    [|discriminate]. inversion Hcoeffs; subst c.
  repeat (split; [first [assumption|reflexivity]|]).
  split; [now exists names|].
  split; [|now repeat split].
  eexists. split; [exact Hdur|].
  intros e He.
  repeat first [ apply in_or_app; left; exact He
               | apply in_or_app; right
               | apply in_cons ].
Qed.
End InitFields.

Lemma split_one (c : ascii) (s b : string) :
  PyStr.split c s = [b] -> s = b.
Proof.
  revert b. induction s as [|x s IH]; intros b; simpl.
  - intros H. now inversion H.
  - destruct (Ascii.eqb x c).
    + destruct s as [|y s]; simpl; [discriminate|].
      destruct (Ascii.eqb y c); [discriminate|].
      destruct (PyStr.split c s); discriminate.
    + destruct (PyStr.split c s) as [|w ws] eqn:Hs.
      * intros H. inversion H; subst.
        destruct s as [|y s]; simpl in Hs; [discriminate|].
        destruct (Ascii.eqb y c); [discriminate|].
        destruct (PyStr.split c s); discriminate.
      * intros H. inversion H; subst. f_equal. now apply IH.
Qed.

Lemma split_pair (c : ascii) (s a b : string) :
  PyStr.split c s = [a; b] -> s = a +:+ String c b.
Proof.
  revert a. induction s as [|x s IH]; intros a; simpl; [discriminate|].
  destruct (Ascii.eqb_spec x c) as [->|Hne].
  - intros H. inversion H as [[Ha Hb]]. apply split_one in Hb. now subst.
  - destruct (PyStr.split c s) as [|w ws] eqn:Hs; [discriminate|].
    intros H. inversion H; subst.
    change (String x s = String x (w +:+ String c b)).
    f_equal. now apply IH.
Qed.

Lemma split_parts_no (c : ascii) (s : string) :
  Forall (no c) (PyStr.split c s).
Proof.
  induction s as [|x s IH]; simpl.
  - constructor; [reflexivity|constructor].
  - destruct (Ascii.eqb_spec x c) as [->|Hne].
    + constructor; [reflexivity|exact IH].
    + destruct (PyStr.split c s) as [|w ws].
      * constructor; [|constructor]. now apply no_cons.
      * inversion IH; subst. constructor; [|assumption]. now apply no_cons.
Qed.

Section Constructed.
Variable py_float : string -> option pyfloat.
Variable float_div : pyfloat -> pyfloat -> result pyfloat.
Variable fs : filesystem.
Variable cfg : config.
Variable track_id : string.
Variable mt : MultiTrack.t.
Variable w : list event.
Hypothesis constructed :
  MultiTrack_init py_float float_div fs cfg track_id = (Ok mt, w).

Lemma MultiTrack_init_parsed :
  parsed fs cfg track_id (MultiTrack._pitch_path mt)
         (MultiTrack._stem_dir_path mt) (MultiTrack._raw_dir_path mt)
         (MultiTrack.mix_path mt) (MultiTrack.melody_rankings mt)
         (MultiTrack.mixing_coefficients mt)
         (md_stems (MultiTrack._metadata mt))
         (md_stems (MultiTrack._metadata mt))
         (MultiTrack.stems mt, MultiTrack.raw_audio mt).
Proof.
  pose proof (MultiTrack_init_ok _ _ _ _ _ _ _ constructed)
    as (_ & Hmix & _ & (wp & Hparse) & _).
  pose proof (MultiTrack_init_fields _ _ _ _ _ _ _ constructed)
    as (_ & _ & _ & _ & Hpitch & Hstem & Hraw & _).
  rewrite Hmix, Hpitch, Hstem, Hraw.
  exact (_parse_metadata_parsed _ _ _ _ _ _ _ _ _ _ _ _ _ _ Hparse).
Qed.

(** X11.  A constructed [MultiTrack] keeps the track id it was given;
    [artist] and [title] are its first two parts between underscores, so
    neither holds an underscore, and when the id has a single underscore it
    reads [artist + '_' + title]. *)
Theorem MultiTrack_artist_title :
  MultiTrack.track_id mt = track_id /\
  no "_" (MultiTrack.artist mt) /\ no "_" (MultiTrack.title mt) /\
  exists rest,
    PyStr.split "_" track_id
    = MultiTrack.artist mt :: MultiTrack.title mt :: rest /\
    (rest = [] ->
     track_id = MultiTrack.artist mt +:+ "_" +:+ MultiTrack.title mt).
Proof.
  pose proof (MultiTrack_init_fields _ _ _ _ _ _ _ constructed)
    as (Hid & Ha & Ht & _).
  pose proof (split_parts_no "_" track_id) as Hno.
  unfold index in Ha, Ht.
  destruct (PyStr.split "_" track_id) as [|a [|b rest]] eqn:Hsplit;
    try discriminate.
  simpl in Ha, Ht. inversion Ha; inversion Ht; subst a b.
  apply Forall_cons_1 in Hno as [Hna Hrest].
  apply Forall_cons_1 in Hrest as [Hnt _].
  split; [exact Hid|]. split; [exact Hna|]. split; [exact Hnt|].
  exists rest. split; [reflexivity|]. intros ->. now apply split_pair.
Qed.

(** X12.  In a constructed [MultiTrack], [stems] holds each index once, and
    the track under index [k] has [stem_idx] [k], no [raw_idx], the rank and
    the mixing coefficient the tables give for [k] (a coefficient there is),
    the mix path of the [MultiTrack], an empty pitch cache, and the
    instrument, component, pitch file and audio file of a metadata entry
    whose key reads as [k]. *)
Theorem MultiTrack_stems_built :
  PyDict.wf (MultiTrack.stems mt) /\
  forall k t, In (k, t) (MultiTrack.stems mt) ->
    PyDict.get k (MultiTrack.stems mt) = Some t /\
    stem_built fs cfg track_id (MultiTrack._pitch_path mt)
               (MultiTrack._stem_dir_path mt) (MultiTrack.mix_path mt)
               (MultiTrack.melody_rankings mt)
               (MultiTrack.mixing_coefficients mt)
               (md_stems (MultiTrack._metadata mt)) k t.
Proof.
  destruct MultiTrack_init_parsed as (Hwf & Hbuilt & _). cbn [fst snd] in *.
  split; [exact Hwf|]. intros k t Hin.
  split; [now apply PyDict_in_get|now apply Hbuilt].
Qed.

(** X13.  In a constructed [MultiTrack], [raw_audio] holds each stem index
    once, every such index is an index of [stems], its dictionary of raw
    tracks is not empty and holds each raw index once; the track under
    indices [k], [j] has [stem_idx] [k], [raw_idx] [j], the rank of stem
    [k], no mixing coefficient, no component, no pitch file, and the
    instrument and audio file of a raw entry of the metadata. *)
Theorem MultiTrack_raw_audio_built :
  PyDict.wf (MultiTrack.raw_audio mt) /\
  forall k d, In (k, d) (MultiTrack.raw_audio mt) ->
    PyDict.wf d /\ d <> [] /\
    PyDict.contains k (MultiTrack.stems mt) = true /\
    forall j t, In (j, t) d ->
      raw_built fs cfg (MultiTrack._raw_dir_path mt) (MultiTrack.mix_path mt)
                (MultiTrack.melody_rankings mt)
                (md_stems (MultiTrack._metadata mt)) k j t.
Proof.
  destruct MultiTrack_init_parsed as (_ & _ & _ & Hwf & Hshape & Hbuilt).
  cbn [fst snd] in *. split; [exact Hwf|]. intros k d Hin.
  destruct (Hshape k d Hin) as (Hd & Hne & Hk).
  repeat (split; [assumption|]). intros j t Hjt. now apply (Hbuilt k d j t).
Qed.

(** X14.  Reading [pitch_annotation] on a raw track of a constructed
    [MultiTrack] returns [None] and touches no file, whatever is on disk:
    raw tracks have no pitch file. *)
Theorem raw_track_has_no_pitch_annotation
    (py_float' : string -> option pyfloat) (fs' : filesystem) :
  forall k d j t,
    In (k, d) (MultiTrack.raw_audio mt) -> In (j, t) d ->
    Track_pitch_annotation py_float' fs' t = (Ok (None, t), []).
Proof.
  destruct MultiTrack_init_parsed as (_ & _ & _ & _ & _ & Hbuilt).
  cbn [fst snd] in *. intros k d j t Hin Hjt.
  destruct (Hbuilt k d j t Hin Hjt)
    as (_ & _ & _ & _ & _ & _ & Hcache & Hpath & _).
  unfold Track_pitch_annotation. now rewrite Hpath, Hcache.
Qed.
End Constructed.

(** ** Counting stems and raw tracks *)

Lemma leaves_atoms (d : list (Z * Track.t)) :
  leaves (PDict (map (fun jt => (fst jt, PAtom (K:=Z) (snd jt))) d))
  = map PAtom (PyDict.values d).
Proof.
  cbn [leaves]. unfold PyDict.values.
  induction d as [|[j t] d IH]; [reflexivity|].
  cbn [map fst snd app]. f_equal. exact IH.
Qed.

Lemma leaves_dict_cons {K A} (k : K) (items : list (K * pyobj K A))
    (rest : list (K * pyobj K A)) :
  leaves (PDict ((k, PDict items) :: rest))
  = leaves (PDict items) ++ leaves (PDict rest).
Proof. reflexivity. Qed.

Lemma leaves_raw_audio_obj (raw_audio : list (Z * list (Z * Track.t))) :
  leaves (raw_audio_obj raw_audio) = map PAtom (raw_tracks raw_audio).
Proof.
  unfold raw_audio_obj, raw_tracks.
  induction raw_audio as [|[k d] rest IH]; [reflexivity|].
  cbn [map concat fst snd]. rewrite leaves_dict_cons, map_app.
  now rewrite leaves_atoms, IH.
Qed.

Lemma nodup_map_injective {X Y} (f : X -> Y) (l : list X) :
  (forall x y, f x = f y -> x = y) -> List.NoDup l -> List.NoDup (map f l).
Proof.
  intros Hinj Hnd. induction Hnd as [|x l Hx Hnd IH]; simpl; constructor.
  - intros Hin. apply in_map_iff in Hin as (y & Hy & Hin).
    apply Hinj in Hy. now subst.
  - exact IH.
Qed.

Lemma values_nodup {V} (g : V -> option Z) (d : list (Z * V)) :
  PyDict.wf d -> (forall j t, In (j, t) d -> g t = Some j) ->
  List.NoDup (PyDict.values d).
Proof.
  intros Hwf Hg. apply (NoDup_map_inv g).
  assert (Heq : map g (PyDict.values d) = map Some (PyDict.keys d)).
  { unfold PyDict.values, PyDict.keys. rewrite !map_map.
    apply map_ext_in. intros [j t] Hin. simpl. now apply Hg. }
  rewrite Heq. apply nodup_map_injective; [|exact Hwf].
  intros x y Hxy. now inversion Hxy.
Qed.

Lemma raw_tracks_in (raw_audio : list (Z * list (Z * Track.t))) (t : Track.t) :
  In t (raw_tracks raw_audio) <->
  exists k d j, In (k, d) raw_audio /\ In (j, t) d.
Proof.
  unfold raw_tracks. rewrite in_concat. split.
  - intros (l & Hl & Ht). apply in_map_iff in Hl as ([k d] & <- & Hin).
    unfold PyDict.values in Ht. apply in_map_iff in Ht as ([j t'] & <- & Hjt).
    now exists k, d, j.
  - intros (k & d & j & Hin & Hjt). exists (PyDict.values d). split.
    + apply in_map_iff. now exists (k, d).
    + unfold PyDict.values. apply in_map_iff. now exists (j, t).
Qed.

(** Raw tracks that carry their two indices are all different. *)
Lemma raw_tracks_nodup (raw_audio : list (Z * list (Z * Track.t))) :
  PyDict.wf raw_audio ->
  (forall k d, In (k, d) raw_audio -> PyDict.wf d) ->
  (forall k d j t, In (k, d) raw_audio -> In (j, t) d ->
     Track.stem_idx t = Some k /\ Track.raw_idx t = Some j) ->
  List.NoDup (raw_tracks raw_audio).
Proof.
  unfold PyDict.wf at 1.
  induction raw_audio as [|[k d] rest IH]; intros Hwf Hd Hidx.
  - constructor.
  - inversion Hwf as [|? ? Hnotin Hrest]; subst.
    change (raw_tracks ((k, d) :: rest))
      with (PyDict.values d ++ raw_tracks rest).
    apply List.NoDup_app.
    + apply (values_nodup Track.raw_idx).
      * apply (Hd k). now left.
      * intros j t Hjt. apply (Hidx k d j t); [now left|exact Hjt].
    + apply IH; [exact Hrest| |].
      * intros k' d' Hin. apply (Hd k'). now right.
      * intros k' d' j t Hin. apply Hidx. now right.
    + intros t Ht Hin. unfold PyDict.values in Ht.
      apply in_map_iff in Ht as ([j t'] & Heq & Hjt). simpl in Heq. subst t'.
      apply raw_tracks_in in Hin as (k' & d' & j' & Hin & Hjt').
      destruct (Hidx k d j t (or_introl eq_refl) Hjt) as [Hk _].
      destruct (Hidx k' d' j' t (or_intror Hin) Hjt') as [Hk' _].
      rewrite Hk in Hk'. inversion Hk'; subst k'.
      apply Hnotin. unfold PyDict.keys. apply in_map_iff. now exists (k, d').
Qed.

(** The set [get_dict_leaves] makes of a [raw_audio] dictionary, read
    through a function of the tracks. *)
Lemma raw_leaves_map {Y} (f : Track.t -> Y) (e : exn)
    (raw_audio : list (Z * list (Z * Track.t))) :
  List.NoDup (raw_tracks raw_audio) ->
  exists leaves ys,
    get_dict_leaves (raw_audio_obj raw_audio) = Ok leaves /\
    length leaves = length (raw_tracks raw_audio) /\
    mapR (fun r => match r with
                   | HAtom t => Ok (f t)
                   | HStr _ => Raise e
                   end) leaves = Ok ys /\
    Permutation ys (map f (raw_tracks raw_audio)).
Proof.
  intros Hnd.
  destruct (get_dict_leaves_ok (raw_audio_obj raw_audio) eq_refl)
    as (s & Hs & Hsnd & Hmem).
  { rewrite leaves_raw_audio_obj. apply forallb_forall. intros x Hx.
    apply in_map_iff in Hx as (t & <- & _). reflexivity. }
  rewrite leaves_raw_audio_obj in Hmem.
  assert (Hperm : Permutation s (map HAtom (raw_tracks raw_audio))).
  { apply NoDup_Permutation.
    - exact Hsnd.
    - apply NoDup_ListNoDup. apply nodup_map_injective; [|exact Hnd].
      intros x y Hxy. now inversion Hxy.
    - intros h. rewrite !list_elem_of_In, Hmem, !in_map_iff. split.
      + intros (t & Ht & Hin). exists t. split; [|exact Hin].
        destruct h; simpl in Ht; now inversion Ht.
      + intros (t & <- & Hin). now exists t. }
  assert (Hts : exists ts, s = map HAtom ts).
  { assert (Hall : forall h, In h s -> exists t, h = HAtom t).
    { intros h Hin. apply Hmem in Hin. apply in_map_iff in Hin as (t & Ht & _).
      exists t. destruct h; simpl in Ht; now inversion Ht. }
    clear Hperm Hmem Hsnd Hs. induction s as [|h s IH].
    - now exists [].
    - destruct (Hall h (or_introl eq_refl)) as (t & ->).
      destruct IH as (ts & ->); [intros h' Hin; apply Hall; now right|].
      now exists (t :: ts). }
  destruct Hts as (ts & ->).
  set (unatom := fun r : hashable Track.t =>
                   match r with HAtom t => [t] | HStr _ => [] end).
  assert (Hflat : forall l, flat_map unatom (map HAtom l) = l).
  { induction l as [|t l IH]; simpl; [reflexivity|now rewrite IH]. }
  apply (Permutation_flat_map unatom) in Hperm. rewrite !Hflat in Hperm.
  exists (map HAtom ts), (map f ts). split; [exact Hs|]. split.
  - rewrite length_map. now apply Permutation_length.
  - split; [|now apply Permutation_map].
    clear. induction ts as [|t ts IH]; [reflexivity|].
    cbn [map mapR]. now rewrite IH.
Qed.

Lemma mapR_ok_in {X Y} (f : X -> result Y) (xs : list X) (ys : list Y) :
  mapR f xs = Ok ys ->
  length ys = length xs /\
  forall y, In y ys <-> exists x, In x xs /\ f x = Ok y.
Proof.
  intros H. apply mapR_ok_Forall2 in H. induction H as [|x y xs ys Hxy H IH].
  - split; [reflexivity|]. intros y. split; [intros []|intros (x & [] & _)].
  - destruct IH as [Hlen Hmem]. split; [simpl; now rewrite Hlen|].
    intros y'. simpl. rewrite Hmem. split.
    + intros [<-|(x' & Hin & Hf)]; [exists x; auto|exists x'; auto].
    + intros (x' & [<-|Hin] & Hf); [left; congruence|right; now exists x'].
Qed.

Lemma string_leb_total :
  Total (fun a b : string => Is_true (String.leb a b)).
Proof.
  intros a b. destruct (String.leb_total a b) as [H|H]; rewrite H; simpl; auto.
Qed.

Lemma sorted_spec (l : list string) :
  Sorted (fun a b => Is_true (String.leb a b)) (sorted l) /\
  Permutation (sorted l) l.
Proof.
  unfold sorted. split.
  - apply (@Sorted_merge_sort _ _ _ string_leb_total).
  - apply merge_sort_Permutation.
Qed.

Section Counted.
Variable py_float : string -> option pyfloat.
Variable float_div : pyfloat -> pyfloat -> result pyfloat.
Variable fs : filesystem.
Variable cfg : config.
Variable track_id : string.
Variable mt : MultiTrack.t.
Variable w : list event.
Hypothesis constructed :
  MultiTrack_init py_float float_div fs cfg track_id = (Ok mt, w).

Lemma MultiTrack_raw_tracks_nodup :
  List.NoDup (raw_tracks (MultiTrack.raw_audio mt)).
Proof.
  destruct (MultiTrack_init_parsed _ _ _ _ _ _ _ constructed)
    as (_ & _ & _ & Hwf & Hshape & Hbuilt). cbn [fst snd] in *.
  apply raw_tracks_nodup; [exact Hwf| |].
  - intros k d Hin. now apply (Hshape k d).
  - intros k d j t Hin Hjt.
    destruct (Hbuilt k d j t Hin Hjt) as (Hk & Hj & _). now split.
Qed.

(** X15.  The raw tracks of a constructed [MultiTrack] are pairwise
    different, so the set [get_dict_leaves] makes of [raw_audio] loses
    none: [num_raw] is the number of entries of [raw_audio], and
    [raw_filepaths] returns the file paths of all of them, in some
    order. *)
Theorem MultiTrack_num_raw_counts_all :
  List.NoDup (raw_tracks (MultiTrack.raw_audio mt)) /\
  num_raw mt = Ok (length (raw_tracks (MultiTrack.raw_audio mt))) /\
  exists paths,
    raw_filepaths mt = Ok paths /\
    Permutation paths
                (map Track.file_path (raw_tracks (MultiTrack.raw_audio mt))).
Proof.
  pose proof MultiTrack_raw_tracks_nodup as Hnd.
  destruct (raw_leaves_map Track.file_path AttributeError _ Hnd)
    as (leaves & paths & Hleaves & Hlen & Hpaths & Hperm).
  split; [exact Hnd|]. unfold num_raw, raw_filepaths. rewrite Hleaves.
  split; [now rewrite Hlen|]. now exists paths.
Qed.

(** X16.  In a constructed [MultiTrack] every key of the metadata stems
    reads as an integer, and the indices of [stems] are exactly these
    integers: [num_stems] is at most the number of metadata entries, and
    equals it when no two keys read as the same integer (['S01'] and
    ['S1'] would share a track). *)
Theorem MultiTrack_num_stems_counts_indices :
  exists idxs,
    mapR key_index (map fst (md_stems (MultiTrack._metadata mt))) = Ok idxs /\
    (forall k, In k (PyDict.keys (MultiTrack.stems mt)) <-> In k idxs) /\
    (num_stems mt <= length (md_stems (MultiTrack._metadata mt)))%nat /\
    (List.NoDup idxs ->
     num_stems mt = length (md_stems (MultiTrack._metadata mt))).
Proof.
  destruct (MultiTrack_init_parsed _ _ _ _ _ _ _ constructed)
    as (Hwf & Hbuilt & Hseen & _). cbn [fst snd] in *.
  destruct (mapR_all_ok key_index
              (map fst (md_stems (MultiTrack._metadata mt))))
    as (idxs & Hidxs).
  { intros key Hin. apply in_map_iff in Hin as ([key' entry] & <- & Hin).
    destruct (Hseen key' entry Hin) as (k & Hk & _). now exists k. }
  destruct (mapR_ok_in _ _ _ Hidxs) as [Hlen Hmem].
  rewrite length_map in Hlen.
  assert (Hkeys : forall k, In k (PyDict.keys (MultiTrack.stems mt)) <->
                            In k idxs).
  { intros k. rewrite Hmem. split.
    - unfold PyDict.keys. intros Hin.
      apply in_map_iff in Hin as ([k' t] & <- & Hin).
      destruct (Hbuilt k' t Hin)
        as (_ & _ & _ & _ & _ & _ & _ & key & entry & Hmd & Hk & _).
      exists key. split; [|exact Hk]. apply in_map_iff. now exists (key, entry).
    - intros (key & Hin & Hk).
      apply in_map_iff in Hin as ([key' entry] & <- & Hin).
      destruct (Hseen key' entry Hin) as (k' & Hk' & Hcont). simpl in Hk.
      rewrite Hk in Hk'. inversion Hk'; subst k'.
      apply PyDict_contains_get in Hcont as (t & Ht).
      apply PyDict_get_in in Ht. unfold PyDict.keys.
      apply in_map_iff. now exists (k, t). }
  assert (Hnum : num_stems mt = length (PyDict.keys (MultiTrack.stems mt)))
    by (unfold num_stems, PyDict.keys; now rewrite length_map).
  exists idxs. split; [exact Hidxs|]. split; [exact Hkeys|]. split.
  - rewrite Hnum, <- Hlen. apply NoDup_incl_length; [exact Hwf|].
    intros k Hk. now apply Hkeys.
  - intros Hnd. rewrite Hnum, <- Hlen. apply Nat.le_antisymm.
    + apply NoDup_incl_length; [exact Hwf|]. intros k Hk. now apply Hkeys.
    + apply NoDup_incl_length; [exact Hnd|]. intros k Hk. now apply Hkeys.
Qed.

(** X17.  [stem_filepaths] of a constructed [MultiTrack] has one entry per
    stem; without an audio root every entry is [None], and with one every
    entry is the file name of a metadata stem inside the directory
    [<root>/<track id>/<track id>_STEMS]. *)
Theorem MultiTrack_stem_filepaths_under_stem_dir :
  length (stem_filepaths mt) = num_stems mt /\
  forall path, In path (stem_filepaths mt) ->
    (truthy (AUDIO_PATH cfg) = false -> path = None) /\
    (truthy (AUDIO_PATH cfg) = true ->
     exists root key entry,
       AUDIO_PATH cfg = Some root /\
       In (key, entry) (md_stems (MultiTrack._metadata mt)) /\
       path = Some (PyStr.path_join
                      (PyStr.path_join (PyStr.path_join root track_id)
                                       (track_id +:+ "_STEMS"))
                      (stem_filename entry))).
Proof.
  destruct (MultiTrack_init_parsed _ _ _ _ _ _ _ constructed)
    as (_ & Hbuilt & _). cbn [fst snd] in *.
  pose proof (MultiTrack_init_fields _ _ _ _ _ _ _ constructed)
    as (_ & _ & _ & _ & _ & Hstem & _).
  unfold stem_filepaths, num_stems, PyDict.values.
  split; [now rewrite !length_map|].
  intros path Hin. rewrite map_map in Hin.
  apply in_map_iff in Hin as ([k t] & <- & Hin). simpl.
  destruct (Hbuilt k t Hin)
    as (_ & _ & _ & _ & _ & _ & _ & key & entry & Hmd & _ & _ & _ & _ & _ & Hfp).
  rewrite Hfp, Hstem. unfold audio_file_of, audio_path_of. split.
  - now intros ->.
  - intros Htruthy. rewrite Htruthy.
    destruct (AUDIO_PATH cfg) as [root|]; [|discriminate].
    exists root, key, entry. now repeat split.
Qed.

(** X18.  In a constructed [MultiTrack], [stem_instruments] is the list of
    the instruments of the stems in ascending order, and [raw_instruments]
    the list of the instruments of all raw tracks in ascending order: each
    label appears as often as there are tracks with it. *)
Theorem MultiTrack_instruments_sorted :
  Sorted (fun a b => Is_true (String.leb a b)) (MultiTrack.stem_instruments mt) /\
  Permutation (MultiTrack.stem_instruments mt)
              (map Track.instrument (PyDict.values (MultiTrack.stems mt))) /\
  Sorted (fun a b => Is_true (String.leb a b)) (MultiTrack.raw_instruments mt) /\
  Permutation (MultiTrack.raw_instruments mt)
              (map Track.instrument (raw_tracks (MultiTrack.raw_audio mt))).
Proof.
  pose proof (MultiTrack_init_fields _ _ _ _ _ _ _ constructed)
    as (_ & _ & _ & _ & _ & _ & _ & _ & _ & Hstems & (names & Hnames & Hraw) & _).
  rewrite Hstems, Hraw.
  split; [apply sorted_spec|]. split; [apply sorted_spec|].
  split; [apply sorted_spec|].
  destruct (raw_leaves_map Track.instrument AttributeError _
              MultiTrack_raw_tracks_nodup)
    as (leaves & ys & Hleaves & _ & Hys & Hperm).
  unfold leaf_instruments in Hnames. rewrite Hleaves, Hys in Hnames.
  inversion Hnames; subst names.
  etransitivity; [apply sorted_spec|exact Hperm].
Qed.
End Counted.

(** ** Attributes derived at construction *)

Lemma _YESNO_ok (x : string) (b : bool) :
  _YESNO x = Ok b -> (x = "yes" /\ b = true) \/ (x = "no" /\ b = false).
Proof.
  unfold _YESNO.
  destruct (String.eqb_spec x "yes") as [->|_]; [intros H; inversion H; auto|].
  destruct (String.eqb_spec x "no") as [->|_]; [intros H; inversion H; auto|].
  discriminate.
Qed.

Lemma _get_activation_annotations_loaded
    (py_float : string -> option pyfloat) (fs : filesystem)
    (annotation_dir track_id : string)
    (act : option annotation) (idx : list (option Z * nat)) (w : list event) :
  _get_activation_annotations py_float fs annotation_dir track_id
  = (Ok (act, idx), w) ->
  fs_exists fs (PyStr.path_join annotation_dir
                                (track_id +:+ "_ACTIVATION_CONF.lab")) = true /\
  act <> None.
Proof.
  unfold _get_activation_annotations.
  set (path := PyStr.path_join annotation_dir
                               (track_id +:+ "_ACTIVATION_CONF.lab")).
  destruct (fs_exists fs path) eqn:Hex.
  - rewrite read_annotation_file_header by exact Hex.
    unfold header_and_data.
    destruct (fs_csv fs path) as [|header data]; [discriminate|].
    cbn [fst snd].
    destruct (mapR (read_row py_float None) data) as [ann|e]; [|discriminate].
    unfold bind at 1. cbn [snd fst].
    destruct (activation_columns 0 header []) as [cols|e] eqn:Hcols;
      [|discriminate].
    rewrite bind_lift_ok. intros H. inversion H; subst.
    split; [reflexivity|discriminate].
  - rewrite read_annotation_file_missing by exact Hex. discriminate.
Qed.

Section Derived.
Variable py_float : string -> option pyfloat.
Variable float_div : pyfloat -> pyfloat -> result pyfloat.
Variable fs : filesystem.
Variable cfg : config.
Variable track_id : string.
Variable mt : MultiTrack.t.
Variable w : list event.
Hypothesis constructed :
  MultiTrack_init py_float float_div fs cfg track_id = (Ok mt, w).

(** X19.  The duration of a constructed [MultiTrack] is read off the mix
    file: when it is set, there is an audio root, the mix file exists, and
    the duration is the quotient of its number of samples by its sample
    rate; when it is [None], the mix file is not there and the warning
    about missing audio was printed. *)
Theorem MultiTrack_duration_from_mix :
  (forall d, MultiTrack.duration mt = Some d ->
     exists p n r,
       MultiTrack.mix_path mt = Some p /\ fs_exists fs p = true /\
       sox_num_samples fs p = Ok n /\ sox_sample_rate fs p = Ok r /\
       float_div n r = Ok d /\ In (EvProbe p) w) /\
  (MultiTrack.duration mt = None ->
     (forall p, MultiTrack.mix_path mt = Some p -> fs_exists fs p = false) /\
     In (EvPrint ("Warning: Audio missing for " +:+ track_id +:+ ".")) w).
Proof.
  pose proof (MultiTrack_init_ok _ _ _ _ _ _ _ constructed) as (_ & Hmix & _).
  pose proof (MultiTrack_init_fields _ _ _ _ _ _ _ constructed)
    as (_ & _ & _ & _ & _ & _ & _ & _ & _ & _ & _ & (wd & Hdur & Hsub) & _).
  rewrite Hmix. destruct (audio_file_of cfg track_id "_MIX.wav") as [p|].
  - rewrite bind_path_exists in Hdur.
    destruct (fs_exists fs p) eqn:Hex.
    + unfold get_duration, bind, emit, lift, ret in Hdur. simpl in Hdur.
      destruct (sox_num_samples fs p) as [n|] eqn:Hn;
        [|simpl in Hdur; inversion Hdur].
      destruct (sox_sample_rate fs p) as [r|] eqn:Hr;
        [|simpl in Hdur; inversion Hdur].
      destruct (float_div n r) as [d'|] eqn:Hd;
        simpl in Hdur; inversion Hdur as [[Hval Hlog]].
      split; [|discriminate].
      intros d Heq. inversion Heq; subst d'.
      exists p, n, r. repeat split; try assumption.
      apply Hsub. rewrite <- Hlog. simpl. auto.
    + unfold print, bind, emit, ret in Hdur. simpl in Hdur.
      inversion Hdur as [[Hval Hlog]]. split; [discriminate|].
      intros _. split.
      * intros p' Hp'. now inversion Hp'; subst.
      * apply Hsub. rewrite <- Hlog. simpl. auto.
  - unfold print, bind, emit, ret in Hdur. simpl in Hdur.
    inversion Hdur as [[Hval Hlog]]. split; [discriminate|].
    intros _. split; [discriminate|].
    apply Hsub. rewrite <- Hlog. simpl. auto.
Qed.

(** X20.  A [MultiTrack] is only constructed when each of the metadata
    fields [excerpt], [has_bleed] and [instrumental] is ['yes'] or ['no'],
    and its three flags are true exactly for ['yes']; origin, genre and
    version are the metadata's. *)
Theorem MultiTrack_flags_yes_no :
  let m := MultiTrack._metadata mt in
  (md_excerpt m = "yes" \/ md_excerpt m = "no") /\
  (MultiTrack.is_excerpt mt = true <-> md_excerpt m = "yes") /\
  (md_has_bleed m = "yes" \/ md_has_bleed m = "no") /\
  (MultiTrack.has_bleed mt = true <-> md_has_bleed m = "yes") /\
  (md_instrumental m = "yes" \/ md_instrumental m = "no") /\
  (MultiTrack.is_instrumental mt = true <-> md_instrumental m = "yes") /\
  fs_yaml fs (meta_path_of cfg track_id) = Ok m /\
  MultiTrack.origin mt = md_origin m /\
  MultiTrack.genre mt = md_genre m /\
  MultiTrack.metadata_version mt = md_version m.
Proof.
  pose proof (MultiTrack_init_fields _ _ _ _ _ _ _ constructed)
    as (_ & _ & _ & _ & _ & _ & _ & Hyaml & _ & _ & _ & _ &
        Hex & Hbl & Hin & Ho & Hg & Hv & _).
  assert (Hflag : forall x b, _YESNO x = Ok b ->
            (x = "yes" \/ x = "no") /\ (b = true <-> x = "yes")).
  { intros x b H. apply _YESNO_ok in H as [[-> ->]|[-> ->]].
    - split; [now left|]. split; reflexivity.
    - split; [now right|]. split; discriminate. }
  cbv zeta.
  destruct (Hflag _ _ Hex) as [? ?]. destruct (Hflag _ _ Hbl) as [? ?].
  destruct (Hflag _ _ Hin) as [? ?].
  repeat (split; [assumption|]). assumption.
Qed.

(** X21.  [has_melody] of a constructed [MultiTrack] says whether the file
    [<id>_MELODY1.csv] is in the annotation directory, and no melody
    annotation is loaded yet.  When it is [False], the first access to
    [melody1_annotation] prints the warning, returns [None] and leaves the
    object as it is; when it is [True], the access opens the file, and what
    it returns, if it returns, is not [None]. *)
Theorem MultiTrack_has_melody_first_access :
  let path := PyStr.path_join (annotation_dir_of cfg track_id)
                              (track_id +:+ "_MELODY1.csv") in
  MultiTrack.has_melody mt = fs_exists fs path /\
  (MultiTrack.has_melody mt = false ->
   melody1_annotation py_float fs mt
   = (Ok (None, mt),
      [EvExists path;
       EvPrint ("Warning: " +:+ path +:+ " does not exist.")])) /\
  (MultiTrack.has_melody mt = true ->
   exists r,
     melody1_annotation py_float fs mt = (r, [EvExists path; EvOpen path]) /\
     forall v mt', r = Ok (v, mt') -> v <> None).
Proof.
  pose proof (MultiTrack_init_fields _ _ _ _ _ _ _ constructed)
    as (Hid & _ & _ & Hdir & _ & _ & _ & _ & _ & _ & _ & _ &
        _ & _ & _ & _ & _ & _ & Hmel & Hcache & _).
  cbv zeta. split; [exact Hmel|]. rewrite Hmel.
  unfold melody1_annotation. rewrite Hcache, Hid, Hdir. split.
  - intros Hex. rewrite read_annotation_file_missing by exact Hex.
    unfold bind, ret. cbn [fst snd app]. do 2 f_equal.
    destruct mt. simpl in Hcache. now subst.
  - intros Hex. rewrite read_annotation_file_found by exact Hex.
    cbn [fst snd].
    destruct (mapR (read_row py_float None)
                   (fs_csv fs (PyStr.path_join (annotation_dir_of cfg track_id)
                                               (track_id +:+ "_MELODY1.csv"))))
      as [ann|e].
    + eexists. unfold bind, ret. cbn [fst snd app]. split; [reflexivity|].
      intros v mt' H. inversion H. discriminate.
    + eexists. unfold bind, ret. cbn [fst snd app]. split; [reflexivity|].
      intros v mt' H. discriminate.
Qed.

(** X22.  A [MultiTrack] is only constructed when its activation file
    exists, and then [stem_activations] is loaded: on a constructed
    [MultiTrack], the only exception [activation_conf_from_stem] can raise
    is the [IndexError] of a row that is too short. *)
Theorem MultiTrack_activation_conf_only_index_error :
  fs_exists fs (activation_path_of cfg track_id) = true /\
  MultiTrack.stem_activations mt <> None /\
  forall stem_idx e,
    activation_conf_from_stem mt stem_idx = Raise e -> e = IndexError.
Proof.
  pose proof (MultiTrack_init_ok _ _ _ _ _ _ _ constructed)
    as (_ & _ & _ & _ & _ & (wa & Hact)).
  apply _get_activation_annotations_loaded in Hact as [Hex Hsome].
  split; [exact Hex|]. split; [exact Hsome|].
  intros stem_idx e. unfold activation_conf_from_stem.
  destruct (PyDict.get _ _) as [c|]; [|discriminate].
  destruct (MultiTrack.stem_activations mt) as [table|]; [|contradiction].
  destruct (mapR _ table) as [out|e'] eqn:Hout; [discriminate|].
  intros H. inversion H; subst e'.
  apply mapR_raise_in in Hout as (step & _ & Hstep). simpl in Hstep.
  unfold index in Hstep.
  destruct (nth_error step 0); [|now inversion Hstep].
  destruct (nth_error step c); [discriminate|now inversion Hstep].
Qed.

(** X23.  Every track of [melody_stems] of a constructed [MultiTrack] is a
    stem built from a metadata entry whose component is ['melody'], and
    every track of [bass_stems] from one whose component is ['bass']; no
    track is in both lists. *)
Theorem MultiTrack_melody_bass_stems_from_metadata :
  (forall t, In t (melody_stems mt) ->
     exists k key entry,
       In (k, t) (MultiTrack.stems mt) /\
       In (key, entry) (md_stems (MultiTrack._metadata mt)) /\
       key_index key = Ok k /\ stem_component entry = "melody" /\
       Track.instrument t = stem_instrument entry) /\
  (forall t, In t (bass_stems mt) ->
     exists k key entry,
       In (k, t) (MultiTrack.stems mt) /\
       In (key, entry) (md_stems (MultiTrack._metadata mt)) /\
       key_index key = Ok k /\ stem_component entry = "bass" /\
       Track.instrument t = stem_instrument entry) /\
  (forall t, In t (melody_stems mt) -> ~ In t (bass_stems mt)).
Proof.
  destruct (MultiTrack_init_parsed _ _ _ _ _ _ _ constructed)
    as (_ & Hbuilt & _). cbn [fst snd] in *.
  assert (Hfrom : forall c t,
            In t (List.filter (fun track => String.eqb (Track.component track) c)
                              (PyDict.values (MultiTrack.stems mt))) ->
            exists k key entry,
              In (k, t) (MultiTrack.stems mt) /\
              In (key, entry) (md_stems (MultiTrack._metadata mt)) /\
              key_index key = Ok k /\ stem_component entry = c /\
              Track.instrument t = stem_instrument entry).
  { intros c t Hin. apply filter_In in Hin as [Hin Hc].
    apply String.eqb_eq in Hc. unfold PyDict.values in Hin.
    apply in_map_iff in Hin as ([k t'] & Ht & Hin). simpl in Ht. subst t'.
    destruct (Hbuilt k t Hin)
      as (_ & _ & _ & _ & _ & _ & _ & key & entry & Hmd & Hk & Hi & _ & Hcomp & _).
    exists k, key, entry. repeat split; try assumption. congruence. }
  split; [apply Hfrom|]. split; [apply Hfrom|].
  unfold melody_stems, bass_stems. intros t Hm Hb.
  apply filter_In in Hm as [_ Hm]. apply filter_In in Hb as [_ Hb].
  apply String.eqb_eq in Hm, Hb. rewrite Hm in Hb. discriminate.
Qed.
End Derived.

(** ** The f0 type of a track *)

Lemma PyDict_get_none {K V} `{EqDecision K} (k : K) (d : list (K * V)) :
  ~ In k (PyDict.keys d) -> PyDict.get k d = None.
Proof.
  intros Hk. destruct (PyDict.get k d) as [v|] eqn:Hget; [|reflexivity].
  exfalso. apply Hk. apply PyDict_get_in in Hget.
  unfold PyDict.keys. apply in_map_iff. now exists (k, v).
Qed.

Lemma PyDict_get_some {K V} `{EqDecision K} (k : K) (d : list (K * V)) :
  In k (PyDict.keys d) -> exists v, PyDict.get k d = Some v.
Proof.
  unfold PyDict.keys. induction d as [|[k' v'] d IH]; simpl; [intros []|].
  intros [Hk|Hk].
  - subst k'. exists v'. now rewrite decide_True.
  - destruct (decide (k' = k)); [now exists v'|now apply IH].
Qed.

(** X24.  A track gets its [f0_type] from [get_f0_type]: for an instrument
    that is a key of [INST_F0_TYPE] it is a type registered for that
    instrument, and for any other instrument it is ['?']; no instrument
    makes the constructor fail. *)
Theorem Track_f0_type_of_instrument
    (float_div : pyfloat -> pyfloat -> result pyfloat) (fs : filesystem)
    (cfg : config) instrument file_path stem_idx mix_path pitch_path raw_idx
    component ranking mix_coeff t w :
  Track_init float_div fs cfg instrument file_path stem_idx mix_path
             pitch_path raw_idx component ranking mix_coeff = (Ok t, w) ->
  (In instrument (PyDict.keys (INST_F0_TYPE cfg)) ->
   In (instrument, Track.f0_type t) (INST_F0_TYPE cfg)) /\
  (~ In instrument (PyDict.keys (INST_F0_TYPE cfg)) ->
   Track.f0_type t = "?") /\
  forall instrument', exists r w',
    Track_init float_div fs cfg instrument' file_path stem_idx mix_path
               pitch_path raw_idx component ranking mix_coeff = (Ok r, w').
Proof.
  intros H. pose proof H as H'.
  apply Track_init_ok in H' as (_ & _ & _ & Hf0 & _).
  rewrite Hf0. unfold get_f0_type. split; [|split].
  - intros Hk. apply PyDict_get_some in Hk as (v & Hv). rewrite Hv.
    now apply PyDict_get_in.
  - intros Hk. now rewrite (PyDict_get_none _ _ Hk).
  - intros instrument'. revert H. unfold Track_init.
    destruct (format_index stem_idx) as [s|]; [|discriminate].
    destruct (format_index raw_idx) as [r|]; [|discriminate].
    rewrite !bind_lift_ok.
    match goal with
    | |- bind ?m _ = _ -> _ => destruct m as [[d|e] wd] eqn:Hd
    end; unfold bind, ret; cbn [fst snd]; [|discriminate].
    intros _. eauto.
Qed.

(** ** Instances on the example data sets *)

Lemma activation_conf_from_stem_pairs_witness :
  exists mt w,
    Fixture.load Fixture.fs_full "Artist_Title" = (Ok mt, w) /\
    exists activations,
      activation_conf_from_stem mt 1 = Ok (Some activations) /\
      Forall2 (fun step pair =>
                 exists time conf,
                   nth_error step 0 = Some time /\
                   nth_error step 1 = Some conf /\
                   pair = [time; conf])
              [[Float64 0; Float64 1; Float64 0];
               [Float64 1; Float64 1; Float64 1]] activations.
Proof.
  destruct (Fixture.load Fixture.fs_full "Artist_Title") as [[mt|e] w] eqn:E;
    [|vm_compute in E; discriminate E].
  exists mt, w. split; [reflexivity|].
  apply (proj1 (proj2 (activation_conf_from_stem_pairs mt 1)) 1%nat).
  - vm_compute in E. inversion E. reflexivity.
  - vm_compute in E. inversion E. reflexivity.
  - repeat constructor.
Defined.

Lemma MultiTrack_artist_title_witness :
  exists mt w,
    Fixture.load Fixture.fs_full "Artist_Title" = (Ok mt, w) /\
    MultiTrack.track_id mt = "Artist_Title" /\
    no "_" (MultiTrack.artist mt) /\ no "_" (MultiTrack.title mt) /\
    exists rest,
      PyStr.split "_" "Artist_Title"
      = MultiTrack.artist mt :: MultiTrack.title mt :: rest /\
      (rest = [] ->
       "Artist_Title" = MultiTrack.artist mt +:+ "_" +:+ MultiTrack.title mt).
Proof.
  destruct (Fixture.load Fixture.fs_full "Artist_Title") as [[mt|e] w] eqn:E;
    [|vm_compute in E; discriminate E].
  exists mt, w. split; [reflexivity|].
  exact (MultiTrack_artist_title
           Fixture.py_float Fixture.float_div Fixture.fs_full Fixture.cfg
           "Artist_Title" mt w E).
Defined.

Lemma MultiTrack_stems_built_witness :
  exists mt w,
    FixtureAudio.load "Artist_Title" = (Ok mt, w) /\
    PyDict.wf (MultiTrack.stems mt) /\
    forall k t, In (k, t) (MultiTrack.stems mt) ->
      PyDict.get k (MultiTrack.stems mt) = Some t /\
      stem_built FixtureAudio.fs FixtureAudio.cfg "Artist_Title"
                 (MultiTrack._pitch_path mt) (MultiTrack._stem_dir_path mt)
                 (MultiTrack.mix_path mt) (MultiTrack.melody_rankings mt)
                 (MultiTrack.mixing_coefficients mt)
                 (md_stems (MultiTrack._metadata mt)) k t.
Proof.
  destruct (FixtureAudio.load "Artist_Title") as [[mt|e] w] eqn:E;
    [|vm_compute in E; discriminate E].
  exists mt, w. split; [reflexivity|].
  exact (MultiTrack_stems_built
           Fixture.py_float Fixture.float_div FixtureAudio.fs FixtureAudio.cfg
           "Artist_Title" mt w E).
Defined.

Lemma MultiTrack_raw_audio_built_witness :
  exists mt w,
    FixtureAudio.load "Artist_Title" = (Ok mt, w) /\
    PyDict.wf (MultiTrack.raw_audio mt) /\
    forall k d, In (k, d) (MultiTrack.raw_audio mt) ->
      PyDict.wf d /\ d <> [] /\
      PyDict.contains k (MultiTrack.stems mt) = true /\
      forall j t, In (j, t) d ->
        raw_built FixtureAudio.fs FixtureAudio.cfg
                  (MultiTrack._raw_dir_path mt) (MultiTrack.mix_path mt)
                  (MultiTrack.melody_rankings mt)
                  (md_stems (MultiTrack._metadata mt)) k j t.
Proof.
  destruct (FixtureAudio.load "Artist_Title") as [[mt|e] w] eqn:E;
    [|vm_compute in E; discriminate E].
  exists mt, w. split; [reflexivity|].
  exact (MultiTrack_raw_audio_built
           Fixture.py_float Fixture.float_div FixtureAudio.fs FixtureAudio.cfg
           "Artist_Title" mt w E).
Defined.

Lemma raw_track_has_no_pitch_annotation_witness :
  exists mt w,
    Fixture.load Fixture.fs_full "Artist_Title" = (Ok mt, w) /\
    forall k d j t,
      In (k, d) (MultiTrack.raw_audio mt) -> In (j, t) d ->
      Track_pitch_annotation Fixture.py_float Fixture.fs_full t
      = (Ok (None, t), []).
Proof.
  destruct (Fixture.load Fixture.fs_full "Artist_Title") as [[mt|e] w] eqn:E;
    [|vm_compute in E; discriminate E].
  exists mt, w. split; [reflexivity|].
  exact (raw_track_has_no_pitch_annotation
           Fixture.py_float Fixture.float_div Fixture.fs_full Fixture.cfg
           "Artist_Title" mt w E Fixture.py_float Fixture.fs_full).
Defined.

Lemma MultiTrack_num_raw_counts_all_witness :
  exists mt w,
    Fixture.load Fixture.fs_full "Artist_Title" = (Ok mt, w) /\
    List.NoDup (raw_tracks (MultiTrack.raw_audio mt)) /\
    num_raw mt = Ok (length (raw_tracks (MultiTrack.raw_audio mt))) /\
    exists paths,
      raw_filepaths mt = Ok paths /\
      Permutation paths
                  (map Track.file_path (raw_tracks (MultiTrack.raw_audio mt))).
Proof.
  destruct (Fixture.load Fixture.fs_full "Artist_Title") as [[mt|e] w] eqn:E;
    [|vm_compute in E; discriminate E].
  exists mt, w. split; [reflexivity|].
  exact (MultiTrack_num_raw_counts_all
           Fixture.py_float Fixture.float_div Fixture.fs_full Fixture.cfg
           "Artist_Title" mt w E).
Defined.

Lemma MultiTrack_num_stems_counts_indices_witness :
  exists mt w,
    Fixture.load Fixture.fs_full "Artist_Title" = (Ok mt, w) /\
    exists idxs,
      mapR key_index (map fst (md_stems (MultiTrack._metadata mt))) = Ok idxs /\
      (forall k, In k (PyDict.keys (MultiTrack.stems mt)) <-> In k idxs) /\
      (num_stems mt <= length (md_stems (MultiTrack._metadata mt)))%nat /\
      (List.NoDup idxs ->
       num_stems mt = length (md_stems (MultiTrack._metadata mt))).
Proof.
  destruct (Fixture.load Fixture.fs_full "Artist_Title") as [[mt|e] w] eqn:E;
    [|vm_compute in E; discriminate E].
  exists mt, w. split; [reflexivity|].
  exact (MultiTrack_num_stems_counts_indices
           Fixture.py_float Fixture.float_div Fixture.fs_full Fixture.cfg
           "Artist_Title" mt w E).
Defined.

Lemma MultiTrack_stem_filepaths_under_stem_dir_witness :
  exists mt w,
    FixtureAudio.load "Artist_Title" = (Ok mt, w) /\
    length (stem_filepaths mt) = num_stems mt /\
    forall path, In path (stem_filepaths mt) ->
      (truthy (AUDIO_PATH FixtureAudio.cfg) = false -> path = None) /\
      (truthy (AUDIO_PATH FixtureAudio.cfg) = true ->
       exists root key entry,
         AUDIO_PATH FixtureAudio.cfg = Some root /\
         In (key, entry) (md_stems (MultiTrack._metadata mt)) /\
         path = Some (PyStr.path_join
                        (PyStr.path_join (PyStr.path_join root "Artist_Title")
                                         ("Artist_Title" +:+ "_STEMS"))
                        (stem_filename entry))).
Proof.
  destruct (FixtureAudio.load "Artist_Title") as [[mt|e] w] eqn:E;
    [|vm_compute in E; discriminate E].
  exists mt, w. split; [reflexivity|].
  exact (MultiTrack_stem_filepaths_under_stem_dir
           Fixture.py_float Fixture.float_div FixtureAudio.fs FixtureAudio.cfg
           "Artist_Title" mt w E).
Defined.

Lemma MultiTrack_instruments_sorted_witness :
  exists mt w,
    Fixture.load Fixture.fs_full "Artist_Title" = (Ok mt, w) /\
    Sorted (fun a b => Is_true (String.leb a b))
           (MultiTrack.stem_instruments mt) /\
    Permutation (MultiTrack.stem_instruments mt)
                (map Track.instrument (PyDict.values (MultiTrack.stems mt))) /\
    Sorted (fun a b => Is_true (String.leb a b))
           (MultiTrack.raw_instruments mt) /\
    Permutation (MultiTrack.raw_instruments mt)
                (map Track.instrument (raw_tracks (MultiTrack.raw_audio mt))).
Proof.
  destruct (Fixture.load Fixture.fs_full "Artist_Title") as [[mt|e] w] eqn:E;
    [|vm_compute in E; discriminate E].
  exists mt, w. split; [reflexivity|].
  exact (MultiTrack_instruments_sorted
           Fixture.py_float Fixture.float_div Fixture.fs_full Fixture.cfg
           "Artist_Title" mt w E).
Defined.

Lemma MultiTrack_duration_from_mix_witness :
  exists mt w,
    FixtureAudio.load "Artist_Title" = (Ok mt, w) /\
    (forall d, MultiTrack.duration mt = Some d ->
       exists p n r,
         MultiTrack.mix_path mt = Some p /\
         fs_exists FixtureAudio.fs p = true /\
         sox_num_samples FixtureAudio.fs p = Ok n /\
         sox_sample_rate FixtureAudio.fs p = Ok r /\
         Fixture.float_div n r = Ok d /\ In (EvProbe p) w) /\
    (MultiTrack.duration mt = None ->
       (forall p, MultiTrack.mix_path mt = Some p ->
                  fs_exists FixtureAudio.fs p = false) /\
       In (EvPrint ("Warning: Audio missing for " +:+ "Artist_Title" +:+ "."))
          w).
Proof.
  destruct (FixtureAudio.load "Artist_Title") as [[mt|e] w] eqn:E;
    [|vm_compute in E; discriminate E].
  exists mt, w. split; [reflexivity|].
  exact (MultiTrack_duration_from_mix
           Fixture.py_float Fixture.float_div FixtureAudio.fs FixtureAudio.cfg
           "Artist_Title" mt w E).
Defined.

Lemma MultiTrack_flags_yes_no_witness :
  exists mt w,
    Fixture.load Fixture.fs_full "Artist_Title" = (Ok mt, w) /\
    (MultiTrack.is_excerpt mt = true <->
     md_excerpt (MultiTrack._metadata mt) = "yes") /\
    (MultiTrack.has_bleed mt = true <->
     md_has_bleed (MultiTrack._metadata mt) = "yes") /\
    (MultiTrack.is_instrumental mt = true <->
     md_instrumental (MultiTrack._metadata mt) = "yes").
Proof.
  destruct (Fixture.load Fixture.fs_full "Artist_Title") as [[mt|e] w] eqn:E;
    [|vm_compute in E; discriminate E].
  exists mt, w. split; [reflexivity|].
  destruct (MultiTrack_flags_yes_no
              Fixture.py_float Fixture.float_div Fixture.fs_full Fixture.cfg
              "Artist_Title" mt w E)
    as (_ & Hex & _ & Hbl & _ & Hin & _).
  exact (conj Hex (conj Hbl Hin)).
Defined.

Lemma MultiTrack_has_melody_first_access_witness :
  exists mt w,
    Fixture.load Fixture.fs_full "Artist_Title" = (Ok mt, w) /\
    MultiTrack.has_melody mt
    = fs_exists Fixture.fs_full
                (PyStr.path_join (annotation_dir_of Fixture.cfg "Artist_Title")
                                 ("Artist_Title" +:+ "_MELODY1.csv")).
Proof.
  destruct (Fixture.load Fixture.fs_full "Artist_Title") as [[mt|e] w] eqn:E;
    [|vm_compute in E; discriminate E].
  exists mt, w. split; [reflexivity|].
  exact (proj1 (MultiTrack_has_melody_first_access
                  Fixture.py_float Fixture.float_div Fixture.fs_full
                  Fixture.cfg "Artist_Title" mt w E)).
Defined.

Lemma MultiTrack_activation_conf_only_index_error_witness :
  exists mt w,
    Fixture.load Fixture.fs_full "Artist_Title" = (Ok mt, w) /\
    fs_exists Fixture.fs_full (activation_path_of Fixture.cfg "Artist_Title")
    = true /\
    MultiTrack.stem_activations mt <> None /\
    forall stem_idx e,
      activation_conf_from_stem mt stem_idx = Raise e -> e = IndexError.
Proof.
  destruct (Fixture.load Fixture.fs_full "Artist_Title") as [[mt|e] w] eqn:E;
    [|vm_compute in E; discriminate E].
  exists mt, w. split; [reflexivity|].
  exact (MultiTrack_activation_conf_only_index_error
           Fixture.py_float Fixture.float_div Fixture.fs_full Fixture.cfg
           "Artist_Title" mt w E).
Defined.

Lemma MultiTrack_melody_bass_stems_from_metadata_witness :
  exists mt w,
    Fixture.load Fixture.fs_full "Artist_Title" = (Ok mt, w) /\
    forall t, In t (melody_stems mt) -> ~ In t (bass_stems mt).
Proof.
  destruct (Fixture.load Fixture.fs_full "Artist_Title") as [[mt|e] w] eqn:E;
    [|vm_compute in E; discriminate E].
  exists mt, w. split; [reflexivity|].
  exact (proj2 (proj2 (MultiTrack_melody_bass_stems_from_metadata
                         Fixture.py_float Fixture.float_div Fixture.fs_full
                         Fixture.cfg "Artist_Title" mt w E))).
Defined.

Lemma Track_f0_type_of_instrument_witness :
  exists t,
    Track_init Fixture.float_div Fixture.fs_full Fixture.cfg "kazoo" None
               (IdxInt 3) None None IdxNone "" None None
    = (Ok t, []) /\
    Track.f0_type t = "?".
Proof.
  eexists. split; [reflexivity|].
  apply (Track_f0_type_of_instrument
           Fixture.float_div Fixture.fs_full Fixture.cfg "kazoo" None
           (IdxInt 3) None None IdxNone "" None None _ _ eq_refl).
  simpl. intros [H|[H|[]]]; discriminate H.
Defined.
